(** * Multi-client attribution engine of activitywatch-mcp

    A shallow embedding of [claude-instructions/update-june-with-clients.py]
    (client detection, per-phase rewrite, per-client aggregation and the
    day-level totals) and of the configuration loader of
    [claude-instructions/client-config-manager.py], followed by the
    properties of the specification that were checked against it.

    Conventions of the embedding:
    - a Python [str] is a [string]; [str.lower] is modelled on the ASCII
      letters (texts and patterns without cased non-ASCII letters);
    - a JSON object read with [d[k]] has [k] as a mandatory record field,
      one read with [d.get(k, default)] has it as an [option];
    - a [dict] that is iterated is an insertion-ordered association list
      ([PyDict]); a [dict] that is only indexed is a [gmap]; a Python
      [set] is a [gset];
    - a Python [float] is an IEEE-754 binary64 number ([spec_float] at
      precision 53), [int / int] and [round(x, 1)] are correctly rounded;
    - [durationMinutes] is an [int], as the generators of the records
      write it;
    - an exception is a [Raise] in the [result] monad. *)

From Stdlib Require Import ZArith String Ascii List Bool Lia.
From Stdlib Require Import Floats.SpecFloat.
From stdpp Require Import gmap strings list.

Open Scope string_scope.
Open Scope Z_scope.

(** ** Exceptions *)

Inductive exn : Type :=
  | KeyError (key : string)
  | OverflowError.

Inductive result (A : Type) : Type :=
  | Ok (a : A)
  | Raise (e : exn).

Arguments Ok {A} a.
Arguments Raise {A} e.

#[global] Instance result_ret : MRet result := fun A a => Ok a.

#[global] Instance result_bind : MBind result :=
  fun A B f m => match m with Ok a => f a | Raise e => Raise e end.

#[global] Instance result_fmap : FMap result :=
  fun A B f m => match m with Ok a => Ok (f a) | Raise e => Raise e end.

Definition is_Ok {A} (r : result A) : Prop := exists a, r = Ok a.

(** ** Python strings *)

Module PyStr.

(** [c.lower()] on one ASCII character. *)
Definition lower_ascii (c : ascii) : ascii :=
  let n := N_of_ascii c in
  if ((65 <=? n) && (n <=? 90))%N then ascii_of_N (n + 32) else c.

(** [s.lower()]. *)
Fixpoint lower (s : string) : string :=
  match s with
  | EmptyString => EmptyString
  | String c rest => String (lower_ascii c) (lower rest)
  end.

(** [s.startswith(prefix)]. *)
Definition startswith (s prefix : string) : bool := String.prefix prefix s.

(** [needle in haystack]. *)
Fixpoint contains (needle haystack : string) : bool :=
  String.prefix needle haystack ||
  match haystack with
  | EmptyString => false
  | String _ rest => contains needle rest
  end.

(** Truth value of a string: [if s:]. *)
Definition truthy (s : string) : bool :=
  match s with EmptyString => false | _ => true end.

End PyStr.

(** ** Python floats *)

Module PyFloat.

Definition prec : Z := 53.
Definition emax : Z := 1024.

Definition float : Type := spec_float.

Definition zero : float := S754_zero false.

Definition add (x y : float) : float := SFadd prec emax x y.

(** The binary64 number nearest to [n / d] (ties to even), for [n] with
    sign [s]: one rounding of the exact quotient, as Python's true
    division of two [int]s. *)
Definition nearest_quotient (s : bool) (n d : positive) : float :=
  SFdiv prec emax (S754_finite s n 0) (S754_finite false d 0).

Definition is_finite (x : float) : bool :=
  match x with
  | S754_zero _ | S754_finite _ _ _ => true
  | _ => false
  end.

(** [n / d] for [int] [n] and a positive [int] literal [d]; a quotient
    too large for a float raises [OverflowError]. *)
Definition truediv (n : Z) (d : positive) : result float :=
  match n with
  | Z0 => Ok zero
  | Zpos p =>
      let q := nearest_quotient false p d in
      if is_finite q then Ok q else Raise OverflowError
  | Zneg p =>
      let q := nearest_quotient true p d in
      if is_finite q then Ok q else Raise OverflowError
  end.

(** [n / d] rounded to the nearest integer, ties to the even one
    ([0 <= n], [0 < d]). *)
Definition div_half_even (n d : Z) : Z :=
  let q := n / d in
  match 2 * (n mod d) ?= d with
  | Lt => q
  | Gt => q + 1
  | Eq => if Z.even q then q else q + 1
  end.

(** The exact value of [m * 2^e], in tenths, rounded to an integer. *)
Definition tenths (m : positive) (e : Z) : Z :=
  match e with
  | Zneg p => div_half_even (Zpos m * 10) (2 ^ Zpos p)
  | _ => Zpos m * 10 * 2 ^ e
  end.

(** [round(x, 1)]: the exact binary value of [x] is rounded to one
    decimal (ties to even), and the float nearest to that decimal is
    returned; zeros, infinities and NaN are returned as they are. *)
Definition round1 (x : float) : float :=
  match x with
  | S754_finite s m e =>
      match tenths m e with
      | Zpos t => nearest_quotient s t 10
      | _ => S754_zero s
      end
  | _ => x
  end.

(** The float nearest to the decimal [t / 10]. *)
Definition of_tenths (t : Z) : float :=
  match t with
  | Z0 => zero
  | Zpos p => nearest_quotient false p 10
  | Zneg p => nearest_quotient true p 10
  end.

End PyFloat.

(** ** Insertion-ordered dictionaries *)

Module PyDict.

Section Dict.
Context {V : Type}.

Definition t : Type := list (string * V).

(** [d.get(k)] *)
Fixpoint get (k : string) (d : t) : option V :=
  match d with
  | [] => None
  | (k', v) :: rest => if decide (k = k') then Some v else get k rest
  end.

(** [k in d] *)
Definition mem (k : string) (d : t) : bool :=
  match get k d with Some _ => true | None => false end.

(** [d[k]] *)
Definition getitem (k : string) (d : t) : result V :=
  match get k d with Some v => Ok v | None => Raise (KeyError k) end.

(** [d[k] = v]: an existing key keeps its position, a new key goes
    last. *)
Fixpoint set (k : string) (v : V) (d : t) : t :=
  match d with
  | [] => [(k, v)]
  | (k', v') :: rest =>
      if decide (k = k') then (k', v) :: rest else (k', v') :: set k v rest
  end.

(** [list(d.keys())] *)
Definition keys (d : t) : list string := map fst d.

(** [list(d.values())] *)
Definition values (d : t) : list V := map snd d.

End Dict.

Arguments t V : clear implicits.

End PyDict.

(** ** The rule store: [multi-client-config.json] *)

Record Detection : Type := {
  folders : list string;
  projects : list string;
  gitlabPrefixes : list string;
  ticketPrefixes : list string;
  detection_tags : list string          (* "tags" *)
}.

Record Client : Type := {
  name : string;
  displayName : string;
  color : string;
  isDefault : bool;                     (* an absent key reads as false *)
  detection : Detection
}.

Record Settings : Type := {
  defaultClient : option string;        (* read with settings["defaultClient"] *)
  allowMultipleClientsPerDay : bool;
  minimumBillableMinutes : Z;
  roundBillableToNearest : Z
}.

Record Config : Type := {
  version : string;
  lastUpdated : string;
  clients : gmap string Client;
  detectionPriority : list string;
  settings : Settings
}.

(** ** The daily record *)

Record Phase : Type := {
  title : string;
  startTime : string;
  endTime : string;
  category : string;
  durationMinutes : Z;
  projectName : option string;
  description : option string;
  ticketReference : option string;
  tags : option (list string);
  clientId : option string
}.

Record GitlabActivity : Type := {
  projectsWorkedOn : list string        (* an absent key reads as [] *)
}.

Record TimeSummary : Type := {
  totalDurationMinutes : Z;
  breakTimeMinutes : Z;
  billableHours : PyFloat.float;
  sideProjectHours : PyFloat.float;
  clientHours : PyDict.t PyFloat.float
}.

Record ClientSummary : Type := {
  hours : PyFloat.float;
  summary_projects : gset string;       (* list(set): order unspecified *)
  summary_tickets : gset string
}.

Record DailyRecord : Type := {
  date : string;
  timelinePhases : list Phase;          (* an absent key reads as [] *)
  gitlabActivity : option GitlabActivity;
  timeSummary : TimeSummary;
  clientSummary : option (PyDict.t ClientSummary);
  day_clientId : option string          (* data["clientId"] *)
}.

(** Field updates [phase["clientId"] = c] and [phase["category"] = c]. *)

Definition set_clientId (c : string) (p : Phase) : Phase :=
  {| title := title p; startTime := startTime p; endTime := endTime p;
     category := category p; durationMinutes := durationMinutes p;
     projectName := projectName p; description := description p;
     ticketReference := ticketReference p; tags := tags p;
     clientId := Some c |}.

Definition set_category (c : string) (p : Phase) : Phase :=
  {| title := title p; startTime := startTime p; endTime := endTime p;
     category := c; durationMinutes := durationMinutes p;
     projectName := projectName p; description := description p;
     ticketReference := ticketReference p; tags := tags p;
     clientId := clientId p |}.

(** ** [detect_client_for_work] *)

Section Detect.

Variable CLIENT_CONFIG : Config.

(** [for pattern in detection["projects"]:
       if pattern.lower() in project_name.lower(): return client_id] *)
Definition project_hit (d : Detection) (project_name : string) : bool :=
  existsb
    (fun pattern =>
       PyStr.contains (PyStr.lower pattern) (PyStr.lower project_name))
    (projects d).

(** [for folder in detection["folders"]:
       if folder.lower() in description: return client_id] *)
Definition folder_hit (d : Detection) (phase_data : Phase) : bool :=
  let description := PyStr.lower (default "" (description phase_data)) in
  existsb (fun folder => PyStr.contains (PyStr.lower folder) description)
    (folders d).

(** [for prefix in detection["ticketPrefixes"]:
       if ticket_ref.startswith(prefix): return client_id] *)
Definition ticket_hit (d : Detection) (phase_data : Phase) : bool :=
  let ticket_ref := default "" (ticketReference phase_data) in
  existsb (fun prefix => PyStr.startswith ticket_ref prefix)
    (ticketPrefixes d).

(** [any(tag in detection["tags"] for tag in tags)] *)
Definition tag_hit (d : Detection) (phase_data : Phase) : bool :=
  let tags := default [] (tags phase_data) in
  existsb (fun tag => bool_decide (tag ∈ detection_tags d)) tags.

(** [for project in gitlab_data.get("projectsWorkedOn", []):
       if project.lower() in [p.lower() for p in detection["projects"]]:
           return client_id] *)
Definition gitlab_hit (d : Detection) (gitlab_data : GitlabActivity) : bool :=
  existsb
    (fun project =>
       bool_decide (PyStr.lower project ∈ map PyStr.lower (projects d)))
    (projectsWorkedOn gitlab_data).

(** The body of the loop for one client that is not skipped: [true]
    when one of the [return client_id] is reached.  [if phase_data:]
    and [if gitlab_data:] hold for [Some _]: a phase always has keys,
    and an empty activity object has no project to look at. *)
Definition client_hit (d : Detection) (project_name : string)
    (phase_data : option Phase) (gitlab_data : option GitlabActivity) : bool :=
  project_hit d project_name
  || match phase_data with
     | Some ph => folder_hit d ph || ticket_hit d ph || tag_hit d ph
     | None => false
     end
  || match gitlab_data with
     | Some g => gitlab_hit d g
     | None => false
     end.

(** [for client_id in CLIENT_CONFIG["detectionPriority"]: ...] followed
    by [return CLIENT_CONFIG["settings"]["defaultClient"]]. *)
Fixpoint detect_from (priority : list string) (project_name : string)
    (phase_data : option Phase) (gitlab_data : option GitlabActivity)
    : result string :=
  match priority with
  | [] =>
      match defaultClient (settings CLIENT_CONFIG) with
      | Some d => Ok d
      | None => Raise (KeyError "defaultClient")
      end
  | client_id :: rest =>
      if decide (client_id = "personal") then
        detect_from rest project_name phase_data gitlab_data
      else
        match clients CLIENT_CONFIG !! client_id with
        | None => Raise (KeyError client_id)
        | Some client =>
            if client_hit (detection client) project_name phase_data gitlab_data
            then Ok client_id
            else detect_from rest project_name phase_data gitlab_data
        end
  end.

Definition detect_client_for_work (project_name : string)
    (phase_data : option Phase) (gitlab_data : option GitlabActivity)
    : result string :=
  detect_from (detectionPriority CLIENT_CONFIG) project_name phase_data
    gitlab_data.

End Detect.

(** ** [update_timesheet_with_multi_client] *)

(** [phase["category"] in ["client_work", "meeting"]] *)
Definition eligible (phase : Phase) : bool :=
  bool_decide (category phase ∈ ["client_work"; "meeting"]).

(** The three dictionaries of the client tracking. *)
Record Tracking : Type := {
  client_minutes : PyDict.t Z;
  client_projects : gmap string (gset string);
  client_tickets : gmap string (gset string)
}.

Definition no_tracking : Tracking :=
  {| client_minutes := []; client_projects := ∅; client_tickets := ∅ |}.

(** [sets[client_id].add(x)] *)
Definition set_add (client_id x : string) (sets : gmap string (gset string))
    : result (gmap string (gset string)) :=
  match sets !! client_id with
  | Some s => Ok (<[client_id := s ∪ {[x]}]> sets)
  | None => Raise (KeyError client_id)
  end.

(** [if client_id not in client_minutes:
       client_minutes[client_id] = 0
       client_projects[client_id] = set()
       client_tickets[client_id] = set()] *)
Definition track_client (client_id : string) (st : Tracking) : Tracking :=
  if PyDict.mem client_id (client_minutes st) then st
  else {| client_minutes := PyDict.set client_id 0 (client_minutes st);
          client_projects := <[client_id := ∅]> (client_projects st);
          client_tickets := <[client_id := ∅]> (client_tickets st) |}.

Section Phases.

(** The classifier called on an eligible phase: the module's
    [detect_client_for_work] once the configuration is loaded. *)
Variable classify :
  string -> option Phase -> option GitlabActivity -> result string.

(** The body of [for phase in data.get("timelinePhases", [])]. *)
Definition process_phase (gitlab : option GitlabActivity) (st : Tracking)
    (phase : Phase) : result (Tracking * Phase) :=
  if eligible phase then
    let project_name := default "" (projectName phase) in
    client_id ← classify project_name (Some phase) gitlab;
    let phase := set_clientId client_id phase in
    let st := track_client client_id st in
    minutes ← PyDict.getitem client_id (client_minutes st);
    let cm :=
      PyDict.set client_id (minutes + durationMinutes phase)
        (client_minutes st) in
    cp ← (if PyStr.truthy project_name
          then set_add client_id project_name (client_projects st)
          else Ok (client_projects st));
    let ticket_ref := default "" (ticketReference phase) in
    ct ← (if PyStr.truthy ticket_ref
          then set_add client_id ticket_ref (client_tickets st)
          else Ok (client_tickets st));
    let phase :=
      if decide (client_id = "personal")
      then set_category "side_project" phase
      else set_category "client_work" phase in
    Ok ({| client_minutes := cm; client_projects := cp;
           client_tickets := ct |}, phase)
  else Ok (st, phase).

Fixpoint process_phases (gitlab : option GitlabActivity) (st : Tracking)
    (phases : list Phase) : result (Tracking * list Phase) :=
  match phases with
  | [] => Ok (st, [])
  | phase :: rest =>
      '(st, phase) ← process_phase gitlab st phase;
      '(st, rest) ← process_phases gitlab st rest;
      Ok (st, phase :: rest)
  end.

End Phases.

(** The accumulators of [for client_id, minutes in client_minutes.items()]. *)
Record Hours : Type := {
  client_hours : PyDict.t PyFloat.float;
  total_billable : PyFloat.float;
  side_project_hours : PyFloat.float
}.

(** The [int] 0 of both totals is the float 0.0 as soon as a float is
    assigned or added to it. *)
Definition no_hours : Hours :=
  {| client_hours := []; total_billable := PyFloat.zero;
     side_project_hours := PyFloat.zero |}.

(** [round(minutes / 60, 1)] *)
Definition hours_of (minutes : Z) : result PyFloat.float :=
  PyFloat.round1 <$> PyFloat.truediv minutes 60.

Definition hours_step (acc : Hours) (item : string * Z) : result Hours :=
  let '(client_id, minutes) := item in
  hours ← hours_of minutes;
  if decide (client_id = "personal") then
    Ok {| client_hours := client_hours acc;
          total_billable := total_billable acc;
          side_project_hours := hours |}
  else
    Ok {| client_hours := PyDict.set client_id hours (client_hours acc);
          total_billable := PyFloat.add (total_billable acc) hours;
          side_project_hours := side_project_hours acc |}.

Fixpoint hours_loop (acc : Hours) (items : list (string * Z)) : result Hours :=
  match items with
  | [] => Ok acc
  | item :: rest => acc ← hours_step acc item; hours_loop acc rest
  end.

(** [for client_id in client_minutes: if client_id != "personal" or
    client_minutes[client_id] > 0: client_summary[client_id] = ...] *)
Fixpoint summary_loop (st : Tracking) (items : list (string * Z))
    (client_summary : PyDict.t ClientSummary) : result (PyDict.t ClientSummary) :=
  match items with
  | [] => Ok client_summary
  | (client_id, minutes) :: rest =>
      if negb (bool_decide (client_id = "personal")) || (0 <? minutes) then
        hours ← hours_of minutes;
        summary_loop st rest
          (PyDict.set client_id
             {| hours := hours;
                summary_projects := default ∅ (client_projects st !! client_id);
                summary_tickets := default ∅ (client_tickets st !! client_id) |}
             client_summary)
      else summary_loop st rest client_summary
  end.

(** [if len(client_hours) == 0: ... elif len(client_hours) == 1: ...] *)
Definition primary_client (client_hours : PyDict.t PyFloat.float) : string :=
  match PyDict.keys client_hours with
  | [] => "personal"
  | [client_id] => client_id
  | _ => "multiple"
  end.

Definition update_timesheet_with_multi_client (CLIENT_CONFIG : Config)
    (data : DailyRecord) : result DailyRecord :=
  '(st, phases) ←
    process_phases (detect_client_for_work CLIENT_CONFIG)
      (gitlabActivity data) no_tracking (timelinePhases data);
  h ← hours_loop no_hours (client_minutes st);
  let time_summary :=
    {| totalDurationMinutes := totalDurationMinutes (timeSummary data);
       breakTimeMinutes := breakTimeMinutes (timeSummary data);
       billableHours := total_billable h;
       sideProjectHours := side_project_hours h;
       clientHours :=
         match client_hours h with
         | [] => [("personal", side_project_hours h)]
         | ch => ch
         end |} in
  client_summary ← summary_loop st (client_minutes st) [];
  Ok {| date := date data;
        timelinePhases := phases;
        gitlabActivity := gitlabActivity data;
        timeSummary := time_summary;
        clientSummary := Some client_summary;
        day_clientId := Some (primary_client (client_hours h)) |}.

(** ** [ClientConfigManager.load_config] *)

(** [create_default_config()]; the date of the day is a parameter. *)
Definition create_default_config (today : string) : Config :=
  {| version := "1.0.0";
     lastUpdated := today;
     clients :=
       {[ "personal" :=
            {| name := "Personal";
               displayName := "Personal/Side Projects";
               color := "#95E1D3";
               isDefault := true;
               detection :=
                 {| folders := []; projects := []; gitlabPrefixes := [];
                    ticketPrefixes := [];
                    detection_tags :=
                      ["personal"; "side-project"; "non-billable"] |} |} ]};
     detectionPriority := ["personal"];
     settings :=
       {| defaultClient := Some "personal";
          allowMultipleClientsPerDay := true;
          minimumBillableMinutes := 15;
          roundBillableToNearest := 15 |} |}.

(** [load_config()]: [file] is the parsed content of the configuration
    file when it exists. *)
Definition load_config (today : string) (file : option Config) : Config :=
  match file with
  | Some config => config
  | None => create_default_config today
  end.

(** ** The specification's reading of the engine *)

Module Spec.

(** The default rule is the one named by the store's settings. *)
Definition is_default (cfg : Config) (client_id : string) : bool :=
  bool_decide (defaultClient (settings cfg) = Some client_id).

(** The rules carrying [isDefault], by id. *)
Definition default_rules (cfg : Config) : list string :=
  map fst (List.filter (fun r => isDefault r.2) (map_to_list (clients cfg))).

(** Exactly one rule of the store is the default one. *)
Definition well_formed (cfg : Config) : Prop :=
  length (default_rules cfg) = 1%nat.

(** The non-default rules, in priority order. *)
Definition non_default_rules (cfg : Config) : list (string * Client) :=
  omap (fun client_id => pair client_id <$> clients cfg !! client_id)
    (List.filter (fun client_id => negb (is_default cfg client_id))
       (detectionPriority cfg)).

(** The four detection fields, in the order projectNames,
    folderSubstrings, ticketPrefixes, tags. *)
Definition field_match (d : Detection) (phase : Phase) : bool :=
  project_hit d (default "" (projectName phase))
  || folder_hit d phase
  || ticket_hit d phase
  || tag_hit d phase.

(** The day-level project list as a further test of the same rule. *)
Definition activity_match (d : Detection) (gitlab : option GitlabActivity)
    : bool :=
  match gitlab with
  | Some g => gitlab_hit d g
  | None => false
  end.

(** First matching non-default rule, else the default rule. *)
Definition first_match (cfg : Config) (matches : Detection -> bool)
    : option string :=
  match List.find (fun r => matches (detection r.2)) (non_default_rules cfg) with
  | Some r => Some r.1
  | None => defaultClient (settings cfg)
  end.

(** [classify(phase, rules)] as the specification words it. *)
Definition classify (cfg : Config) (phase : Phase) : option string :=
  first_match cfg (fun d => field_match d phase).

(** [classify] with the day-level project list as a fifth test. *)
Definition classify_with_activity (cfg : Config) (phase : Phase)
    (gitlab : option GitlabActivity) : option string :=
  first_match cfg (fun d => field_match d phase || activity_match d gitlab).

(** [needle] occurs in [haystack]. *)
Definition substring (needle haystack : string) : Prop :=
  exists before after, haystack = before +:+ needle +:+ after.

(** [p] starts [s]. *)
Definition prefix (p s : string) : Prop := exists after, s = p +:+ after.

(** Half-away-from-zero rounding of [n / d] to an integer ([0 < d]). *)
Definition div_half_away (n d : Z) : Z :=
  if 0 <=? n then (2 * n + d) / (2 * d) else - ((2 * (- n) + d) / (2 * d)).

(** Minutes attributed to the non-default clients. *)
Definition billable_minutes (cfg : Config) (client_minutes : PyDict.t Z) : Z :=
  foldr Z.add 0
    (map snd (List.filter (fun kv => negb (is_default cfg kv.1)) client_minutes)).

(** [billableHours] as specified: the sum of minutes over the
    non-default clients, in hours, rounded once to one decimal. *)
Definition billableHours (cfg : Config) (client_minutes : PyDict.t Z)
    : PyFloat.float :=
  PyFloat.of_tenths (div_half_away (billable_minutes cfg client_minutes) 6).

(** [primaryClientId] as specified, from the minutes per client. *)
Definition primaryClientId (cfg : Config) (client_minutes : PyDict.t Z)
    : string :=
  match List.filter
          (fun kv => negb (is_default cfg kv.1) && negb (kv.2 =? 0))
          client_minutes with
  | [] => "personal"
  | [kv] => kv.1
  | _ => "multiple"
  end.

(** Minutes of a classified phase as specified: a non-positive duration
    counts for nothing. *)
Definition counted_minutes (phase : Phase) : Z :=
  Z.max 0 (durationMinutes phase).

(** The minutes attributed to the default client, if any. *)
Definition default_minutes (cfg : Config) (client_minutes : PyDict.t Z)
    : option Z :=
  defaultClient (settings cfg) ≫= fun d => PyDict.get d client_minutes.

End Spec.

(** [isDefault] flags rewritten by [flags], everything else kept. *)
Definition set_isDefault (b : bool) (c : Client) : Client :=
  {| name := name c; displayName := displayName c; color := color c;
     isDefault := b; detection := detection c |}.

Definition reflag (flags : string -> bool) (cfg : Config) : Config :=
  {| version := version cfg; lastUpdated := lastUpdated cfg;
     clients := map_imap (fun k c => Some (set_isDefault (flags k) c)) (clients cfg);
     detectionPriority := detectionPriority cfg;
     settings := settings cfg |}.

(** The phase as the loop leaves it once it is attributed to [client_id]. *)
Definition rewritten (client_id : string) (phase : Phase) : Phase :=
  if decide (client_id = "personal")
  then set_category "side_project" (set_clientId client_id phase)
  else set_category "client_work" (set_clientId client_id phase).

(** The minutes once [minutes] more are attributed to [client_id]. *)
Definition credited (client_id : string) (minutes : Z) (d : PyDict.t Z)
    : PyDict.t Z :=
  PyDict.set client_id (default 0 (PyDict.get client_id d) + minutes) d.

(** The invariant of the client tracking: the three dictionaries have the
    same keys, each once. *)
Record tracking_ok (st : Tracking) : Prop := {
  tracking_nodup : NoDup (PyDict.keys (client_minutes st));
  tracking_projects :
    forall k, is_Some (client_projects st !! k) <-> k ∈ PyDict.keys (client_minutes st);
  tracking_tickets :
    forall k, is_Some (client_tickets st !! k) <-> k ∈ PyDict.keys (client_minutes st)
}.

(** The clients the eligible phases of a day are attributed to. *)
Definition attributions
    (classify : string -> option Phase -> option GitlabActivity -> result string)
    (gitlab : option GitlabActivity) (phases : list Phase) : list string :=
  omap
    (fun phase =>
       if eligible phase then
         match classify (default "" (projectName phase)) (Some phase) gitlab with
         | Ok client_id => Some client_id
         | Raise _ => None
         end
       else None)
    phases.

(** What the loop makes of one phase: an eligible phase is attributed and
    rewritten, any other phase is kept. *)
Definition outcome
    (classify : string -> option Phase -> option GitlabActivity -> result string)
    (gitlab : option GitlabActivity) (phase phase' : Phase) : Prop :=
  if eligible phase then
    exists client_id,
      classify (default "" (projectName phase)) (Some phase) gitlab = Ok client_id
      /\ phase' = rewritten client_id phase
  else phase' = phase.

(** Sum of [durationMinutes] over the phases that are classified. *)
Definition classified_minutes (phases : list Phase) : Z :=
  foldr Z.add 0 (map durationMinutes (List.filter eligible phases)).

(** Sum of a dictionary's values. *)
Definition total (d : PyDict.t Z) : Z := foldr Z.add 0 (PyDict.values d).

(** Left-to-right float sum starting from [0]. *)
Definition float_sum (l : list PyFloat.float) : PyFloat.float :=
  fold_left PyFloat.add l PyFloat.zero.

(** The clients whose hours are billed: all but "personal". *)
Definition billed (client_id : string) : bool :=
  negb (bool_decide (client_id = "personal")).

(** The loop body hits on the rule [r]. *)
Definition rule_hit (project_name : string) (phase_data : option Phase)
    (gitlab_data : option GitlabActivity) (r : string * Client) : bool :=
  client_hit (detection r.2) project_name phase_data gitlab_data.

(** The non-default clients to which a phase of the day is attributed. *)
Definition attributed_clients (cfg : Config) (data : DailyRecord)
    : gset string :=
  list_to_set
    (List.filter (fun client_id => negb (Spec.is_default cfg client_id))
       (attributions (detect_client_for_work cfg) (gitlabActivity data)
          (timelinePhases data))).

(** Equality of two floats as data (0.0 and -0.0 differ). *)
Definition float_eqb (x y : PyFloat.float) : bool :=
  match x, y with
  | S754_zero s, S754_zero s' => Bool.eqb s s'
  | S754_infinity s, S754_infinity s' => Bool.eqb s s'
  | S754_nan, S754_nan => true
  | S754_finite s m e, S754_finite s' m' e' =>
      Bool.eqb s s' && (m =? m')%positive && (e =? e')
  | _, _ => false
  end.

(** The number of tenths that [round(minutes / 60, 1)] stands for, looked
    for below and above [minutes / 6]. *)
Definition tenths_of_hours (minutes : Z) : option Z :=
  match hours_of minutes with
  | Ok x =>
      List.find (fun t => float_eqb x (PyFloat.of_tenths t))
        [minutes / 6; minutes / 6 + 1]
  | Raise _ => None
  end.

(** The rounded hours of [minutes] are within half a tenth of
    [minutes / 60]. *)
Definition nearest_tenth (minutes : Z) : bool :=
  match tenths_of_hours minutes with
  | Some t => Z.abs (10 * minutes - 60 * t) <=? 30
  | None => false
  end.

(** Every id of a priority list is a defined client. *)
Definition priority_defined (cfg : Config) (priority : list string) : Prop :=
  Forall (fun client_id => is_Some (clients cfg !! client_id)) priority.

(** ** Sample stores and days *)

Module Example.

Definition rule (short long : string) (default : bool)
    (folder project prefix tag : list string) : Client :=
  {| name := short; displayName := long; color := "#4ECDC4";
     isDefault := default;
     detection :=
       {| folders := folder; projects := project; gitlabPrefixes := [];
          ticketPrefixes := prefix; detection_tags := tag |} |}.

Definition acme : Client :=
  rule "ACME" "ACME Corporation" false
    ["acme-corp"] ["Acme App"] ["ACME-"] ["acme"].

Definition beta : Client :=
  rule "Beta" "Beta Industries" false
    ["beta-portal"] ["Beta Portal"] ["BETA-"] ["beta"].

Definition personal : Client :=
  rule "Personal" "Personal/Side Projects" true
    [] [] [] ["personal"; "side-project"; "non-billable"].

Definition the_settings (default : string) : Settings :=
  {| defaultClient := Some default;
     allowMultipleClientsPerDay := true;
     minimumBillableMinutes := 15;
     roundBillableToNearest := 15 |}.

(** Two clients and the default rule "personal", which comes last. *)
Definition store : Config :=
  {| version := "1.0.0"; lastUpdated := "2025-06-30";
     clients :=
       <["acme" := acme]> (<["beta" := beta]> {["personal" := personal]});
     detectionPriority := ["acme"; "beta"; "personal"];
     settings := the_settings "personal" |}.

(** One client and a default rule that is not called "personal". *)
Definition store_internal : Config :=
  {| version := "1.0.0"; lastUpdated := "2025-06-30";
     clients := <["acme" := acme]> {["internal" := personal]};
     detectionPriority := ["acme"; "internal"];
     settings := the_settings "internal" |}.

Definition work (cat project : string) (minutes : Z) : Phase :=
  {| title := "Work block"; startTime := "09:00"; endTime := "10:30";
     category := cat; durationMinutes := minutes;
     projectName := Some project; description := None;
     ticketReference := None; tags := None; clientId := None |}.

Definition day (gitlab : option GitlabActivity) (phases : list Phase)
    : DailyRecord :=
  {| date := "2025-06-02"; timelinePhases := phases;
     gitlabActivity := gitlab;
     timeSummary :=
       {| totalDurationMinutes := 480; breakTimeMinutes := 45;
          billableHours := PyFloat.zero; sideProjectHours := PyFloat.zero;
          clientHours := [] |};
     clientSummary := None; day_clientId := None |}.

(** A phase no field of which matches a rule of [store]. *)
Definition tooling : Phase := work "client_work" "Internal tooling" 60.

(** The day's commits went to the project "acme app". *)
Definition commits : GitlabActivity := {| projectsWorkedOn := ["acme app"] |}.

(** A block of work and a correction of minus thirty minutes on it. *)
Definition corrected_day : list Phase :=
  [work "client_work" "Acme App Redesign" 90;
   work "client_work" "Acme App Redesign" (-30)].

(** Work for a client, a lunch break, work that no rule matches. *)
Definition mixed_day : list Phase :=
  [work "client_work" "Acme App Redesign" 90;
   work "break" "Lunch" 45;
   work "meeting" "Reading group" 60].

(** A classifier that cannot be called without raising. *)
Definition broken_classifier (project_name : string)
    (phase_data : option Phase) (gitlab_data : option GitlabActivity)
    : result string :=
  Raise (KeyError "clients").

(** Twenty minutes for each of two clients. *)
Definition split_day : list Phase :=
  [work "client_work" "Acme App Redesign" 20;
   work "client_work" "Beta Portal" 20].

(** A quarter of an hour for one client. *)
Definition quarter_day : list Phase :=
  [work "client_work" "Acme App Redesign" 15].

(** A phase of no duration for one client. *)
Definition empty_day : list Phase :=
  [work "client_work" "Acme App Redesign" 0].

End Example.

(** * Further definitions *)

(** ** Rules with the same patterns *)

(** Two detection records list the same patterns, in whatever order and
    however often. *)
Definition same_patterns (d d' : Detection) : Prop :=
  (forall x, x ∈ folders d <-> x ∈ folders d')
  /\ (forall x, x ∈ projects d <-> x ∈ projects d')
  /\ (forall x, x ∈ ticketPrefixes d <-> x ∈ ticketPrefixes d')
  /\ (forall x, x ∈ detection_tags d <-> x ∈ detection_tags d').

(** Two stores define the same clients with the same patterns. *)
Definition same_rules (cfg cfg' : Config) : Prop :=
  detectionPriority cfg = detectionPriority cfg'
  /\ defaultClient (settings cfg) = defaultClient (settings cfg')
  /\ forall k,
       match clients cfg !! k, clients cfg' !! k with
       | Some c, Some c' => same_patterns (detection c) (detection c')
       | None, None => True
       | _, _ => False
       end.

(** Two phases read the same to the classifier: descriptions equal up to
    letter case, same ticket reference, same tags. *)
Definition same_reading (phase phase' : Phase) : Prop :=
  PyStr.lower (default "" (description phase))
  = PyStr.lower (default "" (description phase'))
  /\ default "" (ticketReference phase) = default "" (ticketReference phase')
  /\ default [] (tags phase) = default [] (tags phase').

(** The ids of a priority list that the loop looks up. *)
Definition looked_up (priority : list string) : list string :=
  List.filter billed priority.

(** ** More sample stores *)

Module Sample.

(** A priority order that names a client nobody defined. *)
Definition store_ghost : Config :=
  {| version := "1.0.0"; lastUpdated := "2025-06-30";
     clients := clients Example.store;
     detectionPriority := ["acme"; "ghost"; "beta"; "personal"];
     settings := settings Example.store |}.

(** The rule of acme with its patterns repeated and in another order. *)
Definition acme_shuffled : Client :=
  Example.rule "ACME" "ACME Corporation" false
    ["acme-corp"; "acme-corp"] ["Acme App"; "Acme App"] ["ACME-"]
    ["acme"; "acme"].

Definition store_shuffled : Config :=
  {| version := "1.0.0"; lastUpdated := "2025-06-30";
     clients := <["acme" := acme_shuffled]> (clients Example.store);
     detectionPriority := detectionPriority Example.store;
     settings := settings Example.store |}.

(** A rule whose only project pattern is the empty string. *)
Definition catch_all : Client :=
  Example.rule "Any" "Anything" false [] [""] [] [].

Definition store_catch_all : Config :=
  {| version := "1.0.0"; lastUpdated := "2025-06-30";
     clients := <["any" := catch_all]> (clients Example.store);
     detectionPriority := ["any"; "acme"; "beta"; "personal"];
     settings := settings Example.store |}.

(** A phase with a description, a ticket and tags. *)
Definition review (text : string) : Phase :=
  {| title := "Code review"; startTime := "14:00"; endTime := "15:00";
     category := "meeting"; durationMinutes := 60;
     projectName := None; description := Some text;
     ticketReference := Some "BETA-42"; tags := Some ["review"];
     clientId := None |}.

(** The same reading under another title, in another case, with a
    client written by an earlier run. *)
Definition review_again : Phase :=
  {| title := "Review, continued"; startTime := "15:00"; endTime := "15:20";
     category := "client_work"; durationMinutes := 20;
     projectName := Some "Beta Portal";
     description := Some "PAIRING in acme-corp/CHECKOUT";
     ticketReference := Some "BETA-42"; tags := Some ["review"];
     clientId := Some "beta" |}.

End Sample.

(** ** What is attributed to a client *)

(** The eligible phases of a day, each with the client it is attributed
    to. *)
Definition attributed
    (classify : string -> option Phase -> option GitlabActivity -> result string)
    (gitlab : option GitlabActivity) (phases : list Phase)
    : list (string * Phase) :=
  omap
    (fun phase =>
       if eligible phase then
         match classify (default "" (projectName phase)) (Some phase) gitlab with
         | Ok client_id => Some (client_id, phase)
         | Raise _ => None
         end
       else None)
    phases.

(** The phases attributed to the client [k]. *)
Definition phases_of (k : string) (att : list (string * Phase)) : list Phase :=
  map snd (List.filter (fun cp => bool_decide (cp.1 = k)) att).

(** Their minutes. *)
Definition minutes_for (k : string) (att : list (string * Phase)) : Z :=
  foldr Z.add 0 (map durationMinutes (phases_of k att)).

(** The project name a phase adds to its client's projects, if any. *)
Definition project_set (phase : Phase) : gset string :=
  if PyStr.truthy (default "" (projectName phase))
  then {[default "" (projectName phase)]} else ∅.

(** The ticket reference a phase adds to its client's tickets, if any. *)
Definition ticket_set (phase : Phase) : gset string :=
  if PyStr.truthy (default "" (ticketReference phase))
  then {[default "" (ticketReference phase)]} else ∅.

(** Their project names and their ticket references. *)
Definition projects_for (k : string) (att : list (string * Phase)) : gset string :=
  ⋃ (map project_set (phases_of k att)).

Definition tickets_for (k : string) (att : list (string * Phase)) : gset string :=
  ⋃ (map ticket_set (phases_of k att)).

(** A phase is attributed to [k]. *)
Definition touched (k : string) (att : list (string * Phase)) : bool :=
  bool_decide (k ∈ map fst att).

(** The clients that get an entry in the client summary. *)
Definition listed (kv : string * Z) : bool :=
  negb (bool_decide (kv.1 = "personal")) || (0 <? kv.2).

(** The distinct elements of [l] in order of first appearance, after
    those of [seen]. *)
Definition first_seen_from (seen l : list string) : list string :=
  fold_left
    (fun acc k => if bool_decide (k ∈ acc) then acc else (acc ++ [k])%list)
    l seen.

Definition first_seen (l : list string) : list string := first_seen_from [] l.

(** The clients of a day in the order of their first phase. *)
Definition clients_seen (att : list (string * Phase)) : list string :=
  first_seen (map fst att).

(** An entry of the client summary for the client [k]. *)
Definition summary_of (att : list (string * Phase)) (k : string)
    (e : string * ClientSummary) : Prop :=
  e.1 = k
  /\ hours_of (minutes_for k att) = Ok (hours e.2)
  /\ summary_projects e.2 = projects_for k att
  /\ summary_tickets e.2 = tickets_for k att.

(** The entries of the clients that are billed. *)
Definition billed_entries {V} (d : PyDict.t V) : PyDict.t V :=
  List.filter (fun kv => billed kv.1) d.

(** * The configuration manager: [client-config-manager.py] *)

(** ** More of Python's strings *)

Module PyText.

(** [c.isspace()] on an ASCII character: tab to carriage return, the
    four separators and the space. *)
Definition is_space (c : ascii) : bool :=
  let n := N_of_ascii c in
  (((9 <=? n) && (n <=? 13)) || ((28 <=? n) && (n <=? 32)))%N.

(** [s.lstrip()] *)
Fixpoint lstrip (s : string) : string :=
  match s with
  | EmptyString => EmptyString
  | String c rest => if is_space c then lstrip rest else s
  end.

(** [s.rstrip()] *)
Fixpoint rstrip (s : string) : string :=
  match s with
  | EmptyString => EmptyString
  | String c rest =>
      match rstrip rest with
      | EmptyString => if is_space c then EmptyString else String c EmptyString
      | kept => String c kept
      end
  end.

(** [s.strip()] *)
Definition strip (s : string) : string := rstrip (lstrip s).

(** [s.split(",")]: the pieces between the commas, at least one. *)
Fixpoint split_commas (s : string) : list string :=
  match s with
  | EmptyString => [EmptyString]
  | String c rest =>
      if Ascii.eqb c ","%char then EmptyString :: split_commas rest
      else match split_commas rest with
           | piece :: pieces => String c piece :: pieces
           | [] => [String c EmptyString]
           end
  end.

(** [l.index(x)] for an [x] that is in [l]. *)
Fixpoint index (x : string) (l : list string) : nat :=
  match l with
  | [] => 0%nat
  | y :: rest => if decide (y = x) then 0%nat else S (index x rest)
  end.

(** [l.insert(i, x)] *)
Definition insert (i : nat) (x : string) (l : list string) : list string :=
  (take i l ++ x :: drop i l)%list.

End PyText.

(** ** What a call does with the lines typed at the prompts *)

(** A call that reads with [input()] returns a value and leaves the lines
    it has not read, or raises: [EOFError] when the lines run out, or an
    exception of the engine's. *)
Inductive answer (A : Type) : Type :=
  | Returned (a : A) (rest : list string)
  | EOFError
  | Raised (e : exn).

Arguments Returned {A} a rest.
Arguments EOFError {A}.
Arguments Raised {A} e.

(** ** [add_client] and [edit_client_rules] *)

(** The detection lists as the editing loop changes them. *)
Definition extend_folders (new : list string) (d : Detection) : Detection :=
  {| folders := (folders d ++ new)%list; projects := projects d;
     gitlabPrefixes := gitlabPrefixes d; ticketPrefixes := ticketPrefixes d;
     detection_tags := detection_tags d |}.

Definition extend_projects (new : list string) (d : Detection) : Detection :=
  {| folders := folders d; projects := (projects d ++ new)%list;
     gitlabPrefixes := gitlabPrefixes d; ticketPrefixes := ticketPrefixes d;
     detection_tags := detection_tags d |}.

Definition extend_gitlabPrefixes (new : list string) (d : Detection) : Detection :=
  {| folders := folders d; projects := projects d;
     gitlabPrefixes := (gitlabPrefixes d ++ new)%list;
     ticketPrefixes := ticketPrefixes d; detection_tags := detection_tags d |}.

Definition extend_ticketPrefixes (new : list string) (d : Detection) : Detection :=
  {| folders := folders d; projects := projects d;
     gitlabPrefixes := gitlabPrefixes d;
     ticketPrefixes := (ticketPrefixes d ++ new)%list;
     detection_tags := detection_tags d |}.

Definition extend_tags (new : list string) (d : Detection) : Detection :=
  {| folders := folders d; projects := projects d;
     gitlabPrefixes := gitlabPrefixes d; ticketPrefixes := ticketPrefixes d;
     detection_tags := (detection_tags d ++ new)%list |}.

(** [[p.strip() for p in line.split(",") if p.strip()]] *)
Definition typed_patterns (line : string) : list string :=
  List.filter PyStr.truthy (map PyText.strip (PyText.split_commas line)).

(** [client["detection"] = d], [config["clients"][k] = c] and
    [config["detectionPriority"] = l]. *)
Definition set_detection (d : Detection) (c : Client) : Client :=
  {| name := name c; displayName := displayName c; color := color c;
     isDefault := isDefault c; detection := d |}.

Definition set_client (k : string) (c : Client) (cfg : Config) : Config :=
  {| version := version cfg; lastUpdated := lastUpdated cfg;
     clients := <[k := c]> (clients cfg);
     detectionPriority := detectionPriority cfg; settings := settings cfg |}.

Definition set_priority (l : list string) (cfg : Config) : Config :=
  {| version := version cfg; lastUpdated := lastUpdated cfg;
     clients := clients cfg; detectionPriority := l; settings := settings cfg |}.

Definition set_lastUpdated (today : string) (cfg : Config) : Config :=
  {| version := version cfg; lastUpdated := today;
     clients := clients cfg; detectionPriority := detectionPriority cfg;
     settings := settings cfg |}.

Section Manager.

(** [list(set(l))]: the elements of [l] once each, in an order that
    Python does not specify. *)
Variable list_of_set : list string -> list string.

(** The [while True:] of [edit_client_rules]: a choice is read, and for
    the choices 1 to 5 a line of patterns after it; 6 prints the rules,
    7 leaves the loop, any other line does nothing. *)
Fixpoint edit_loop (d : Detection) (inputs : list string) : answer Detection :=
  match inputs with
  | [] => EOFError
  | line :: rest =>
      let choice := PyText.strip line in
      if decide (choice = "7") then Returned d rest
      else if decide (choice = "6") then edit_loop d rest
      else if decide (choice = "1") then
        match rest with
        | [] => EOFError
        | patterns :: rest => edit_loop (extend_folders (typed_patterns patterns) d) rest
        end
      else if decide (choice = "2") then
        match rest with
        | [] => EOFError
        | patterns :: rest => edit_loop (extend_projects (typed_patterns patterns) d) rest
        end
      else if decide (choice = "3") then
        match rest with
        | [] => EOFError
        | patterns :: rest =>
            edit_loop (extend_gitlabPrefixes (typed_patterns patterns) d) rest
        end
      else if decide (choice = "4") then
        match rest with
        | [] => EOFError
        | patterns :: rest =>
            edit_loop (extend_ticketPrefixes (typed_patterns patterns) d) rest
        end
      else if decide (choice = "5") then
        match rest with
        | [] => EOFError
        | patterns :: rest => edit_loop (extend_tags (typed_patterns patterns) d) rest
        end
      else edit_loop d rest
  end.

(** [for key in detection: detection[key] = list(set(detection[key]))] *)
Definition remove_duplicates (d : Detection) : Detection :=
  {| folders := list_of_set (folders d);
     projects := list_of_set (projects d);
     gitlabPrefixes := list_of_set (gitlabPrefixes d);
     ticketPrefixes := list_of_set (ticketPrefixes d);
     detection_tags := list_of_set (detection_tags d) |}.

(** [edit_client_rules(client_id)]; [None] is the call without
    argument, which asks for the id. *)
Definition edit_client_rules (client_id : option string) (cfg : Config)
    (inputs : list string) : answer Config :=
  let asked :=
    match client_id with
    | Some k => if PyStr.truthy k then Returned k inputs else
                  match inputs with
                  | [] => EOFError
                  | line :: rest => Returned (PyStr.lower (PyText.strip line)) rest
                  end
    | None =>
        match inputs with
        | [] => EOFError
        | line :: rest => Returned (PyStr.lower (PyText.strip line)) rest
        end
    end in
  match asked with
  | Returned k inputs =>
      match clients cfg !! k with
      | None => Returned cfg inputs
      | Some client =>
          match edit_loop (detection client) inputs with
          | Returned d rest =>
              Returned (set_client k (set_detection (remove_duplicates d) client) cfg)
                rest
          | EOFError => EOFError
          | Raised e => Raised e
          end
      end
  | EOFError => EOFError
  | Raised e => Raised e
  end.

(** The priority list once [client_id] is added to it. *)
Definition with_priority_of (client_id : string) (priority : list string)
    : list string :=
  if bool_decide (client_id ∈ priority) then priority
  else if bool_decide ("personal" ∈ priority)
       then PyText.insert (PyText.index "personal" priority) client_id priority
       else (priority ++ [client_id])%list.

(** The client that [add_client] creates: no [isDefault] key, no
    pattern. *)
Definition new_client (short long colour : string) : Client :=
  {| name := short; displayName := long; color := colour;
     isDefault := false;
     detection := {| folders := []; projects := []; gitlabPrefixes := [];
                     ticketPrefixes := []; detection_tags := [] |} |}.

(** [add_client()] *)
Definition add_client (cfg : Config) (inputs : list string) : answer Config :=
  match inputs with
  | [] => EOFError
  | line :: rest =>
      let client_id := PyStr.lower (PyText.strip line) in
      if negb (PyStr.truthy client_id)
         || bool_decide (is_Some (clients cfg !! client_id))
      then Returned cfg rest
      else
        match rest with
        | short :: long :: colour :: answer_line :: rest =>
            let colour :=
              if PyStr.truthy (PyText.strip colour) then PyText.strip colour
              else "#4ECDC4" in
            let cfg :=
              set_priority (with_priority_of client_id (detectionPriority cfg))
                (set_client client_id
                   (new_client (PyText.strip short) (PyText.strip long) colour)
                   cfg) in
            if decide (PyStr.lower answer_line = "y")
            then edit_client_rules (Some client_id) cfg rest
            else Returned cfg rest
        | _ => EOFError
        end
  end.

(** [export_instructions()], as far as it can raise: the text reads
    [settings["defaultClient"]] and then the display name of every id of
    the priority order.  The text itself is not modelled. *)
Definition export_instructions (cfg : Config) : result unit :=
  match defaultClient (settings cfg) with
  | None => Raise (KeyError "defaultClient")
  | Some _ =>
      match List.find (fun k => negb (bool_decide (is_Some (clients cfg !! k))))
              (detectionPriority cfg) with
      | Some k => Raise (KeyError k)
      | None => Ok tt
      end
  end.

(** [save_config()]: the configuration with the date of the day, as it is
    written to the file. *)
Definition save_config (today : string) (cfg : Config) : Config :=
  set_lastUpdated today cfg.

(** [run_interactive()]: the configuration in memory at the end and the
    configuration saved, if any.  Every round reads at least one line,
    so that [fuel] rounds are enough for [fuel] lines. *)
Fixpoint run_interactive (fuel : nat) (today : string) (cfg : Config)
    (inputs : list string) : option (answer (Config * option Config)) :=
  match fuel with
  | O => None
  | S fuel =>
      match inputs with
      | [] => Some EOFError
      | line :: rest =>
          let choice := PyText.strip line in
          if decide (choice = "1") then
            match add_client cfg rest with
            | Returned cfg rest => run_interactive fuel today cfg rest
            | EOFError => Some EOFError
            | Raised e => Some (Raised e)
            end
          else if decide (choice = "2") then
            match edit_client_rules None cfg rest with
            | Returned cfg rest => run_interactive fuel today cfg rest
            | EOFError => Some EOFError
            | Raised e => Some (Raised e)
            end
          else if decide (choice = "3") then run_interactive fuel today cfg rest
          else if decide (choice = "4") then
            match export_instructions cfg with
            | Ok _ => run_interactive fuel today cfg rest
            | Raise e => Some (Raised e)
            end
          else if decide (choice = "5") then
            Some (Returned (save_config today cfg, Some (save_config today cfg)) rest)
          else if decide (choice = "6") then
            match rest with
            | [] => Some EOFError
            | sure :: rest =>
                if decide (PyStr.lower sure = "y")
                then Some (Returned (cfg, None) rest)
                else run_interactive fuel today cfg rest
            end
          else run_interactive fuel today cfg rest
      end
  end.

End Manager.

(** One way to list a set: the elements in the order of their last
    occurrence. *)
Definition last_occurrences (l : list string) : list string := remove_dups l.

(** A configuration as the manager keeps it: the ids of the priority order
    are defined clients, each once, "personal" is a client, the last of
    the order, the default client and the only rule flagged as default. *)
Record managed (cfg : Config) : Prop := {
  managed_defined : priority_defined cfg (detectionPriority cfg);
  managed_nodup : NoDup (detectionPriority cfg);
  managed_last : last (detectionPriority cfg) = Some "personal";
  managed_default : defaultClient (settings cfg) = Some "personal";
  managed_flag :
    forall k c, clients cfg !! k = Some c -> (isDefault c = true <-> k = "personal")
}.

(** [list_of_set] lists a set: every element once. *)
Definition lists_sets (list_of_set : list string -> list string) : Prop :=
  forall l, NoDup (list_of_set l) /\ forall x, x ∈ list_of_set l <-> x ∈ l.

(** A pattern as [edit_client_rules] adds it: not empty, no white space
    at either end. *)
Definition typed (x : string) : Prop := x <> "" /\ PyText.strip x = x.

(** A detection list after an edit: no duplicates, nothing lost, and
    nothing new but typed patterns. *)
Definition grown (l l' : list string) : Prop :=
  NoDup l'
  /\ (forall x, x ∈ l -> x ∈ l')
  /\ (forall x, x ∈ l' -> x ∈ l \/ typed x).

(** A rule after an edit. *)
Definition edited (c c' : Client) : Prop :=
  name c' = name c /\ displayName c' = displayName c /\ color c' = color c
  /\ isDefault c' = isDefault c
  /\ grown (folders (detection c)) (folders (detection c'))
  /\ grown (projects (detection c)) (projects (detection c'))
  /\ grown (gitlabPrefixes (detection c)) (gitlabPrefixes (detection c'))
  /\ grown (ticketPrefixes (detection c)) (ticketPrefixes (detection c'))
  /\ grown (detection_tags (detection c)) (detection_tags (detection c')).

(** A detection record extended with typed patterns. *)
Definition extended (d d' : Detection) : Prop :=
  (exists new, folders d' = (folders d ++ new)%list /\ Forall typed new)
  /\ (exists new, projects d' = (projects d ++ new)%list /\ Forall typed new)
  /\ (exists new, gitlabPrefixes d' = (gitlabPrefixes d ++ new)%list
                  /\ Forall typed new)
  /\ (exists new, ticketPrefixes d' = (ticketPrefixes d ++ new)%list
                  /\ Forall typed new)
  /\ (exists new, detection_tags d' = (detection_tags d ++ new)%list
                  /\ Forall typed new).

(** A rule without patterns. *)
Definition no_patterns (d : Detection) : Prop :=
  folders d = [] /\ projects d = [] /\ ticketPrefixes d = []
  /\ detection_tags d = [].

(** The hours of a day can be counted: no classified phase of negative
    duration, and at most the 1440 minutes of a day in all. *)
Definition countable_day (data : DailyRecord) : Prop :=
  Forall (fun phase => eligible phase = true -> 0 <= durationMinutes phase)
    (timelinePhases data)
  /\ classified_minutes (timelinePhases data) <= 1440.

(** [client_id] is put into a priority list: before the first "personal",
    at the end when there is none. *)
Definition placed (client_id : string) (l l' : list string) : Prop :=
  exists l1 l2,
    l = (l1 ++ l2)%list /\ l' = (l1 ++ client_id :: l2)%list
    /\ ("personal" ∉ l1)
    /\ (l2 = [] \/ exists rest, l2 = "personal" :: rest).

(** * The report: the timeline of [generate_multi_client_markdown] *)

(** The phases that the timeline of the report shows. *)
Definition shown (phase : Phase) : bool :=
  bool_decide (category phase ∈ ["client_work"; "side_project"]).

(** One round of the loop that fills [phases_by_client]. *)
Definition group_phase (d : PyDict.t (list Phase)) (phase : Phase)
    : PyDict.t (list Phase) :=
  if shown phase then
    let client_id := default "personal" (clientId phase) in
    PyDict.set client_id (default [] (PyDict.get client_id d) ++ [phase])%list d
  else d.

Definition phases_by_client (phases : list Phase) : PyDict.t (list Phase) :=
  fold_left group_phase phases [].

(** [sum(p["durationMinutes"] for p in phases)] *)
Definition total_minutes (phases : list Phase) : Z :=
  fold_left Z.add (map durationMinutes phases) 0.

(** What the report writes for a client of the timeline: the heading with
    the display name, [total_minutes // 60] and [total_minutes % 60], and
    the first three phases. *)
Record TimelineEntry : Type := {
  entry_name : string;
  entry_hours : Z;
  entry_minutes : Z;
  entry_phases : list Phase
}.

(** The loop over [phases_by_client.items()]. *)
Fixpoint timeline_loop (CLIENT_CONFIG : Config)
    (groups : list (string * list Phase)) : result (list TimelineEntry) :=
  match groups with
  | [] => Ok []
  | (client_id, phases) :: rest =>
      match clients CLIENT_CONFIG !! client_id with
      | None => Raise (KeyError client_id)
      | Some client =>
          entries ← timeline_loop CLIENT_CONFIG rest;
          Ok ({| entry_name := displayName client;
                 entry_hours := total_minutes phases / 60;
                 entry_minutes := total_minutes phases mod 60;
                 entry_phases := take 3 phases |} :: entries)
      end
  end.

(** The section "Timeline by Client" of the report, as data. *)
Definition timeline (CLIENT_CONFIG : Config) (data : DailyRecord)
    : result (list TimelineEntry) :=
  timeline_loop CLIENT_CONFIG (phases_by_client (timelinePhases data)).

(** Phases grouped by the client they are attributed to. *)
Definition grouped_from (d : PyDict.t (list Phase))
    (att : list (string * Phase)) : PyDict.t (list Phase) :=
  fold_left
    (fun d kp => PyDict.set kp.1 (default [] (PyDict.get kp.1 d) ++ [kp.2])%list d)
    att d.

(** The attributed phases as the update leaves them. *)
Definition rewritten_all (att : list (string * Phase)) : list (string * Phase) :=
  map (fun kp => (kp.1, rewritten kp.1 kp.2)) att.

(** No phase of the day comes in as a side project. *)
Definition no_side_project (data : DailyRecord) : Prop :=
  Forall (fun phase => category phase <> "side_project") (timelinePhases data).

(** The default client, if one is configured, is a defined client. *)
Definition default_defined (cfg : Config) : Prop :=
  forall d, defaultClient (settings cfg) = Some d -> is_Some (clients cfg !! d).

(** What the report writes for a client of the client breakdown: the
    display name, the hours and the mark of a billable client.  The lines
    of projects and tickets, which join sets in an order that Python does
    not specify, are left out. *)
Record BreakdownEntry : Type := {
  breakdown_name : string;
  breakdown_hours : PyFloat.float;
  breakdown_billable : bool
}.

(** The loop over [client_summary.items()]. *)
Fixpoint breakdown_loop (CLIENT_CONFIG : Config)
    (client_summary : list (string * ClientSummary))
    : result (list BreakdownEntry) :=
  match client_summary with
  | [] => Ok []
  | (client_id, summary) :: rest =>
      match clients CLIENT_CONFIG !! client_id with
      | None => Raise (KeyError client_id)
      | Some client =>
          let is_billable := negb (bool_decide (client_id = "personal")) in
          entries ← breakdown_loop CLIENT_CONFIG rest;
          Ok ({| breakdown_name := displayName client;
                 breakdown_hours := hours summary;
                 breakdown_billable := is_billable |} :: entries)
      end
  end.

(** The section "Client Breakdown" of the report, as data. *)
Definition client_breakdown (CLIENT_CONFIG : Config) (data : DailyRecord)
    : result (list BreakdownEntry) :=
  breakdown_loop CLIENT_CONFIG (default [] (clientSummary data)).

(** * Properties *)

(** ** The [result] monad *)

Lemma bind_Ok {A B} (f : A -> result B) (m : result A) (b : B) :
  m ≫= f = Ok b <-> exists a, m = Ok a /\ f a = Ok b.
Proof.
  destruct m as [a|e]; simpl; split.
  - intros H. exists a. auto.
  - intros (a' & Ha & Hf). congruence.
  - discriminate.
  - intros (a' & Ha & _). discriminate.
Qed.

Lemma fmap_Ok {A B} (f : A -> B) (m : result A) (b : B) :
  f <$> m = Ok b <-> exists a, m = Ok a /\ f a = b.
Proof.
  destruct m as [a|e]; simpl; split.
  - intros [= <-]. eauto.
  - intros (a' & [= <-] & <-). reflexivity.
  - discriminate.
  - intros (a' & Ha & _). discriminate.
Qed.

(** ** Strings *)

Lemma prefix_spec (p s : string) :
  String.prefix p s = true <-> Spec.prefix p s.
Proof.
  revert s. induction p as [|c p IH]; intros s.
  - split; [intros _; exists s; reflexivity | by destruct s].
  - destruct s as [|c' s]; simpl.
    + split; [discriminate | intros [after H]; discriminate].
    + destruct (Ascii.ascii_dec c c') as [->|Hne].
      * rewrite IH. split; intros [after H]; exists after.
        -- simpl. by rewrite H.
        -- simpl in H. by injection H.
      * split; [discriminate | intros [after H]; simpl in H].
        injection H as H1 _. by subst.
Qed.

Lemma startswith_spec (s p : string) :
  PyStr.startswith s p = true <-> Spec.prefix p s.
Proof. apply prefix_spec. Qed.

Lemma contains_spec (needle haystack : string) :
  PyStr.contains needle haystack = true <-> Spec.substring needle haystack.
Proof.
  induction haystack as [|c h IH].
  - change (PyStr.contains needle "") with (String.prefix needle "" || false).
    rewrite orb_false_r, prefix_spec. split.
    + intros [after H]. exists "", after. exact H.
    + intros (before & after & H). destruct before; [by exists after|discriminate].
  - change (PyStr.contains needle (String c h))
      with (String.prefix needle (String c h) || PyStr.contains needle h).
    rewrite orb_true_iff, prefix_spec, IH. split.
    + intros [[after H]|(before & after & H)].
      * exists "", after. exact H.
      * exists (String c before), after. simpl. by rewrite H.
    + intros (before & after & H). destruct before as [|c' before].
      * left. by exists after.
      * right. exists before, after. simpl in H. by injection H.
Qed.

(** ** Lists *)

Lemma find_pointwise {A} (f g : A -> bool) (l : list A) :
  (forall x, f x = g x) -> List.find f l = List.find g l.
Proof.
  intros Hfg. induction l as [|x l IH]; simpl; [done|].
  by rewrite Hfg, IH.
Qed.

(** ** Classification *)

Section Classification.

Variable cfg : Config.
Variable project_name : string.
Variable phase_data : option Phase.
Variable gitlab_data : option GitlabActivity.

(** The loop over the priority list never fails on defined clients and
    answers with one of its ids or with the configured default. *)
Lemma detect_from_total (priority : list string) (d : string) :
  priority_defined cfg priority ->
  defaultClient (settings cfg) = Some d ->
  exists r,
    detect_from cfg priority project_name phase_data gitlab_data = Ok r
    /\ (r ∈ priority \/ r = d).
Proof.
  intros Hdef Hd. induction Hdef as [|client_id rest [c Hc] _ IH]; simpl.
  - rewrite Hd. eauto.
  - destruct IH as (r & Hr & Hin).
    assert (exists r', detect_from cfg rest project_name phase_data gitlab_data
                       = Ok r' /\ (r' ∈ client_id :: rest \/ r' = d)) as Hrest.
    { exists r. split; [done|]. destruct Hin; [left; by constructor|by right]. }
    case_decide; [done|].
    rewrite Hc. destruct (client_hit _ _ _ _); [|done].
    exists client_id. split; [done|]. left. constructor.
Qed.

(** With "personal" as the default rule, the loop returns the first
    non-default rule of the priority list whose body hits. *)
Lemma detect_from_first_hit (priority : list string) :
  priority_defined cfg priority ->
  defaultClient (settings cfg) = Some "personal" ->
  detect_from cfg priority project_name phase_data gitlab_data
  = Ok (match List.find (rule_hit project_name phase_data gitlab_data)
                (omap (fun client_id => pair client_id <$> clients cfg !! client_id)
                   (List.filter (fun client_id => negb (Spec.is_default cfg client_id))
                      priority)) with
        | Some r => r.1
        | None => "personal"
        end).
Proof.
  intros Hdef Hd. induction Hdef as [|client_id rest [c Hc] _ IH]; simpl.
  - by rewrite Hd.
  - unfold Spec.is_default at 1. rewrite Hd.
    case_decide as Hp.
    + subst client_id. rewrite bool_decide_eq_true_2 by done. exact IH.
    + rewrite bool_decide_eq_false_2 by congruence. simpl.
      rewrite Hc. simpl. unfold rule_hit at 1. simpl.
      destruct (client_hit _ _ _ _); [done|exact IH].
Qed.

(** The [isDefault] flags are never read. *)
Lemma detect_from_reflag (flags : string -> bool) (priority : list string) :
  detect_from (reflag flags cfg) priority project_name phase_data gitlab_data
  = detect_from cfg priority project_name phase_data gitlab_data.
Proof.
  induction priority as [|client_id rest IH]; simpl; [done|].
  case_decide; [done|].
  rewrite map_lookup_imap.
  destruct (clients cfg !! client_id) as [c|]; simpl; [|done].
  by rewrite IH.
Qed.

End Classification.

Lemma client_hit_matches (d : Detection) (phase : Phase)
    (gitlab : option GitlabActivity) :
  client_hit d (default "" (projectName phase)) (Some phase) gitlab
  = Spec.field_match d phase || Spec.activity_match d gitlab.
Proof.
  unfold client_hit, Spec.field_match, Spec.activity_match.
  by rewrite !orb_assoc.
Qed.

Lemma activity_match_no_project (d : Detection) (gitlab : option GitlabActivity) :
  default [] (projectsWorkedOn <$> gitlab) = [] ->
  Spec.activity_match d gitlab = false.
Proof.
  destruct gitlab as [[l]|]; simpl; [|done].
  intros ->. done.
Qed.

(** C1, as amended: for a store whose priority ids are defined and whose
    default rule is "personal", the classification of a phase is the id of
    the first non-default rule, in priority order, that matches on one of
    projectNames, folderSubstrings, ticketPrefixes, tags or, fifth, on the
    day-level project list; it is the default rule's id when none does.
    Without a day-level project list this is the four-field
    classification of the specification. *)
Theorem classify_first_match (cfg : Config) (phase : Phase)
    (gitlab : option GitlabActivity) :
  priority_defined cfg (detectionPriority cfg) ->
  defaultClient (settings cfg) = Some "personal" ->
  exists client_id,
    detect_client_for_work cfg (default "" (projectName phase)) (Some phase) gitlab
    = Ok client_id
    /\ Spec.classify_with_activity cfg phase gitlab = Some client_id
    /\ (default [] (projectsWorkedOn <$> gitlab) = [] ->
        Spec.classify cfg phase = Some client_id).
Proof.
  intros Hdef Hd. eexists. split; [|split].
  - unfold detect_client_for_work. by apply detect_from_first_hit.
  - unfold Spec.classify_with_activity, Spec.first_match, Spec.non_default_rules.
    rewrite Hd.
    rewrite (find_pointwise _
               (fun r => client_hit (detection r.2)
                           (default "" (projectName phase)) (Some phase) gitlab)).
    + by destruct (List.find _ _).
    + intros r. by rewrite client_hit_matches.
  - intros Hnone.
    unfold Spec.classify, Spec.first_match, Spec.non_default_rules.
    rewrite Hd.
    rewrite (find_pointwise _
               (fun r => client_hit (detection r.2)
                           (default "" (projectName phase)) (Some phase) gitlab)).
    + by destruct (List.find _ _).
    + intros r.
      by rewrite client_hit_matches, (activity_match_no_project _ _ Hnone),
           orb_false_r.
Qed.

Lemma classify_first_match_witness :
  exists client_id,
    detect_client_for_work Example.store
      (default "" (projectName Example.tooling)) (Some Example.tooling)
      (Some Example.commits) = Ok client_id
    /\ Spec.classify_with_activity Example.store Example.tooling
         (Some Example.commits) = Some client_id
    /\ (default [] (projectsWorkedOn <$> Some Example.commits) = [] ->
        Spec.classify Example.store Example.tooling = Some client_id).
Proof.
  apply (classify_first_match Example.store Example.tooling (Some Example.commits)).
  - apply (bool_decide_unpack _). vm_compute. exact I.
  - reflexivity.
Defined.

(** C1 fails as stated: no field of the phase matches a rule, the
    four-field classification is the default rule, and the code answers
    "acme" because the day's project list names one of its projects. *)
Lemma classify_four_fields_counterexample :
  Spec.well_formed Example.store
  /\ eligible Example.tooling = true
  /\ Spec.classify Example.store Example.tooling = Some "personal"
  /\ detect_client_for_work Example.store
       (default "" (projectName Example.tooling)) (Some Example.tooling)
       (Some Example.commits) = Ok "acme".
Proof. vm_compute. auto. Qed.

(** C10: when every id of the priority order is a defined client and a
    default client id is configured, the classifier returns, without
    raising, an id of the priority order or the configured default. *)
Theorem detect_client_for_work_total (cfg : Config) (project_name : string)
    (phase_data : option Phase) (gitlab_data : option GitlabActivity)
    (d : string) :
  priority_defined cfg (detectionPriority cfg) ->
  defaultClient (settings cfg) = Some d ->
  exists client_id,
    detect_client_for_work cfg project_name phase_data gitlab_data = Ok client_id
    /\ (client_id ∈ detectionPriority cfg \/ client_id = d).
Proof. intros Hdef Hd. by apply detect_from_total. Qed.

Lemma detect_client_for_work_total_witness :
  exists client_id,
    detect_client_for_work Example.store_internal "Acme App Redesign" None
      (Some Example.commits) = Ok client_id
    /\ (client_id ∈ detectionPriority Example.store_internal
        \/ client_id = "internal").
Proof.
  apply (detect_client_for_work_total Example.store_internal).
  - apply (bool_decide_unpack _). vm_compute. exact I.
  - reflexivity.
Defined.

(** ** Loading the store *)

Lemma detect_client_for_work_reflag (flags : string -> bool) (cfg : Config)
    (project_name : string) (phase_data : option Phase)
    (gitlab_data : option GitlabActivity) :
  detect_client_for_work (reflag flags cfg) project_name phase_data gitlab_data
  = detect_client_for_work cfg project_name phase_data gitlab_data.
Proof. apply detect_from_reflag. Qed.

(** ** Insertion-ordered dictionaries *)

Section DictFacts.

Context {V : Type}.
Implicit Types (d : PyDict.t V) (k : string) (v : V).

Lemma get_set_eq d k v : PyDict.get k (PyDict.set k v d) = Some v.
Proof.
  induction d as [|[k' v'] d IH]; simpl.
  - by rewrite decide_True.
  - case_decide; simpl.
    + by rewrite decide_True.
    + by rewrite decide_False.
Qed.

Lemma get_set_ne d k k' v :
  k <> k' -> PyDict.get k' (PyDict.set k v d) = PyDict.get k' d.
Proof.
  intros Hne. induction d as [|[k0 v0] d IH]; simpl.
  - by rewrite decide_False.
  - case_decide; simpl; [subst; by rewrite !decide_False|].
    case_decide; [done|exact IH].
Qed.

Lemma get_None d k : PyDict.get k d = None <-> k ∉ PyDict.keys d.
Proof.
  induction d as [|[k' v'] d IH]; simpl.
  - split; [intros _; apply not_elem_of_nil|done].
  - rewrite not_elem_of_cons. case_decide; [|tauto].
    split; [discriminate|tauto].
Qed.

Lemma get_Some d k : is_Some (PyDict.get k d) <-> k ∈ PyDict.keys d.
Proof.
  rewrite <-not_eq_None_Some, get_None.
  destruct (decide (k ∈ PyDict.keys d)); tauto.
Qed.

Lemma mem_keys d k : PyDict.mem k d = true <-> k ∈ PyDict.keys d.
Proof.
  rewrite <-get_Some. unfold PyDict.mem.
  destruct (PyDict.get k d); split; try done; intros [? ?]; done.
Qed.

Lemma keys_set_old d k v :
  k ∈ PyDict.keys d -> PyDict.keys (PyDict.set k v d) = PyDict.keys d.
Proof.
  induction d as [|[k' v'] d IH]; simpl.
  - intros H. by apply elem_of_nil in H.
  - intros H. case_decide; simpl; [done|].
    f_equal. apply IH. apply elem_of_cons in H as [?|?]; [done|done].
Qed.

Lemma keys_set_new d k v :
  k ∉ PyDict.keys d -> PyDict.keys (PyDict.set k v d) = (PyDict.keys d ++ [k])%list.
Proof.
  induction d as [|[k' v'] d IH]; simpl; [done|].
  intros H. apply not_elem_of_cons in H as [Hne Hnin].
  rewrite decide_False by done. simpl. by rewrite IH.
Qed.

Lemma set_set d k v v' :
  PyDict.set k v (PyDict.set k v' d) = PyDict.set k v d.
Proof.
  induction d as [|[k0 v0] d IH]; simpl.
  - by rewrite decide_True.
  - case_decide; simpl; [by rewrite decide_True|].
    by rewrite decide_False, IH.
Qed.

Lemma elem_of_keys_set d k k' v :
  k' ∈ PyDict.keys (PyDict.set k v d) <-> k' = k \/ k' ∈ PyDict.keys d.
Proof.
  destruct (decide (k ∈ PyDict.keys d)) as [Hin|Hnin].
  - rewrite keys_set_old by done. split; [tauto|]. intros [->|?]; done.
  - rewrite keys_set_new, elem_of_app, list_elem_of_singleton by done. tauto.
Qed.

Lemma NoDup_keys_set d k v :
  NoDup (PyDict.keys d) -> NoDup (PyDict.keys (PyDict.set k v d)).
Proof.
  intros Hnd. destruct (decide (k ∈ PyDict.keys d)) as [Hin|Hnin].
  - by rewrite keys_set_old.
  - rewrite keys_set_new by done. apply NoDup_app. split; [done|]. split.
    + intros x Hx Hk. apply list_elem_of_singleton in Hk. by subst.
    + apply NoDup_singleton.
Qed.

End DictFacts.

Lemma total_set (d : PyDict.t Z) (k : string) (v : Z) :
  total (PyDict.set k v d) = total d - default 0 (PyDict.get k d) + v.
Proof.
  unfold total. induction d as [|[k' v'] d IH]; simpl; [lia|].
  case_decide; simpl; [lia|]. rewrite IH. lia.
Qed.

Lemma total_credited (d : PyDict.t Z) (k : string) (minutes : Z) :
  total (credited k minutes d) = total d + minutes.
Proof. unfold credited. rewrite total_set. lia. Qed.

Lemma credited_new (d : PyDict.t Z) (k : string) (minutes : Z) :
  PyDict.get k d = None ->
  PyDict.set k (0 + minutes) (PyDict.set k 0 d) = credited k minutes d.
Proof. intros H. unfold credited. by rewrite set_set, H. Qed.

(** ** The loop over the phases *)

Lemma tracking_ok_empty : tracking_ok no_tracking.
Proof.
  split; simpl.
  - apply NoDup_nil_2.
  - intros k. rewrite lookup_empty, elem_of_nil. split; [by intros [? ?]|done].
  - intros k. rewrite lookup_empty, elem_of_nil. split; [by intros [? ?]|done].
Qed.

Lemma track_client_ok (client_id : string) (st : Tracking) :
  tracking_ok st ->
  tracking_ok (track_client client_id st)
  /\ PyDict.get client_id (client_minutes (track_client client_id st))
     = Some (default 0 (PyDict.get client_id (client_minutes st)))
  /\ forall v, PyDict.set client_id v (client_minutes (track_client client_id st))
               = PyDict.set client_id v (client_minutes st).
Proof.
  intros [Hnd Hp Ht]. unfold track_client, PyDict.mem.
  destruct (PyDict.get client_id (client_minutes st)) as [m|] eqn:Hget; simpl.
  - by rewrite Hget.
  - split; [|split].
    + split; simpl.
      * by apply NoDup_keys_set.
      * intros k. rewrite lookup_insert, elem_of_keys_set, <-Hp.
        case_decide; [subst; split; eauto|]. split; [tauto|]. by intros [?|?].
      * intros k. rewrite lookup_insert, elem_of_keys_set, <-Ht.
        case_decide; [subst; split; eauto|]. split; [tauto|]. by intros [?|?].
    + apply get_set_eq.
    + intros v. apply set_set.
Qed.

Lemma set_add_Ok (client_id x : string) (sets : gmap string (gset string)) :
  is_Some (sets !! client_id) ->
  exists sets',
    set_add client_id x sets = Ok sets'
    /\ forall k, is_Some (sets' !! k) <-> is_Some (sets !! k).
Proof.
  intros [s Hs]. unfold set_add. rewrite Hs. eexists. split; [done|].
  intros k. rewrite lookup_insert. case_decide; [subst|done].
  rewrite Hs. split; eauto.
Qed.

Lemma set_add_if_Ok (b : bool) (client_id x : string)
    (sets : gmap string (gset string)) :
  is_Some (sets !! client_id) ->
  exists sets',
    (if b then set_add client_id x sets else Ok sets) = Ok sets'
    /\ forall k, is_Some (sets' !! k) <-> is_Some (sets !! k).
Proof.
  intros Hs. destruct b; [by apply set_add_Ok|]. by exists sets.
Qed.

Section PhaseFacts.

Variable classify :
  string -> option Phase -> option GitlabActivity -> result string.
Variable gitlab : option GitlabActivity.

Lemma process_phase_ineligible (st : Tracking) (phase : Phase) :
  eligible phase = false ->
  process_phase classify gitlab st phase = Ok (st, phase).
Proof. intros H. unfold process_phase. by rewrite H. Qed.

Lemma process_phase_raise (st : Tracking) (phase : Phase) (e : exn) :
  eligible phase = true ->
  classify (default "" (projectName phase)) (Some phase) gitlab = Raise e ->
  process_phase classify gitlab st phase = Raise e.
Proof. intros H Hc. unfold process_phase. by rewrite H, Hc. Qed.

Lemma process_phase_classified (st : Tracking) (phase : Phase)
    (client_id : string) :
  tracking_ok st ->
  eligible phase = true ->
  classify (default "" (projectName phase)) (Some phase) gitlab = Ok client_id ->
  exists st',
    process_phase classify gitlab st phase = Ok (st', rewritten client_id phase)
    /\ tracking_ok st'
    /\ client_minutes st'
       = credited client_id (durationMinutes phase) (client_minutes st).
Proof.
  intros Hok Hel Hc. unfold process_phase. rewrite Hel, Hc. simpl.
  destruct (track_client_ok client_id st Hok) as ([Hnd Hp Ht] & Hget & Hset).
  unfold PyDict.getitem. rewrite Hget. simpl.
  assert (client_id ∈ PyDict.keys (client_minutes (track_client client_id st)))
    as Hin by (apply get_Some; eauto).
  destruct (set_add_if_Ok (PyStr.truthy (default "" (projectName phase)))
              client_id (default "" (projectName phase))
              (client_projects (track_client client_id st)))
    as (cp & -> & Hcp); [by apply Hp|].
  simpl.
  destruct (set_add_if_Ok (PyStr.truthy (default "" (ticketReference phase)))
              client_id (default "" (ticketReference phase))
              (client_tickets (track_client client_id st)))
    as (ct & -> & Hct); [by apply Ht|].
  simpl. eexists. split; [reflexivity|]. split.
  - split; simpl.
    + by apply NoDup_keys_set.
    + intros k. rewrite Hcp, Hp, elem_of_keys_set. split; [tauto|].
      intros [->|?]; done.
    + intros k. rewrite Hct, Ht, elem_of_keys_set. split; [tauto|].
      intros [->|?]; done.
  - simpl. rewrite Hset. reflexivity.
Qed.

(** A step that returns was either a pass-through or an attribution. *)
Lemma process_phase_Ok (st st' : Tracking) (phase phase' : Phase) :
  tracking_ok st ->
  process_phase classify gitlab st phase = Ok (st', phase') ->
  (eligible phase = false /\ st' = st /\ phase' = phase)
  \/ (eligible phase = true
      /\ exists client_id,
           classify (default "" (projectName phase)) (Some phase) gitlab
           = Ok client_id
           /\ phase' = rewritten client_id phase
           /\ tracking_ok st'
           /\ client_minutes st'
              = credited client_id (durationMinutes phase) (client_minutes st)).
Proof.
  intros Hok H. destruct (eligible phase) eqn:Hel.
  - right. split; [done|].
    destruct (classify (default "" (projectName phase)) (Some phase) gitlab)
      as [client_id|e] eqn:Hc.
    + destruct (process_phase_classified st phase client_id Hok Hel Hc)
        as (st1 & H1 & Hok1 & Hcm).
      rewrite H1 in H. injection H as <- <-. eauto.
    + rewrite (process_phase_raise st phase e Hel Hc) in H. discriminate.
  - left. rewrite process_phase_ineligible in H by done.
    by injection H as <- <-.
Qed.

End PhaseFacts.

Section LoopFacts.

Variable classify :
  string -> option Phase -> option GitlabActivity -> result string.
Variable gitlab : option GitlabActivity.

Lemma process_phases_cons_Ok (st st' : Tracking) (phase : Phase)
    (rest phases' : list Phase) :
  process_phases classify gitlab st (phase :: rest) = Ok (st', phases') <->
  exists st1 phase' rest',
    process_phase classify gitlab st phase = Ok (st1, phase')
    /\ process_phases classify gitlab st1 rest = Ok (st', rest')
    /\ phases' = phase' :: rest'.
Proof.
  simpl. rewrite bind_Ok. split.
  - intros ([st1 phase'] & H1 & H2). apply bind_Ok in H2 as ([st2 rest'] & H2 & H3).
    injection H3 as <- <-. eauto 6.
  - intros (st1 & phase' & rest' & H1 & H2 & ->).
    exists (st1, phase'). split; [done|]. by rewrite H2.
Qed.

(** What a completed loop has done. *)
Lemma process_phases_Ok (phases : list Phase) :
  forall st st' phases',
  tracking_ok st ->
  process_phases classify gitlab st phases = Ok (st', phases') ->
  tracking_ok st'
  /\ Forall2 (outcome classify gitlab) phases phases'
  /\ total (client_minutes st')
     = total (client_minutes st) + classified_minutes phases
  /\ forall k, k ∈ PyDict.keys (client_minutes st')
               <-> k ∈ PyDict.keys (client_minutes st)
                   \/ k ∈ attributions classify gitlab phases.
Proof.
  induction phases as [|phase rest IH]; intros st st' phases' Hok H.
  - injection H as <- <-. split_and!; [done|constructor| |].
    + unfold classified_minutes. simpl. lia.
    + intros k. unfold attributions. simpl. rewrite elem_of_nil. tauto.
  - apply process_phases_cons_Ok in H
      as (st1 & phase' & rest' & H1 & H2 & ->).
    apply (process_phase_Ok _ _ _ _ _ _ Hok) in H1
      as [(Hel & -> & ->)|(Hel & c & Hc & -> & Hok1 & Hcm)].
    + destruct (IH _ _ _ Hok H2) as (Hok' & Hall & Htot & Hkeys).
      split_and!; [done| | |].
      * constructor; [|done]. unfold outcome. by rewrite Hel.
      * rewrite Htot. unfold classified_minutes. simpl. by rewrite Hel.
      * intros k. rewrite Hkeys. unfold attributions. simpl. by rewrite Hel.
    + destruct (IH _ _ _ Hok1 H2) as (Hok' & Hall & Htot & Hkeys).
      split_and!; [done| | |].
      * constructor; [|done]. unfold outcome. rewrite Hel. eauto.
      * rewrite Htot, Hcm, total_credited. unfold classified_minutes.
        simpl. rewrite Hel. simpl. lia.
      * intros k. rewrite Hkeys, Hcm. unfold attributions, credited. simpl.
        rewrite Hel, Hc. rewrite elem_of_keys_set, elem_of_cons. tauto.
Qed.

(** The loop completes when the classifier answers on every eligible
    phase. *)
Lemma process_phases_total (phases : list Phase) :
  forall st,
  tracking_ok st ->
  Forall (fun phase =>
            eligible phase = true ->
            is_Ok (classify (default "" (projectName phase)) (Some phase) gitlab))
    phases ->
  exists st' phases', process_phases classify gitlab st phases = Ok (st', phases').
Proof.
  induction phases as [|phase rest IH]; intros st Hok Hall.
  - by exists st, [].
  - apply Forall_cons in Hall as [Hp Hrest]. simpl.
    destruct (eligible phase) eqn:Hel.
    + destruct (Hp eq_refl) as [c Hc].
      destruct (process_phase_classified classify gitlab st phase c Hok Hel Hc)
        as (st1 & -> & Hok1 & _).
      simpl. destruct (IH st1 Hok1 Hrest) as (st' & rest' & ->). simpl. eauto.
    + rewrite process_phase_ineligible by done. simpl.
      destruct (IH st Hok Hrest) as (st' & rest' & ->). simpl. eauto.
Qed.

(** Phases that are not eligible leave no trace in the tracking. *)
Lemma process_phases_filter (phases : list Phase) :
  forall st,
  fst <$> process_phases classify gitlab st phases
  = fst <$> process_phases classify gitlab st (List.filter eligible phases).
Proof.
  induction phases as [|phase rest IH]; intros st; simpl; [done|].
  destruct (eligible phase) eqn:Hel; simpl.
  - destruct (process_phase classify gitlab st phase) as [[st1 phase']|e];
      simpl; [|done].
    specialize (IH st1).
    destruct (process_phases classify gitlab st1 rest) as [[st2 rest']|e],
      (process_phases classify gitlab st1 (List.filter eligible rest))
        as [[st3 rest'']|e']; simpl in *; congruence.
  - rewrite process_phase_ineligible by done. simpl.
    rewrite <-IH.
    by destruct (process_phases classify gitlab st rest) as [[st2 rest']|e].
Qed.

(** Phases that are not eligible come out as they went in. *)
Lemma process_phases_keeps (phases : list Phase) :
  forall st st' phases' (i : nat) phase,
  process_phases classify gitlab st phases = Ok (st', phases') ->
  phases !! i = Some phase ->
  eligible phase = false ->
  phases' !! i = Some phase.
Proof.
  induction phases as [|p rest IH]; intros st st' phases' i phase H Hi Hel.
  - done.
  - apply process_phases_cons_Ok in H as (st1 & p' & rest' & H1 & H2 & ->).
    destruct i as [|i]; simpl in *.
    + injection Hi as ->. rewrite process_phase_ineligible in H1 by done.
      by injection H1 as <- <-.
    + by eapply IH.
Qed.

End LoopFacts.

(** C7: a phase whose category is neither client_work nor meeting is
    passed through: whatever the classifier, it is not consulted and the
    step returns the tracking and the phase as they were; over a whole
    day such phases add nothing to the minutes, projects and tickets of
    any client, and each of them comes out unmodified. *)
Theorem ineligible_phase_untouched
    (classify : string -> option Phase -> option GitlabActivity -> result string)
    (gitlab : option GitlabActivity) (st : Tracking) (phases : list Phase) :
  (forall phase, phase ∈ phases -> eligible phase = false ->
     forall classify' st0,
       process_phase classify' gitlab st0 phase = Ok (st0, phase))
  /\ fst <$> process_phases classify gitlab st phases
     = fst <$> process_phases classify gitlab st (List.filter eligible phases)
  /\ (forall st' phases' (i : nat) phase,
        process_phases classify gitlab st phases = Ok (st', phases') ->
        phases !! i = Some phase ->
        eligible phase = false ->
        phases' !! i = Some phase).
Proof.
  split_and!.
  - intros phase _ Hel classify' st0. by apply process_phase_ineligible.
  - apply process_phases_filter.
  - intros st' phases' i phase. apply process_phases_keeps.
Qed.

Lemma ineligible_phase_untouched_witness :
  process_phase Example.broken_classifier None no_tracking
    (Example.work "break" "Lunch" 45)
  = Ok (no_tracking, Example.work "break" "Lunch" 45).
Proof.
  apply (ineligible_phase_untouched (detect_client_for_work Example.store) None
           no_tracking Example.mixed_day).
  - apply (list_elem_of_lookup_2 _ 1%nat). reflexivity.
  - reflexivity.
Defined.

(** C2: whenever the loop over the phases of a day completes, the minutes
    recorded per client add up to the durationMinutes of the phases that
    were classified, no more and no less; and the loop does complete for
    every day when the priority ids of the store are defined clients and
    a default client is configured. *)
Theorem minutes_conserved (cfg : Config) (data : DailyRecord) :
  (forall st phases',
     process_phases (detect_client_for_work cfg) (gitlabActivity data)
       no_tracking (timelinePhases data) = Ok (st, phases') ->
     total (client_minutes st) = classified_minutes (timelinePhases data))
  /\ (priority_defined cfg (detectionPriority cfg) ->
      is_Some (defaultClient (settings cfg)) ->
      exists st phases',
        process_phases (detect_client_for_work cfg) (gitlabActivity data)
          no_tracking (timelinePhases data) = Ok (st, phases')).
Proof.
  split.
  - intros st phases' H.
    apply process_phases_Ok in H as (_ & _ & Htot & _); [|apply tracking_ok_empty].
    rewrite Htot. unfold total. simpl. lia.
  - intros Hdef [d Hd].
    apply process_phases_total; [apply tracking_ok_empty|].
    apply Forall_forall. intros phase _ _.
    destruct (detect_from_total cfg (default "" (projectName phase))
                (Some phase) (gitlabActivity data) (detectionPriority cfg) d
                Hdef Hd) as (c & Hc & _).
    by exists c.
Qed.

Lemma minutes_conserved_witness :
  exists st phases',
    process_phases (detect_client_for_work Example.store) None
      no_tracking Example.mixed_day = Ok (st, phases')
    /\ total (client_minutes st) = classified_minutes Example.mixed_day.
Proof.
  destruct (minutes_conserved Example.store (Example.day None Example.mixed_day))
    as [Hsum Hruns].
  destruct Hruns as (st & phases' & H).
  - apply (bool_decide_unpack _). vm_compute. exact I.
  - by eexists.
  - exists st, phases'. split; [exact H|]. by apply (Hsum st phases').
Defined.

(** C8, as amended: a classified phase adds its durationMinutes as they
    are, whatever their sign, to the minutes of the client it is
    attributed to, and to no other client. *)
Theorem duration_credited_as_is
    (classify : string -> option Phase -> option GitlabActivity -> result string)
    (gitlab : option GitlabActivity) (st st' : Tracking) (phase phase' : Phase) :
  tracking_ok st ->
  eligible phase = true ->
  process_phase classify gitlab st phase = Ok (st', phase') ->
  exists client_id,
    clientId phase' = Some client_id
    /\ PyDict.get client_id (client_minutes st')
       = Some (default 0 (PyDict.get client_id (client_minutes st))
               + durationMinutes phase)
    /\ (forall other, other <> client_id ->
          PyDict.get other (client_minutes st')
          = PyDict.get other (client_minutes st))
    /\ total (client_minutes st')
       = total (client_minutes st) + durationMinutes phase.
Proof.
  intros Hok Hel H.
  apply (process_phase_Ok _ _ _ _ _ _ Hok) in H
    as [(Hel' & _)|(_ & c & Hc & -> & Hok' & Hcm)]; [congruence|].
  exists c. rewrite Hcm. split_and!.
  - unfold rewritten. by case_decide.
  - apply get_set_eq.
  - intros other Hne. by apply get_set_ne.
  - apply total_credited.
Qed.

Lemma duration_credited_as_is_witness :
  exists client_id,
    clientId (rewritten "acme" (Example.work "client_work" "Acme App Redesign" (-30)))
    = Some client_id
    /\ PyDict.get client_id (credited "acme" (-30) [("acme", 90)])
       = Some (default 0 (PyDict.get client_id [("acme", 90)]) + (-30))
    /\ (forall other, other <> client_id ->
          PyDict.get other (credited "acme" (-30) [("acme", 90)])
          = PyDict.get other [("acme", 90)])
    /\ total (credited "acme" (-30) [("acme", 90)]) = total [("acme", 90)] + (-30).
Proof.
  apply (duration_credited_as_is (detect_client_for_work Example.store) None
           {| client_minutes := [("acme", 90)];
              client_projects := {["acme" := {["Acme App Redesign"]}]};
              client_tickets := {["acme" := ∅]} |}
           {| client_minutes := credited "acme" (-30) [("acme", 90)];
              client_projects := {["acme" := {["Acme App Redesign"]}]};
              client_tickets := {["acme" := ∅]} |}
           (Example.work "client_work" "Acme App Redesign" (-30))).
  - split; simpl.
    + apply NoDup_singleton.
    + intros k. rewrite list_elem_of_singleton.
      destruct (decide (k = "acme")) as [->|Hne].
      * rewrite lookup_singleton_eq. split; eauto.
      * rewrite lookup_singleton_ne by done. split; [by intros [? ?]|done].
    + intros k. rewrite list_elem_of_singleton.
      destruct (decide (k = "acme")) as [->|Hne].
      * rewrite lookup_singleton_eq. split; eauto.
      * rewrite lookup_singleton_ne by done. split; [by intros [? ?]|done].
  - reflexivity.
  - vm_compute. reflexivity.
Defined.

(** C8 fails as stated: the correction of minus thirty minutes is taken
    from the ninety minutes of the client, which is left with sixty where
    the specification counts ninety. *)
Lemma negative_duration_counterexample :
  (client_minutes ∘ fst) <$>
    process_phases (detect_client_for_work Example.store) None no_tracking
      Example.corrected_day
  = Ok [("acme", 60)]
  /\ foldr Z.add 0 (map Spec.counted_minutes Example.corrected_day) = 90.
Proof. vm_compute. auto. Qed.

(** C4, on the code: with a default client called "internal", a phase that
    falls through to the default client is given the category
    client_work, not side_project. *)
Lemma default_client_not_personal :
  defaultClient (settings Example.store_internal) = Some "internal"
  /\ (fun r => (clientId r.2, category r.2)) <$>
       process_phase (detect_client_for_work Example.store_internal) None
         no_tracking Example.tooling
     = Ok (Some "internal", "client_work").
Proof. vm_compute. auto. Qed.

(** ** Running the loop again *)

Lemma client_hit_rewritten (d : Detection) (project_name client_id : string)
    (phase : Phase) (gitlab : option GitlabActivity) :
  client_hit d project_name (Some (rewritten client_id phase)) gitlab
  = client_hit d project_name (Some phase) gitlab.
Proof. unfold rewritten. by case_decide. Qed.

Lemma detect_from_rewritten (cfg : Config) (priority : list string)
    (project_name client_id : string) (phase : Phase)
    (gitlab : option GitlabActivity) :
  detect_from cfg priority project_name (Some (rewritten client_id phase)) gitlab
  = detect_from cfg priority project_name (Some phase) gitlab.
Proof.
  induction priority as [|c rest IH]; simpl; [done|].
  case_decide; [done|].
  destruct (clients cfg !! c) as [client|]; [|done].
  by rewrite client_hit_rewritten, IH.
Qed.

Lemma projectName_rewritten (client_id : string) (phase : Phase) :
  projectName (rewritten client_id phase) = projectName phase.
Proof. unfold rewritten. by case_decide. Qed.

Lemma rewritten_personal_ineligible (phase : Phase) :
  eligible (rewritten "personal" phase) = false.
Proof. reflexivity. Qed.

Lemma rewritten_client_eligible (client_id : string) (phase : Phase) :
  client_id <> "personal" -> eligible (rewritten client_id phase) = true.
Proof. intros Hne. unfold rewritten. by rewrite decide_False. Qed.

Lemma rewritten_twice (client_id : string) (phase : Phase) :
  rewritten client_id (rewritten client_id phase) = rewritten client_id phase.
Proof. unfold rewritten. by case_decide. Qed.

(** The phases a loop has produced go through the loop unchanged. *)
Lemma process_phases_again (cfg : Config) (gitlab : option GitlabActivity)
    (phases phases' : list Phase) :
  Forall2 (outcome (detect_client_for_work cfg) gitlab) phases phases' ->
  forall st, tracking_ok st ->
  exists st',
    process_phases (detect_client_for_work cfg) gitlab st phases' = Ok (st', phases').
Proof.
  induction 1 as [|phase phase' rest rest' Hout _ IH]; intros st Hok.
  - by exists st.
  - unfold outcome in Hout. simpl.
    assert (exists st1,
              process_phase (detect_client_for_work cfg) gitlab st phase'
              = Ok (st1, phase') /\ tracking_ok st1) as (st1 & -> & Hok1).
    { destruct (eligible phase) eqn:Hel.
      - destruct Hout as (c & Hc & ->).
        destruct (decide (c = "personal")) as [->|Hne].
        + exists st. split; [|done].
          apply process_phase_ineligible, rewritten_personal_ineligible.
        + destruct (process_phase_classified (detect_client_for_work cfg) gitlab
                      st (rewritten c phase) c Hok) as (st1 & H1 & Hok1 & _).
          * by apply rewritten_client_eligible.
          * rewrite projectName_rewritten. unfold detect_client_for_work.
            rewrite detect_from_rewritten. exact Hc.
          * exists st1. by rewrite H1, rewritten_twice.
      - subst phase'. exists st. split; [|done].
        by apply process_phase_ineligible. }
    simpl. destruct (IH st1 Hok1) as (st' & ->). simpl. eauto.
Qed.

(** C9: when the loop over a day's phases has classified them and
    rewritten their categories, running it a second time with the same
    store on the phases it produced returns these phases as they are: the
    same clientId and the same category for each. *)
Theorem classification_idempotent (cfg : Config) (gitlab : option GitlabActivity)
    (phases phases1 : list Phase) (st1 : Tracking) :
  process_phases (detect_client_for_work cfg) gitlab no_tracking phases
  = Ok (st1, phases1) ->
  exists st2,
    process_phases (detect_client_for_work cfg) gitlab no_tracking phases1
    = Ok (st2, phases1).
Proof.
  intros H.
  apply process_phases_Ok in H as (_ & Hall & _); [|apply tracking_ok_empty].
  eapply process_phases_again; [exact Hall|apply tracking_ok_empty].
Qed.

Lemma classification_idempotent_witness :
  exists st2,
    process_phases (detect_client_for_work Example.store) None no_tracking
      [rewritten "acme" (Example.work "client_work" "Acme App Redesign" 90);
       Example.work "break" "Lunch" 45;
       rewritten "personal" (Example.work "meeting" "Reading group" 60)]
    = Ok (st2,
          [rewritten "acme" (Example.work "client_work" "Acme App Redesign" 90);
           Example.work "break" "Lunch" 45;
           rewritten "personal" (Example.work "meeting" "Reading group" 60)]).
Proof.
  eapply (classification_idempotent Example.store None Example.mixed_day).
  vm_compute. reflexivity.
Defined.

(** ** Loading the store, continued *)

Lemma process_phases_pointwise
    (f g : string -> option Phase -> option GitlabActivity -> result string)
    (gitlab : option GitlabActivity) (phases : list Phase) :
  (forall project_name phase_data gitlab_data,
     f project_name phase_data gitlab_data = g project_name phase_data gitlab_data) ->
  forall st,
    process_phases f gitlab st phases = process_phases g gitlab st phases.
Proof.
  intros Hfg. induction phases as [|phase rest IH]; intros st; simpl; [done|].
  assert (process_phase f gitlab st phase = process_phase g gitlab st phase) as ->.
  { unfold process_phase. by rewrite Hfg. }
  destruct (process_phase g gitlab st phase) as [[st1 phase']|e]; simpl; [|done].
  by rewrite IH.
Qed.

(** C6, as amended: no store is rejected for the number of its default
    rules.  The loader returns the store found in the file as it is, and
    the engine never reads isDefault: whatever the flags of a store, one,
    none or several, the update of a day runs and gives the result it
    gives with any other flags. *)
Theorem store_never_validated (today : string) (cfg : Config)
    (flags : string -> bool) (data : DailyRecord) :
  load_config today (Some (reflag flags cfg)) = reflag flags cfg
  /\ update_timesheet_with_multi_client (reflag flags cfg) data
     = update_timesheet_with_multi_client cfg data.
Proof.
  split; [done|].
  unfold update_timesheet_with_multi_client.
  rewrite (process_phases_pointwise
             (detect_client_for_work (reflag flags cfg))
             (detect_client_for_work cfg)); [done|].
  intros. apply detect_client_for_work_reflag.
Qed.

(** C6 fails as stated: a store without any default rule and a store with
    three of them are loaded as they are, and a phase is classified
    against each. *)
Lemma malformed_store_counterexample :
  Spec.default_rules (reflag (fun _ => false) Example.store) = []
  /\ length (Spec.default_rules (reflag (fun _ => true) Example.store)) = 3%nat
  /\ load_config "2025-06-30" (Some (reflag (fun _ => false) Example.store))
     = reflag (fun _ => false) Example.store
  /\ detect_client_for_work
       (load_config "2025-06-30" (Some (reflag (fun _ => false) Example.store)))
       "Acme App Redesign" None None = Ok "acme"
  /\ detect_client_for_work
       (load_config "2025-06-30" (Some (reflag (fun _ => true) Example.store)))
       "Acme App Redesign" None None = Ok "acme".
Proof. vm_compute. auto 6. Qed.

(** ** Floats *)

Lemma float_eqb_eq (x y : PyFloat.float) : float_eqb x y = true -> x = y.
Proof.
  destruct x as [s|s| |s m e], y as [s'|s'| |s' m' e']; simpl; try done.
  - intros H. apply Bool.eqb_prop in H. by subst.
  - intros H. apply Bool.eqb_prop in H. by subst.
  - rewrite !andb_true_iff. intros [[H1 H2] H3].
    apply Bool.eqb_prop in H1. apply Pos.eqb_eq in H2. apply Z.eqb_eq in H3.
    by subst.
Qed.

(** Known values of Python: [round(0.25, 1)] is 0.2, [round(9 / 60, 1)]
    is 0.1 and [round(3 / 60, 1)] is 0.1, the floats 0.15 and 0.05 lying
    below and above these decimals; [0.1 + 0.2] is not 0.3. *)
Lemma round_examples :
  hours_of 15 = Ok (PyFloat.of_tenths 2)
  /\ hours_of 9 = Ok (PyFloat.of_tenths 1)
  /\ hours_of 3 = Ok (PyFloat.of_tenths 1)
  /\ hours_of 90 = Ok (PyFloat.of_tenths 15)
  /\ hours_of (-1) = Ok (S754_zero true)
  /\ PyFloat.add (PyFloat.of_tenths 1) (PyFloat.of_tenths 2)
     = S754_finite false 5404319552844596 (-54)
  /\ PyFloat.of_tenths 3 = S754_finite false 5404319552844595 (-54).
Proof. vm_compute. auto 8. Qed.

(** Over the minutes of a day the rounded hours never raise and are a
    tenth nearest to the exact hours. *)
Lemma hours_of_nearest_tenth (minutes : Z) :
  0 <= minutes <= 1440 ->
  exists t,
    hours_of minutes = Ok (PyFloat.of_tenths t)
    /\ Z.abs (10 * minutes - 60 * t) <= 30.
Proof.
  intros Hm.
  assert (forallb nearest_tenth (seqZ 0 1441) = true) as Hall
    by (vm_compute; reflexivity).
  rewrite forallb_forall in Hall.
  specialize (Hall minutes). unfold nearest_tenth, tenths_of_hours in Hall.
  assert (In minutes (seqZ 0 1441)) as Hin.
  { apply list_elem_of_In, elem_of_seqZ. lia. }
  specialize (Hall Hin).
  destruct (hours_of minutes) as [x|e]; [|done].
  destruct (List.find _ _) as [t|] eqn:Hfind; [|done].
  apply find_some in Hfind as [_ Heq]. apply float_eqb_eq in Heq.
  exists t. split; [by rewrite Heq|]. by apply Z.leb_le.
Qed.

(** ** Hours per client *)

Lemma elem_of_filter_bool {A} (f : A -> bool) (l : list A) (x : A) :
  x ∈ List.filter f l <-> f x = true /\ x ∈ l.
Proof. rewrite !list_elem_of_In, filter_In. tauto. Qed.

Lemma NoDup_filter_bool {A} (f : A -> bool) (l : list A) :
  NoDup l -> NoDup (List.filter f l).
Proof.
  induction 1 as [|x l Hx Hl IH]; simpl; [constructor|].
  destruct (f x); [|done]. constructor; [|done].
  rewrite elem_of_filter_bool. tauto.
Qed.

Lemma hours_step_Ok (acc acc1 : Hours) (client_id : string) (minutes : Z) :
  hours_step acc (client_id, minutes) = Ok acc1 ->
  exists x,
    hours_of minutes = Ok x
    /\ acc1 = if decide (client_id = "personal") then
                {| client_hours := client_hours acc;
                   total_billable := total_billable acc;
                   side_project_hours := x |}
              else
                {| client_hours := PyDict.set client_id x (client_hours acc);
                   total_billable := PyFloat.add (total_billable acc) x;
                   side_project_hours := side_project_hours acc |}.
Proof.
  unfold hours_step. intros H. apply bind_Ok in H as (x & Hx & H).
  exists x. split; [done|]. case_decide; by injection H.
Qed.

Lemma hours_loop_cons_Ok (acc h : Hours) (item : string * Z)
    (rest : list (string * Z)) :
  hours_loop acc (item :: rest) = Ok h ->
  exists acc1, hours_step acc item = Ok acc1 /\ hours_loop acc1 rest = Ok h.
Proof. simpl. intros H. by apply bind_Ok in H. Qed.

(** The billable total is the left-to-right sum of the rounded hours of
    the clients other than "personal". *)
Lemma hours_loop_billable (items : list (string * Z)) :
  forall acc h,
  hours_loop acc items = Ok h ->
  exists hs,
    Forall2 (fun kv x => hours_of kv.2 = Ok x)
      (List.filter (fun kv => billed kv.1) items) hs
    /\ total_billable h = fold_left PyFloat.add hs (total_billable acc).
Proof.
  induction items as [|[k m] rest IH]; intros acc h H.
  - injection H as <-. exists []. split; [constructor|done].
  - apply hours_loop_cons_Ok in H as (acc1 & H1 & H2).
    apply hours_step_Ok in H1 as (x & Hx & ->).
    destruct (IH _ _ H2) as (hs & Hall & Htot). simpl. unfold billed at 1. simpl.
    case_decide.
    + rewrite bool_decide_eq_true_2 by done. simpl. exists hs. by split.
    + rewrite bool_decide_eq_false_2 by done. simpl. exists (x :: hs).
      split; [by constructor|done].
Qed.

(** The keys of [client_hours] are the clients other than "personal", in
    the order of [client_minutes]. *)
Lemma hours_loop_keys (items : list (string * Z)) :
  forall acc h,
  hours_loop acc items = Ok h ->
  NoDup (PyDict.keys (client_hours acc) ++ map fst items)%list ->
  PyDict.keys (client_hours h)
  = (PyDict.keys (client_hours acc) ++ List.filter billed (map fst items))%list.
Proof.
  induction items as [|[k m] rest IH]; intros acc h H Hnd.
  - injection H as <-. simpl. by rewrite app_nil_r.
  - apply hours_loop_cons_Ok in H as (acc1 & H1 & H2).
    apply hours_step_Ok in H1 as (x & Hx & ->).
    simpl in Hnd. simpl. unfold billed at 1. case_decide.
    + rewrite bool_decide_eq_true_2 by done. simpl.
      apply (IH _ _ H2). simpl.
      apply NoDup_app in Hnd as (H1 & H3 & H4). apply NoDup_cons in H4 as [_ H4].
      apply NoDup_app. split; [done|]. split; [|done].
      intros y Hy Hr. apply (H3 y Hy). by right.
    + rewrite bool_decide_eq_false_2 by done. simpl.
      assert (k ∉ PyDict.keys (client_hours acc)) as Hk.
      { intros Hin. apply NoDup_app in Hnd as (_ & H3 & _).
        apply (H3 k Hin). by left. }
      rewrite (IH _ _ H2); simpl.
      * rewrite keys_set_new by done. by rewrite <-app_assoc.
      * rewrite keys_set_new by done. by rewrite <-app_assoc.
Qed.

(** The side-project hours are those of "personal", if it has minutes. *)
Lemma hours_loop_side (items : list (string * Z)) :
  forall acc h,
  hours_loop acc items = Ok h ->
  NoDup (map fst items) ->
  match PyDict.get "personal" items with
  | Some m => hours_of m = Ok (side_project_hours h)
  | None => side_project_hours h = side_project_hours acc
  end.
Proof.
  induction items as [|[k m] rest IH]; intros acc h H Hnd.
  - by injection H as <-.
  - apply hours_loop_cons_Ok in H as (acc1 & H1 & H2).
    apply hours_step_Ok in H1 as (x & Hx & ->).
    simpl in Hnd. apply NoDup_cons in Hnd as [Hk Hnd].
    specialize (IH _ _ H2 Hnd). simpl.
    destruct (decide (k = "personal")) as [->|Hne].
    + rewrite decide_True by done.
      assert (PyDict.get "personal" rest = None) as Hnone by by apply get_None.
      rewrite Hnone in IH. simpl in IH. by rewrite IH.
    + rewrite decide_False by done. exact IH.
Qed.

Lemma update_Ok (cfg : Config) (data out : DailyRecord) :
  update_timesheet_with_multi_client cfg data = Ok out ->
  exists st phases h,
    process_phases (detect_client_for_work cfg) (gitlabActivity data)
      no_tracking (timelinePhases data) = Ok (st, phases)
    /\ hours_loop no_hours (client_minutes st) = Ok h
    /\ timelinePhases out = phases
    /\ billableHours (timeSummary out) = total_billable h
    /\ sideProjectHours (timeSummary out) = side_project_hours h
    /\ day_clientId out = Some (primary_client (client_hours h)).
Proof.
  unfold update_timesheet_with_multi_client. intros H.
  apply bind_Ok in H as ([st phases] & H1 & H).
  apply bind_Ok in H as (h & H2 & H).
  apply bind_Ok in H as (cs & H3 & H).
  injection H as <-. exists st, phases, h. by split_and!.
Qed.

Lemma is_default_personal (cfg : Config) (client_id : string) :
  defaultClient (settings cfg) = Some "personal" ->
  negb (Spec.is_default cfg client_id) = billed client_id.
Proof.
  intros Hd. unfold Spec.is_default, billed. rewrite Hd. f_equal.
  apply bool_decide_ext. split; [by intros [= ->]|by intros ->].
Qed.

(** C3, as amended: for a store whose default client is "personal",
    billableHours is the sum, taken over the non-default clients in the
    order of their first phase, of each client's totalMinutes/60 rounded
    to one decimal: every client's hours are rounded before they are
    added, as binary floating-point numbers, and the rounding is the one
    of round, to the nearest decimal of the binary value with ties to
    even; sideProjectHours is the default client's totalMinutes/60
    rounded in the same way, and zero without such a client. *)
Theorem hours_rounded_per_client (cfg : Config) (data out : DailyRecord) :
  defaultClient (settings cfg) = Some "personal" ->
  update_timesheet_with_multi_client cfg data = Ok out ->
  exists st phases hs,
    process_phases (detect_client_for_work cfg) (gitlabActivity data)
      no_tracking (timelinePhases data) = Ok (st, phases)
    /\ Forall2 (fun kv x => hours_of kv.2 = Ok x)
         (List.filter (fun kv => negb (Spec.is_default cfg kv.1))
            (client_minutes st)) hs
    /\ billableHours (timeSummary out) = float_sum hs
    /\ match Spec.default_minutes cfg (client_minutes st) with
       | Some m => hours_of m = Ok (sideProjectHours (timeSummary out))
       | None => sideProjectHours (timeSummary out) = PyFloat.zero
       end.
Proof.
  intros Hd H.
  apply update_Ok in H as (st & phases & h & H1 & H2 & _ & Hb & Hs & _).
  destruct (hours_loop_billable _ _ _ H2) as (hs & Hall & Htot).
  exists st, phases, hs. split_and!; [done| | |].
  - rewrite (filter_ext _ (fun kv => billed kv.1)); [done|].
    intros kv. by apply is_default_personal.
  - by rewrite Hb, Htot.
  - apply process_phases_Ok in H1 as ([Hnd _ _] & _); [|apply tracking_ok_empty].
    unfold Spec.default_minutes. rewrite Hd, Hs. simpl.
    apply (hours_loop_side _ _ _ H2 Hnd).
Qed.

Lemma hours_rounded_per_client_witness :
  exists out,
    update_timesheet_with_multi_client Example.store
      (Example.day None Example.split_day) = Ok out
    /\ exists st phases hs,
         process_phases (detect_client_for_work Example.store) None
           no_tracking Example.split_day = Ok (st, phases)
         /\ Forall2 (fun kv x => hours_of kv.2 = Ok x)
              (List.filter (fun kv => negb (Spec.is_default Example.store kv.1))
                 (client_minutes st)) hs
         /\ billableHours (timeSummary out) = float_sum hs
         /\ match Spec.default_minutes Example.store (client_minutes st) with
            | Some m => hours_of m = Ok (sideProjectHours (timeSummary out))
            | None => sideProjectHours (timeSummary out) = PyFloat.zero
            end.
Proof.
  eexists. split.
  - vm_compute. reflexivity.
  - apply (hours_rounded_per_client Example.store
             (Example.day None Example.split_day)).
    + reflexivity.
    + vm_compute. reflexivity.
Defined.

(** C3 fails as stated.  Two clients with twenty minutes each: the code
    adds 0.3 and 0.3 and reports 0.6 billable hours, where the forty
    minutes rounded once give 0.7.  One client with fifteen minutes: the
    code rounds 0.25 to 0.2, to the even digit, where rounding half away
    from zero gives 0.3. *)
Lemma billable_hours_counterexample :
  (client_minutes ∘ fst) <$>
    process_phases (detect_client_for_work Example.store) None no_tracking
      Example.split_day
  = Ok [("acme", 20); ("beta", 20)]
  /\ (fun out => billableHours (timeSummary out)) <$>
       update_timesheet_with_multi_client Example.store
         (Example.day None Example.split_day)
     = Ok (PyFloat.of_tenths 6)
  /\ Spec.billableHours Example.store [("acme", 20); ("beta", 20)]
     = PyFloat.of_tenths 7
  /\ (fun out => billableHours (timeSummary out)) <$>
       update_timesheet_with_multi_client Example.store
         (Example.day None Example.quarter_day)
     = Ok (PyFloat.of_tenths 2)
  /\ Spec.billableHours Example.store [("acme", 15)] = PyFloat.of_tenths 3
  /\ PyFloat.of_tenths 6 <> PyFloat.of_tenths 7
  /\ PyFloat.of_tenths 2 <> PyFloat.of_tenths 3.
Proof. vm_compute. split_and!; try reflexivity; discriminate. Qed.

(** ** The primary client *)

Lemma primary_by_set (l : list string) (s : gset string) :
  NoDup l ->
  (forall k, k ∈ l <-> k ∈ s) ->
  let primary :=
    match l with [] => "personal" | [c] => c | _ => "multiple" end in
  (s = ∅ -> primary = "personal")
  /\ (forall c, s = {[c]} -> primary = c)
  /\ ((1 < size s)%nat -> primary = "multiple").
Proof.
  intros Hnd Hl primary.
  assert (s = list_to_set l) as ->.
  { apply set_eq. intros k. rewrite elem_of_list_to_set. symmetry. apply Hl. }
  pose proof (size_list_to_set (C := gset string) l Hnd) as Hsize.
  subst primary. destruct l as [|a [|b l]]; cbn [length] in Hsize; split_and!.
  - done.
  - intros c Hc. rewrite Hc, size_singleton in Hsize. done.
  - rewrite Hsize. lia.
  - intros He. rewrite He, size_empty in Hsize. done.
  - intros c Hc.
    assert (a ∈ ({[c]} : gset string)) as Ha.
    { rewrite <-Hc. apply elem_of_list_to_set. by left. }
    by apply elem_of_singleton in Ha.
  - rewrite Hsize. lia.
  - intros He. rewrite He, size_empty in Hsize. done.
  - intros c Hc. rewrite Hc, size_singleton in Hsize. done.
  - done.
Qed.

Lemma Forall_set {V} (P : V -> Prop) (d : PyDict.t V) (k : string) (v : V) :
  Forall (fun kv => P kv.2) d -> P v -> Forall (fun kv => P kv.2) (PyDict.set k v d).
Proof.
  intros Hd Hv. induction Hd as [|[k' v'] d Hkv Hd IH]; simpl.
  - by repeat constructor.
  - case_decide; constructor; done.
Qed.

Lemma get_Forall {V} (P : V -> Prop) (d : PyDict.t V) (k : string) (v : V) :
  Forall (fun kv => P kv.2) d -> PyDict.get k d = Some v -> P v.
Proof.
  induction 1 as [|[k' v'] d Hkv Hd IH]; simpl; [done|].
  case_decide; [by intros [= <-]|done].
Qed.

(** With positive durations every recorded client has positive minutes. *)
Lemma process_phases_positive
    (classify : string -> option Phase -> option GitlabActivity -> result string)
    (gitlab : option GitlabActivity) (phases : list Phase) :
  Forall (fun phase => eligible phase = true -> 0 < durationMinutes phase) phases ->
  forall st st' phases',
  tracking_ok st ->
  Forall (fun kv => 0 < kv.2) (client_minutes st) ->
  process_phases classify gitlab st phases = Ok (st', phases') ->
  Forall (fun kv => 0 < kv.2) (client_minutes st').
Proof.
  induction 1 as [|phase rest Hpos _ IH]; intros st st' phases' Hok Hst H.
  - by injection H as <- <-.
  - apply process_phases_cons_Ok in H as (st1 & phase' & rest' & H1 & H2 & ->).
    apply (process_phase_Ok _ _ _ _ _ _ Hok) in H1
      as [(Hel & -> & ->)|(Hel & c & Hc & -> & Hok1 & Hcm)].
    + by apply (IH st st' rest' Hok Hst H2).
    + apply (IH st1 st' rest' Hok1); [|done]. rewrite Hcm. unfold credited.
      apply (Forall_set (fun v => 0 < v)); [done|].
      specialize (Hpos Hel).
      destruct (PyDict.get c (client_minutes st)) as [m|] eqn:Hget; simpl; [|lia].
      pose proof (get_Forall (fun v => 0 < v) _ _ _ Hst Hget). simpl in *. lia.
Qed.

Lemma primary_client_filter (cfg : Config) (cm : PyDict.t Z) :
  defaultClient (settings cfg) = Some "personal" ->
  Forall (fun kv => 0 < kv.2) cm ->
  Spec.primaryClientId cfg cm
  = match List.filter billed (PyDict.keys cm) with
    | [] => "personal"
    | [c] => c
    | _ => "multiple"
    end.
Proof.
  intros Hd Hpos. unfold Spec.primaryClientId.
  assert (List.filter
            (fun kv : string * Z => negb (Spec.is_default cfg kv.1) && negb (kv.2 =? 0))
            cm
          = List.filter (fun kv => billed kv.1) cm) as ->.
  { induction Hpos as [|[k m] cm Hm _ IH]; simpl; [done|].
    rewrite IH, (is_default_personal cfg k Hd).
    simpl in Hm. by rewrite (proj2 (Z.eqb_neq m 0)), andb_true_r by lia. }
  assert (List.filter billed (PyDict.keys cm)
          = map fst (List.filter (fun kv => billed kv.1) cm)) as ->.
  { clear Hpos. unfold PyDict.keys.
    induction cm as [|[k m] cm IH]; simpl; [done|].
    destruct (billed k); simpl; by rewrite IH. }
  by destruct (List.filter _ cm) as [|kv [|kv' l]].
Qed.

(** C5, as amended: for a store whose default client is "personal", the
    primary client is "personal" when no phase of the day is attributed to
    a non-default client, that client's id when phases are attributed to
    exactly one non-default client, and "multiple" when they are
    attributed to more than one; a client counts as soon as a phase is
    attributed to it, whatever its minutes add up to.  When every
    classified phase has a positive duration, these are the clients with
    nonzero attributed minutes. *)
Theorem primary_client_by_attribution (cfg : Config) (data out : DailyRecord) :
  defaultClient (settings cfg) = Some "personal" ->
  update_timesheet_with_multi_client cfg data = Ok out ->
  exists primary,
    day_clientId out = Some primary
    /\ (attributed_clients cfg data = ∅ -> primary = "personal")
    /\ (forall c, attributed_clients cfg data = {[c]} -> primary = c)
    /\ ((1 < size (attributed_clients cfg data))%nat -> primary = "multiple")
    /\ (Forall (fun phase => eligible phase = true -> 0 < durationMinutes phase)
          (timelinePhases data) ->
        exists st phases,
          process_phases (detect_client_for_work cfg) (gitlabActivity data)
            no_tracking (timelinePhases data) = Ok (st, phases)
          /\ primary = Spec.primaryClientId cfg (client_minutes st)).
Proof.
  intros Hd H.
  apply update_Ok in H as (st & phases & h & H1 & H2 & _ & _ & _ & Hp).
  exists (primary_client (client_hours h)). split; [done|].
  pose proof H1 as H1'.
  apply process_phases_Ok in H1 as ([Hnd _ _] & _ & _ & Hkeys);
    [|apply tracking_ok_empty].
  pose proof (hours_loop_keys _ _ _ H2) as Hk. simpl in Hk.
  specialize (Hk Hnd). unfold primary_client. rewrite Hk.
  assert (forall k, k ∈ List.filter billed (map fst (client_minutes st))
                    <-> k ∈ attributed_clients cfg data) as Hset.
  { intros k. unfold attributed_clients.
    rewrite elem_of_list_to_set, !elem_of_filter_bool.
    rewrite (is_default_personal cfg k Hd).
    fold (PyDict.keys (client_minutes st)). rewrite Hkeys. simpl.
    rewrite elem_of_nil. tauto. }
  destruct (primary_by_set _ _ (NoDup_filter_bool billed _ Hnd) Hset)
    as (Hnone & Hone & Hmany).
  split_and!; [done|done|done|].
  intros Hpos. exists st, phases. split; [done|].
  rewrite primary_client_filter; [done|done|].
  apply (process_phases_positive (detect_client_for_work cfg)
           (gitlabActivity data) (timelinePhases data) Hpos no_tracking st
           phases tracking_ok_empty); [constructor|done].
Qed.

Lemma primary_client_by_attribution_witness :
  exists out,
    update_timesheet_with_multi_client Example.store
      (Example.day None Example.split_day) = Ok out
    /\ exists primary,
         day_clientId out = Some primary
         /\ (attributed_clients Example.store (Example.day None Example.split_day)
             = ∅ -> primary = "personal")
         /\ (forall c,
               attributed_clients Example.store (Example.day None Example.split_day)
               = {[c]} -> primary = c)
         /\ ((1 < size (attributed_clients Example.store
                          (Example.day None Example.split_day)))%nat ->
             primary = "multiple")
         /\ (Forall (fun phase => eligible phase = true -> 0 < durationMinutes phase)
               Example.split_day ->
             exists st phases,
               process_phases (detect_client_for_work Example.store) None
                 no_tracking Example.split_day = Ok (st, phases)
               /\ primary = Spec.primaryClientId Example.store (client_minutes st)).
Proof.
  eexists. split.
  - vm_compute. reflexivity.
  - apply (primary_client_by_attribution Example.store
             (Example.day None Example.split_day)).
    + reflexivity.
    + vm_compute. reflexivity.
Defined.

(** C5 fails as stated: the only phase attributed to a non-default client
    has no duration, no non-default client has nonzero minutes, and the
    primary client is "acme" where the specification says "personal". *)
Lemma primary_client_counterexample :
  (client_minutes ∘ fst) <$>
    process_phases (detect_client_for_work Example.store) None no_tracking
      Example.empty_day
  = Ok [("acme", 0)]
  /\ day_clientId <$>
       update_timesheet_with_multi_client Example.store
         (Example.day None Example.empty_day)
     = Ok (Some "acme")
  /\ Spec.primaryClientId Example.store [("acme", 0)] = "personal".
Proof. vm_compute. auto. Qed.

(** * Further properties *)

(** ** What the classifier returns and when it raises *)

Lemma detect_from_Ok (cfg : Config) (priority : list string)
    (project_name : string) (phase_data : option Phase)
    (gitlab_data : option GitlabActivity) (r : string) :
  detect_from cfg priority project_name phase_data gitlab_data = Ok r ->
  (r <> "personal" /\ r ∈ priority
   /\ exists c, clients cfg !! r = Some c
                /\ client_hit (detection c) project_name phase_data gitlab_data
                   = true)
  \/ defaultClient (settings cfg) = Some r.
Proof.
  induction priority as [|k rest IH]; simpl.
  - destruct (defaultClient (settings cfg)); [|done]. intros [= ->]. by right.
  - case_decide as Hk.
    + intros H. destruct (IH H) as [(Hne & Hin & Hc)|Hd]; [left|by right].
      split_and!; [done|by right|done].
    + destruct (clients cfg !! k) as [c|] eqn:Hc; [|done].
      destruct (client_hit _ _ _ _) eqn:Hhit.
      * intros [= <-]. left. split_and!; [done|by left|eauto].
      * intros H. destruct (IH H) as [(Hne & Hin & Hc')|Hd]; [left|by right].
        split_and!; [done|by right|done].
Qed.

Lemma detect_from_Raise (cfg : Config) (priority : list string)
    (project_name : string) (phase_data : option Phase)
    (gitlab_data : option GitlabActivity) (e : exn) :
  detect_from cfg priority project_name phase_data gitlab_data = Raise e ->
  (exists k, e = KeyError k /\ k ∈ priority /\ k <> "personal"
             /\ clients cfg !! k = None)
  \/ (e = KeyError "defaultClient" /\ defaultClient (settings cfg) = None).
Proof.
  induction priority as [|k rest IH]; simpl.
  - destruct (defaultClient (settings cfg)); [done|]. intros [= <-]. by right.
  - case_decide as Hk.
    + intros H. destruct (IH H) as [(k' & -> & Hin & Hne & Hc)|Hd]; [left|by right].
      exists k'. split_and!; [done|by right|done|done].
    + destruct (clients cfg !! k) as [c|] eqn:Hc.
      * destruct (client_hit _ _ _ _); [done|].
        intros H. destruct (IH H) as [(k' & -> & Hin & Hne & Hc')|Hd];
          [left|by right].
        exists k'. split_and!; [done|by right|done|done].
      * intros [= <-]. left. exists k. split_and!; [done|by left|done|done].
Qed.

(** The loop stops at the first id, other than "personal", that is an
    undefined client or a client whose rule hits. *)
Lemma detect_from_app (cfg : Config) (before after : list string)
    (project_name : string) (phase_data : option Phase)
    (gitlab_data : option GitlabActivity) :
  Forall (fun b => b = "personal"
                   \/ exists c, clients cfg !! b = Some c
                                /\ client_hit (detection c) project_name
                                     phase_data gitlab_data = false)
    before ->
  detect_from cfg (before ++ after)%list project_name phase_data gitlab_data
  = detect_from cfg after project_name phase_data gitlab_data.
Proof.
  induction 1 as [|b before Hb _ IH]; simpl; [done|].
  case_decide as Hp; [done|].
  destruct Hb as [->|(c & -> & ->)]; done.
Qed.

(** X1: an id that the classifier returns is the configured default
    client or an id of the priority order, other than "personal", that
    names a defined client whose rule hits on the input; in particular
    "personal" is returned only as the configured default. *)
Theorem detect_returns_hit_or_default (cfg : Config) (project_name : string)
    (phase_data : option Phase) (gitlab_data : option GitlabActivity)
    (r : string) :
  detect_client_for_work cfg project_name phase_data gitlab_data = Ok r ->
  (r <> "personal" /\ r ∈ detectionPriority cfg
   /\ exists c, clients cfg !! r = Some c
                /\ client_hit (detection c) project_name phase_data gitlab_data
                   = true)
  \/ defaultClient (settings cfg) = Some r.
Proof. apply detect_from_Ok. Qed.

Lemma detect_returns_hit_or_default_witness :
  ("acme" <> "personal" /\ "acme" ∈ detectionPriority Example.store
   /\ exists c, clients Example.store !! "acme" = Some c
                /\ client_hit (detection c) "Acme App Redesign" None None = true)
  \/ defaultClient (settings Example.store) = Some "acme".
Proof.
  apply (detect_returns_hit_or_default Example.store "Acme App Redesign" None None).
  vm_compute. reflexivity.
Defined.

(** X2: the classifier raises nothing but a KeyError, for an id of the
    priority order other than "personal" that is not a defined client or
    for a missing defaultClient setting; and it does raise the KeyError of
    an undefined id as soon as every id before it is "personal" or a
    defined client whose rule does not hit. *)
Theorem detect_raises_KeyError (cfg : Config) (project_name : string)
    (phase_data : option Phase) (gitlab_data : option GitlabActivity) :
  (forall e,
     detect_client_for_work cfg project_name phase_data gitlab_data = Raise e ->
     (exists k, e = KeyError k /\ k ∈ detectionPriority cfg /\ k <> "personal"
                /\ clients cfg !! k = None)
     \/ (e = KeyError "defaultClient" /\ defaultClient (settings cfg) = None))
  /\ (forall before k after,
        detectionPriority cfg = (before ++ k :: after)%list ->
        Forall (fun b => b = "personal"
                         \/ exists c, clients cfg !! b = Some c
                                      /\ client_hit (detection c) project_name
                                           phase_data gitlab_data = false)
          before ->
        k <> "personal" ->
        clients cfg !! k = None ->
        detect_client_for_work cfg project_name phase_data gitlab_data
        = Raise (KeyError k)).
Proof.
  split.
  - intros e. apply detect_from_Raise.
  - intros before k after Hp Hb Hk Hc. unfold detect_client_for_work.
    rewrite Hp, detect_from_app by done. simpl.
    by rewrite decide_False, Hc.
Qed.

Lemma detect_raises_KeyError_witness :
  detect_client_for_work Sample.store_ghost "Internal tooling" None None
  = Raise (KeyError "ghost").
Proof.
  apply (detect_raises_KeyError Sample.store_ghost "Internal tooling" None None)
    with (before := ["acme"]) (after := ["beta"; "personal"]).
  - reflexivity.
  - constructor; [|constructor]. right. exists Example.acme.
    split; vm_compute; reflexivity.
  - done.
  - vm_compute. reflexivity.
Defined.

(** ** What the classification depends on *)

(** Two runs of the loop agree when the stores agree on the default client
    and, for every id of the priority list, on whether it is defined and on
    whether its rule hits. *)
Lemma detect_from_agree (cfg cfg' : Config) (priority : list string)
    (project_name project_name' : string) (phase_data phase_data' : option Phase)
    (gitlab_data gitlab_data' : option GitlabActivity) :
  defaultClient (settings cfg) = defaultClient (settings cfg') ->
  (forall k,
     match clients cfg !! k, clients cfg' !! k with
     | Some c, Some c' =>
         client_hit (detection c) project_name phase_data gitlab_data
         = client_hit (detection c') project_name' phase_data' gitlab_data'
     | None, None => True
     | _, _ => False
     end) ->
  detect_from cfg priority project_name phase_data gitlab_data
  = detect_from cfg' priority project_name' phase_data' gitlab_data'.
Proof.
  intros Hd Hk. induction priority as [|k rest IH]; simpl.
  - by rewrite Hd.
  - case_decide; [done|]. specialize (Hk k).
    destruct (clients cfg !! k) as [c|], (clients cfg' !! k) as [c'|]; try done.
    by rewrite Hk, IH.
Qed.

Lemma existsb_pointwise {A} (f g : A -> bool) (l : list A) :
  (forall x, f x = g x) -> existsb f l = existsb g l.
Proof.
  intros Hfg. induction l as [|x l IH]; simpl; [done|]. by rewrite Hfg, IH.
Qed.

Lemma existsb_same {A} (f : A -> bool) (l l' : list A) :
  (forall x, x ∈ l <-> x ∈ l') -> existsb f l = existsb f l'.
Proof.
  intros Hl. apply Bool.eq_true_iff_eq. rewrite !existsb_exists.
  split; intros (x & Hx & Hf); exists x; split; try done;
    apply list_elem_of_In, Hl, list_elem_of_In, Hx.
Qed.

Lemma elem_of_map_same {A B} (f : A -> B) (l l' : list A) (y : B) :
  (forall x, x ∈ l <-> x ∈ l') -> y ∈ map f l <-> y ∈ map f l'.
Proof.
  intros Hl. rewrite !list_elem_of_In, !in_map_iff.
  split; intros (x & <- & Hx); exists x; split; try done;
    apply list_elem_of_In, Hl, list_elem_of_In, Hx.
Qed.

Lemma client_hit_same_patterns (d d' : Detection) (project_name : string)
    (phase_data : option Phase) (gitlab_data : option GitlabActivity) :
  same_patterns d d' ->
  client_hit d project_name phase_data gitlab_data
  = client_hit d' project_name phase_data gitlab_data.
Proof.
  intros (Hf & Hp & Ht & Hg). unfold client_hit. f_equal; [f_equal|].
  - unfold project_hit. by apply existsb_same.
  - destruct phase_data as [ph|]; [|done]. f_equal; [f_equal|].
    + unfold folder_hit. by apply existsb_same.
    + unfold ticket_hit. by apply existsb_same.
    + unfold tag_hit. apply existsb_pointwise. intros tag.
      apply bool_decide_ext, Hg.
  - destruct gitlab_data as [g|]; [|done]. unfold gitlab_hit.
    apply existsb_pointwise. intros project. apply bool_decide_ext.
    by apply elem_of_map_same.
Qed.

(** X3: the classification depends on the patterns of a rule as sets:
    two stores with the same priority order, the same default client and,
    client by client, the same patterns in whatever order and with
    whatever repetitions classify every input alike. *)
Theorem detect_same_rules (cfg cfg' : Config) (project_name : string)
    (phase_data : option Phase) (gitlab_data : option GitlabActivity) :
  same_rules cfg cfg' ->
  detect_client_for_work cfg project_name phase_data gitlab_data
  = detect_client_for_work cfg' project_name phase_data gitlab_data.
Proof.
  intros (Hp & Hd & Hk). unfold detect_client_for_work. rewrite <-Hp.
  apply detect_from_agree; [done|].
  intros k. specialize (Hk k).
  destruct (clients cfg !! k) as [c|], (clients cfg' !! k) as [c'|]; try done.
  by apply client_hit_same_patterns.
Qed.

Lemma detect_same_rules_witness :
  detect_client_for_work Example.store "ACME app redesign"
    (Some Example.tooling) None
  = detect_client_for_work Sample.store_shuffled "ACME app redesign"
      (Some Example.tooling) None.
Proof.
  apply (detect_same_rules Example.store Sample.store_shuffled).
  split_and!; [reflexivity|reflexivity|].
  intros k.
  change (clients Sample.store_shuffled)
    with (<["acme" := Sample.acme_shuffled]> (clients Example.store)).
  destruct (decide (k = "acme")) as [->|Hne].
  - rewrite lookup_insert_eq.
    assert (clients Example.store !! "acme" = Some Example.acme) as ->
      by (unfold Example.store; cbn [clients]; apply lookup_insert_eq).
    unfold same_patterns. simpl.
    split_and!; intros x; rewrite ?elem_of_cons, ?elem_of_nil; tauto.
  - rewrite lookup_insert_ne by done.
    destruct (clients Example.store !! k); [|done].
    unfold same_patterns. tauto.
Defined.

Lemma existsb_map {A B} (f : B -> bool) (g : A -> B) (l : list A) :
  existsb f (map g l) = existsb (fun x => f (g x)) l.
Proof. induction l as [|x l IH]; simpl; [done|]. by rewrite IH. Qed.

Lemma gitlab_hit_map (d : Detection) (g : GitlabActivity) :
  gitlab_hit d g
  = existsb (fun p => bool_decide (p ∈ map PyStr.lower (projects d)))
      (map PyStr.lower (projectsWorkedOn g)).
Proof. unfold gitlab_hit. symmetry. apply existsb_map. Qed.

Lemma client_hit_same_reading (d : Detection) (project_name project_name' : string)
    (phase phase' : Phase) (gitlab gitlab' : option GitlabActivity) :
  PyStr.lower project_name = PyStr.lower project_name' ->
  same_reading phase phase' ->
  (map PyStr.lower ∘ projectsWorkedOn) <$> gitlab
  = (map PyStr.lower ∘ projectsWorkedOn) <$> gitlab' ->
  client_hit d project_name (Some phase) gitlab
  = client_hit d project_name' (Some phase') gitlab'.
Proof.
  intros Hp (Hdesc & Hticket & Htags) Hg. unfold client_hit.
  f_equal; [f_equal|].
  - unfold project_hit. by rewrite Hp.
  - unfold folder_hit, ticket_hit, tag_hit. by rewrite Hdesc, Hticket, Htags.
  - destruct gitlab as [g|], gitlab' as [g'|]; try done.
    injection Hg as Hg. simpl in Hg. by rewrite !gitlab_hit_map, Hg.
Qed.

(** X4: the classifier reads the project name, the description and the
    day-level project names up to letter case only, and of a phase it
    reads nothing but the description, the ticket reference and the tags:
    inputs that agree on these are classified alike, whatever the title,
    the times, the category, the duration, the project name stored in the
    phase or a clientId written before. *)
Theorem detect_reads_lowercase (cfg : Config) (project_name project_name' : string)
    (phase phase' : Phase) (gitlab gitlab' : option GitlabActivity) :
  PyStr.lower project_name = PyStr.lower project_name' ->
  same_reading phase phase' ->
  (map PyStr.lower ∘ projectsWorkedOn) <$> gitlab
  = (map PyStr.lower ∘ projectsWorkedOn) <$> gitlab' ->
  detect_client_for_work cfg project_name (Some phase) gitlab
  = detect_client_for_work cfg project_name' (Some phase') gitlab'.
Proof.
  intros Hp Hr Hg. unfold detect_client_for_work.
  apply detect_from_agree; [done|].
  intros k. destruct (clients cfg !! k) as [c|]; [|done].
  by apply client_hit_same_reading.
Qed.

Lemma detect_reads_lowercase_witness :
  detect_client_for_work Example.store "BETA PORTAL"
    (Some (Sample.review "Pairing in ACME-Corp/checkout"))
    (Some {| projectsWorkedOn := ["Acme App"] |})
  = detect_client_for_work Example.store "beta portal"
      (Some Sample.review_again) (Some Example.commits).
Proof.
  apply (detect_reads_lowercase Example.store).
  - reflexivity.
  - split_and!; reflexivity.
  - reflexivity.
Defined.

Lemma contains_empty (haystack : string) : PyStr.contains "" haystack = true.
Proof. by destruct haystack. Qed.

Lemma existsb_elem {A} (f : A -> bool) (l : list A) (x : A) :
  x ∈ l -> f x = true -> existsb f l = true.
Proof. intros Hx Hf. apply existsb_exists. exists x. by rewrite <-list_elem_of_In. Qed.

(** X5: an empty pattern makes a rule catch everything.  When the first
    id of the priority order is a defined client, other than "personal",
    with the empty string among its project names, its folder patterns or
    its ticket prefixes, every phase is attributed to it, whatever it
    says. *)
Theorem empty_pattern_catches_all (cfg : Config) (k : string)
    (rest : list string) (c : Client) (project_name : string) (phase : Phase)
    (gitlab : option GitlabActivity) :
  detectionPriority cfg = k :: rest ->
  k <> "personal" ->
  clients cfg !! k = Some c ->
  "" ∈ projects (detection c) \/ "" ∈ folders (detection c)
  \/ "" ∈ ticketPrefixes (detection c) ->
  detect_client_for_work cfg project_name (Some phase) gitlab = Ok k.
Proof.
  intros Hp Hk Hc Hempty. unfold detect_client_for_work. rewrite Hp. simpl.
  rewrite decide_False, Hc by done.
  assert (client_hit (detection c) project_name (Some phase) gitlab = true) as ->;
    [|done].
  unfold client_hit. destruct Hempty as [H|[H|H]].
  - unfold project_hit. rewrite (existsb_elem _ _ "" H); [done|].
    apply contains_empty.
  - unfold folder_hit. rewrite (existsb_elem _ _ "" H); [|apply contains_empty].
    by rewrite orb_true_r.
  - unfold ticket_hit. rewrite (existsb_elem _ _ "" H).
    + by rewrite !orb_true_r.
    + unfold PyStr.startswith. by destruct (default "" (ticketReference phase)).
Qed.

Lemma empty_pattern_catches_all_witness :
  detect_client_for_work Sample.store_catch_all "Beta Portal"
    (Some Sample.review_again) None = Ok "any".
Proof.
  apply (empty_pattern_catches_all Sample.store_catch_all "any"
           ["acme"; "beta"; "personal"] Sample.catch_all).
  - reflexivity.
  - done.
  - apply lookup_insert_eq.
  - left. simpl. by left.
Defined.

(** ** What the update changes in a record *)

Lemma update_Ok_frame (cfg : Config) (data out : DailyRecord) :
  update_timesheet_with_multi_client cfg data = Ok out ->
  date out = date data
  /\ gitlabActivity out = gitlabActivity data
  /\ totalDurationMinutes (timeSummary out) = totalDurationMinutes (timeSummary data)
  /\ breakTimeMinutes (timeSummary out) = breakTimeMinutes (timeSummary data)
  /\ exists st h cs,
       process_phases (detect_client_for_work cfg) (gitlabActivity data)
         no_tracking (timelinePhases data) = Ok (st, timelinePhases out)
       /\ hours_loop no_hours (client_minutes st) = Ok h
       /\ summary_loop st (client_minutes st) [] = Ok cs
       /\ clientSummary out = Some cs
       /\ clientHours (timeSummary out)
          = match client_hours h with
            | [] => [("personal", side_project_hours h)]
            | ch => ch
            end
       /\ billableHours (timeSummary out) = total_billable h
       /\ sideProjectHours (timeSummary out) = side_project_hours h.
Proof.
  unfold update_timesheet_with_multi_client. intros H.
  apply bind_Ok in H as ([st phases] & H1 & H).
  apply bind_Ok in H as (h & H2 & H).
  apply bind_Ok in H as (cs & H3 & H).
  injection H as <-. simpl. split_and!; try done. by exists st, h, cs.
Qed.

Lemma outcome_fields
    (classify : string -> option Phase -> option GitlabActivity -> result string)
    (gitlab : option GitlabActivity) (p p' : Phase) :
  outcome classify gitlab p p' ->
  title p' = title p /\ startTime p' = startTime p /\ endTime p' = endTime p
  /\ durationMinutes p' = durationMinutes p /\ projectName p' = projectName p
  /\ description p' = description p /\ ticketReference p' = ticketReference p
  /\ tags p' = tags p.
Proof.
  unfold outcome. destruct (eligible p).
  - intros (c & _ & ->). unfold rewritten. by case_decide.
  - by intros ->.
Qed.

(** X6: the update rewrites two fields of the phases and nothing else of
    what it was given.  The output has the same date, day-level activity,
    total and break minutes, and as many phases in the same order, each
    with the title, times, duration, project name, description, ticket
    reference and tags it came with. *)
Theorem update_keeps_the_record (cfg : Config) (data out : DailyRecord) :
  update_timesheet_with_multi_client cfg data = Ok out ->
  date out = date data
  /\ gitlabActivity out = gitlabActivity data
  /\ totalDurationMinutes (timeSummary out) = totalDurationMinutes (timeSummary data)
  /\ breakTimeMinutes (timeSummary out) = breakTimeMinutes (timeSummary data)
  /\ Forall2
       (fun p p' =>
          title p' = title p /\ startTime p' = startTime p
          /\ endTime p' = endTime p /\ durationMinutes p' = durationMinutes p
          /\ projectName p' = projectName p /\ description p' = description p
          /\ ticketReference p' = ticketReference p /\ tags p' = tags p)
       (timelinePhases data) (timelinePhases out).
Proof.
  intros H.
  apply update_Ok_frame in H as (Hd & Hg & Ht & Hb & st & h & cs & H1 & _).
  split_and!; try done.
  apply process_phases_Ok in H1 as (_ & Hall & _); [|apply tracking_ok_empty].
  eapply Forall2_impl; [exact Hall|]. intros p p'. apply outcome_fields.
Qed.

Lemma update_keeps_the_record_witness :
  exists out,
    update_timesheet_with_multi_client Example.store
      (Example.day (Some Example.commits) Example.mixed_day) = Ok out
    /\ date out = "2025-06-02"
    /\ gitlabActivity out = Some Example.commits
    /\ totalDurationMinutes (timeSummary out) = 480
    /\ breakTimeMinutes (timeSummary out) = 45
    /\ Forall2
         (fun p p' =>
            title p' = title p /\ startTime p' = startTime p
            /\ endTime p' = endTime p /\ durationMinutes p' = durationMinutes p
            /\ projectName p' = projectName p /\ description p' = description p
            /\ ticketReference p' = ticketReference p /\ tags p' = tags p)
         Example.mixed_day (timelinePhases out).
Proof.
  eexists. split.
  - vm_compute. reflexivity.
  - apply (update_keeps_the_record Example.store
             (Example.day (Some Example.commits) Example.mixed_day)).
    vm_compute. reflexivity.
Defined.

(** X7: every phase that comes in as client_work or meeting goes out with
    the clientId the classifier returns for it and with the category
    side_project, when that id is "personal", or client_work; every other
    phase goes out as it came.  No phase of the output is a meeting. *)
Theorem update_leaves_no_meeting (cfg : Config) (data out : DailyRecord) :
  update_timesheet_with_multi_client cfg data = Ok out ->
  Forall2
    (fun p p' =>
       if bool_decide (category p = "client_work" \/ category p = "meeting") then
         exists c,
           detect_client_for_work cfg (default "" (projectName p)) (Some p)
             (gitlabActivity data) = Ok c
           /\ clientId p' = Some c
           /\ category p' = (if decide (c = "personal") then "side_project"
                             else "client_work")
       else p' = p)
    (timelinePhases data) (timelinePhases out)
  /\ Forall (fun p' => category p' <> "meeting") (timelinePhases out).
Proof.
  intros H.
  apply update_Ok_frame in H as (_ & _ & _ & _ & st & h & cs & H1 & _).
  apply process_phases_Ok in H1 as (_ & Hall & _); [|apply tracking_ok_empty].
  assert (forall p, eligible p
                    = bool_decide (category p = "client_work"
                                   \/ category p = "meeting")) as Hel.
  { intros p. unfold eligible. apply bool_decide_ext.
    rewrite !elem_of_cons, elem_of_nil. tauto. }
  split.
  - eapply Forall2_impl; [exact Hall|]. intros p p'. unfold outcome.
    rewrite Hel. case_bool_decide; [|done].
    intros (c & Hc & ->). exists c. split; [done|].
    unfold rewritten. by case_decide.
  - apply Forall_forall. intros p' Hp'.
    apply list_elem_of_lookup in Hp' as [i Hi].
    destruct (Forall2_lookup_r _ _ _ _ _ Hall Hi) as (p & Hp & Hout).
    unfold outcome in Hout. rewrite Hel in Hout.
    case_bool_decide as Hc.
    + destruct Hout as (c & _ & ->). unfold rewritten. by case_decide.
    + subst p'. tauto.
Qed.

Lemma update_leaves_no_meeting_witness :
  exists out,
    update_timesheet_with_multi_client Example.store
      (Example.day None Example.mixed_day) = Ok out
    /\ Forall (fun p' => category p' <> "meeting") (timelinePhases out).
Proof.
  eexists. split.
  - vm_compute. reflexivity.
  - apply (update_leaves_no_meeting Example.store
             (Example.day None Example.mixed_day)).
    vm_compute. reflexivity.
Defined.

(** ** What the tracking holds *)

Lemma get_credited (d : PyDict.t Z) (k c : string) (minutes : Z) :
  PyDict.get k (credited c minutes d)
  = if decide (k = c) then Some (default 0 (PyDict.get c d) + minutes)
    else PyDict.get k d.
Proof.
  unfold credited. case_decide as Hk.
  - subst. apply get_set_eq.
  - apply get_set_ne. congruence.
Qed.

Lemma mem_credited (d : PyDict.t Z) (k c : string) (minutes : Z) :
  PyDict.mem k (credited c minutes d) = bool_decide (k = c) || PyDict.mem k d.
Proof.
  unfold PyDict.mem. rewrite get_credited. case_decide.
  - by rewrite bool_decide_eq_true_2.
  - by rewrite bool_decide_eq_false_2.
Qed.

Lemma set_add_if_lookup (b : bool) (c x : string)
    (sets sets' : gmap string (gset string)) (k : string) :
  (if b then set_add c x sets else Ok sets) = Ok sets' ->
  sets' !! k
  = if decide (k = c)
    then (fun s => s ∪ (if b then {[x]} else ∅)) <$> sets !! c
    else sets !! k.
Proof.
  destruct b.
  - unfold set_add. destruct (sets !! c) as [s|] eqn:Hs; [|done].
    intros [= <-]. rewrite lookup_insert.
    case_decide; case_decide; subst; rewrite ?Hs; simpl; congruence.
  - intros [= <-]. case_decide; [|done]. subst.
    destruct (sets !! c); simpl; [|done]. by rewrite union_empty_r_L.
Qed.

Lemma track_client_projects (c k : string) (st : Tracking) :
  tracking_ok st ->
  client_projects (track_client c st) !! k
  = (if decide (k = c) then Some (default ∅ (client_projects st !! c))
     else client_projects st !! k)
  /\ client_tickets (track_client c st) !! k
     = (if decide (k = c) then Some (default ∅ (client_tickets st !! c))
        else client_tickets st !! k).
Proof.
  intros [_ Hp Ht]. unfold track_client, PyDict.mem.
  destruct (PyDict.get c (client_minutes st)) as [m|] eqn:Hget.
  - assert (c ∈ PyDict.keys (client_minutes st)) as Hin by (apply get_Some; eauto).
    destruct (proj2 (Hp c) Hin) as [sp Hsp], (proj2 (Ht c) Hin) as [stk Hst].
    split; case_decide; subst; by rewrite ?Hsp, ?Hst.
  - assert (c ∉ PyDict.keys (client_minutes st)) as Hnin by by apply get_None.
    assert (client_projects st !! c = None) as Hpn.
    { apply eq_None_not_Some. by rewrite Hp. }
    assert (client_tickets st !! c = None) as Htn.
    { apply eq_None_not_Some. by rewrite Ht. }
    simpl. rewrite !lookup_insert, Hpn, Htn.
    split; case_decide; case_decide; subst; simpl; congruence.
Qed.

(** What one attributed phase adds to the projects and tickets. *)
Lemma process_phase_sets
    (classify : string -> option Phase -> option GitlabActivity -> result string)
    (gitlab : option GitlabActivity) (st st' : Tracking) (phase phase' : Phase)
    (c : string) :
  tracking_ok st ->
  eligible phase = true ->
  classify (default "" (projectName phase)) (Some phase) gitlab = Ok c ->
  process_phase classify gitlab st phase = Ok (st', phase') ->
  forall k,
    client_projects st' !! k
    = (if decide (k = c)
       then Some (default ∅ (client_projects st !! c) ∪ project_set phase)
       else client_projects st !! k)
    /\ client_tickets st' !! k
       = (if decide (k = c)
          then Some (default ∅ (client_tickets st !! c) ∪ ticket_set phase)
          else client_tickets st !! k).
Proof.
  intros Hok Hel Hc H k. unfold process_phase in H. rewrite Hel, Hc in H.
  simpl in H.
  apply bind_Ok in H as (m & _ & H).
  apply bind_Ok in H as (cp & Hcp & H).
  apply bind_Ok in H as (ct & Hct & H).
  injection H as <- _. simpl.
  rewrite (set_add_if_lookup _ _ _ _ _ k Hcp), (set_add_if_lookup _ _ _ _ _ k Hct).
  destruct (track_client_projects c k st Hok) as [Hp Ht].
  destruct (track_client_projects c c st Hok) as [Hpc Htc].
  rewrite decide_True in Hpc, Htc by done.
  unfold project_set, ticket_set.
  case_decide; [|by rewrite Hp, Ht]. by rewrite Hpc, Htc.
Qed.

Lemma minutes_for_cons (k c : string) (phase : Phase) (att : list (string * Phase)) :
  minutes_for k ((c, phase) :: att)
  = (if decide (k = c) then durationMinutes phase else 0) + minutes_for k att.
Proof.
  unfold minutes_for, phases_of. simpl. case_decide as Hk.
  - by rewrite bool_decide_eq_true_2.
  - rewrite bool_decide_eq_false_2 by congruence. done.
Qed.

Lemma projects_for_cons (k c : string) (phase : Phase) (att : list (string * Phase)) :
  projects_for k ((c, phase) :: att)
  = (if decide (k = c) then project_set phase else ∅) ∪ projects_for k att.
Proof.
  unfold projects_for, phases_of. simpl. case_decide as Hk.
  - by rewrite bool_decide_eq_true_2.
  - rewrite bool_decide_eq_false_2 by congruence. by rewrite union_empty_l_L.
Qed.

Lemma tickets_for_cons (k c : string) (phase : Phase) (att : list (string * Phase)) :
  tickets_for k ((c, phase) :: att)
  = (if decide (k = c) then ticket_set phase else ∅) ∪ tickets_for k att.
Proof.
  unfold tickets_for, phases_of. simpl. case_decide as Hk.
  - by rewrite bool_decide_eq_true_2.
  - rewrite bool_decide_eq_false_2 by congruence. by rewrite union_empty_l_L.
Qed.

Lemma touched_cons (k c : string) (phase : Phase) (att : list (string * Phase)) :
  touched k ((c, phase) :: att) = bool_decide (k = c) || touched k att.
Proof.
  unfold touched. simpl. apply Bool.eq_true_iff_eq.
  rewrite orb_true_iff, !bool_decide_eq_true, elem_of_cons. tauto.
Qed.

Lemma attributed_cons_eligible
    (classify : string -> option Phase -> option GitlabActivity -> result string)
    (gitlab : option GitlabActivity) (phase : Phase) (rest : list Phase)
    (c : string) :
  eligible phase = true ->
  classify (default "" (projectName phase)) (Some phase) gitlab = Ok c ->
  attributed classify gitlab (phase :: rest)
  = (c, phase) :: attributed classify gitlab rest.
Proof. intros Hel Hc. unfold attributed. simpl. by rewrite Hel, Hc. Qed.

Lemma attributed_cons_ineligible
    (classify : string -> option Phase -> option GitlabActivity -> result string)
    (gitlab : option GitlabActivity) (phase : Phase) (rest : list Phase) :
  eligible phase = false ->
  attributed classify gitlab (phase :: rest) = attributed classify gitlab rest.
Proof. intros Hel. unfold attributed. simpl. by rewrite Hel. Qed.

(** After the loop, a client that was tracked before or has a phase
    attributed to it holds its earlier minutes plus those of its phases,
    and its earlier projects and tickets plus those of its phases; no
    other client is tracked. *)
Lemma process_phases_tracking
    (classify : string -> option Phase -> option GitlabActivity -> result string)
    (gitlab : option GitlabActivity) (phases : list Phase) :
  forall st st' phases',
  tracking_ok st ->
  process_phases classify gitlab st phases = Ok (st', phases') ->
  forall k,
    PyDict.get k (client_minutes st')
    = (if PyDict.mem k (client_minutes st)
          || touched k (attributed classify gitlab phases)
       then Some (default 0 (PyDict.get k (client_minutes st))
                  + minutes_for k (attributed classify gitlab phases))
       else None)
    /\ client_projects st' !! k
       = (if PyDict.mem k (client_minutes st)
             || touched k (attributed classify gitlab phases)
          then Some (default ∅ (client_projects st !! k)
                     ∪ projects_for k (attributed classify gitlab phases))
          else None)
    /\ client_tickets st' !! k
       = (if PyDict.mem k (client_minutes st)
             || touched k (attributed classify gitlab phases)
          then Some (default ∅ (client_tickets st !! k)
                     ∪ tickets_for k (attributed classify gitlab phases))
          else None).
Proof.
  induction phases as [|phase rest IH]; intros st st' phases' Hok H k.
  - injection H as <- <-. unfold attributed, touched, minutes_for, projects_for,
      tickets_for, phases_of. simpl.
    rewrite orb_false_r, !union_empty_r_L.
    destruct Hok as [_ Hp Ht]. specialize (Hp k). specialize (Ht k).
    rewrite <-mem_keys in Hp, Ht. unfold PyDict.mem in *.
    destruct (PyDict.get k (client_minutes st)) as [m|]; simpl.
    + destruct (proj2 Hp eq_refl) as [sp ->], (proj2 Ht eq_refl) as [stk ->].
      split_and!; [f_equal; lia|done|done].
    + split_and!; [done| |]; apply eq_None_not_Some; intros Hs.
      * by apply Hp in Hs.
      * by apply Ht in Hs.
  - apply process_phases_cons_Ok in H as (st1 & phase' & rest' & H1 & H2 & ->).
    pose proof H1 as H1'.
    apply (process_phase_Ok _ _ _ _ _ _ Hok) in H1
      as [(Hel & -> & ->)|(Hel & c & Hc & -> & Hok1 & Hcm)].
    + rewrite attributed_cons_ineligible by done. by apply (IH st st' rest').
    + rewrite (attributed_cons_eligible _ _ _ _ c) by done.
      destruct (IH st1 st' rest' Hok1 H2 k) as (Hm & Hp & Ht).
      destruct (process_phase_sets _ _ _ _ _ _ c Hok Hel Hc H1' k) as [Hp1 Ht1].
      rewrite Hm, Hp, Ht, Hp1, Ht1, Hcm.
      rewrite mem_credited, get_credited, minutes_for_cons, projects_for_cons,
        tickets_for_cons, touched_cons.
      destruct (decide (k = c)) as [->|Hne].
      * rewrite bool_decide_eq_true_2 by done. simpl.
        rewrite orb_true_r, !(assoc_L (∪)).
        split_and!; [f_equal; lia|done|done].
      * rewrite bool_decide_eq_false_2 by done. simpl.
        destruct (PyDict.mem k (client_minutes st)
                  || touched k (attributed classify gitlab rest)); [|done].
        rewrite !union_empty_l_L. split_and!; [f_equal; lia|done|done].
Qed.

Lemma keys_credited (d : PyDict.t Z) (c : string) (minutes : Z) :
  PyDict.keys (credited c minutes d)
  = if bool_decide (c ∈ PyDict.keys d) then PyDict.keys d
    else (PyDict.keys d ++ [c])%list.
Proof.
  unfold credited. case_bool_decide.
  - by apply keys_set_old.
  - by apply keys_set_new.
Qed.

(** The keys of the minutes are the clients in order of first appearance. *)
Lemma process_phases_keys
    (classify : string -> option Phase -> option GitlabActivity -> result string)
    (gitlab : option GitlabActivity) (phases : list Phase) :
  forall st st' phases',
  tracking_ok st ->
  process_phases classify gitlab st phases = Ok (st', phases') ->
  PyDict.keys (client_minutes st')
  = first_seen_from (PyDict.keys (client_minutes st))
      (map fst (attributed classify gitlab phases)).
Proof.
  induction phases as [|phase rest IH]; intros st st' phases' Hok H.
  - by injection H as <- <-.
  - apply process_phases_cons_Ok in H as (st1 & phase' & rest' & H1 & H2 & ->).
    apply (process_phase_Ok _ _ _ _ _ _ Hok) in H1
      as [(Hel & -> & ->)|(Hel & c & Hc & -> & Hok1 & Hcm)].
    + rewrite attributed_cons_ineligible by done. by apply (IH st st' rest').
    + rewrite (attributed_cons_eligible _ _ _ _ c) by done.
      rewrite (IH st1 st' rest' Hok1 H2), Hcm, keys_credited. done.
Qed.

Lemma dict_by_keys {V} (d : PyDict.t V) (f : string -> V) :
  NoDup (PyDict.keys d) ->
  (forall k, k ∈ PyDict.keys d -> PyDict.get k d = Some (f k)) ->
  d = map (fun k => (k, f k)) (PyDict.keys d).
Proof.
  induction d as [|[k v] d IH]; simpl; intros Hnd Hget; [done|].
  apply NoDup_cons in Hnd as [Hk Hnd].
  pose proof (Hget k (list_elem_of_here _ _)) as Hkv. simpl in Hkv.
  rewrite decide_True in Hkv by done. injection Hkv as ->.
  f_equal. apply IH; [done|].
  intros k' Hk'. specialize (Hget k' (list_elem_of_further _ _ _ Hk')).
  simpl in Hget. rewrite decide_False in Hget by (by intros ->). done.
Qed.

Lemma set_new {V} (d : PyDict.t V) (k : string) (v : V) :
  k ∉ PyDict.keys d -> PyDict.set k v d = (d ++ [(k, v)])%list.
Proof.
  induction d as [|[k' v'] d IH]; simpl; [done|].
  intros H. apply not_elem_of_cons in H as [Hne Hnin].
  rewrite decide_False by done. by rewrite IH.
Qed.

(** The minutes of a completed loop, client by client. *)
Lemma process_phases_minutes
    (classify : string -> option Phase -> option GitlabActivity -> result string)
    (gitlab : option GitlabActivity) (phases phases' : list Phase) (st : Tracking) :
  process_phases classify gitlab no_tracking phases = Ok (st, phases') ->
  client_minutes st
  = map (fun k => (k, minutes_for k (attributed classify gitlab phases)))
      (clients_seen (attributed classify gitlab phases)).
Proof.
  intros H.
  pose proof (process_phases_keys _ _ _ _ _ _ tracking_ok_empty H) as Hkeys.
  pose proof (process_phases_tracking _ _ _ _ _ _ tracking_ok_empty H) as Htr.
  apply process_phases_Ok in H as ([Hnd _ _] & _); [|apply tracking_ok_empty].
  simpl in Hkeys. unfold clients_seen, first_seen. rewrite <-Hkeys.
  apply dict_by_keys; [done|].
  intros k Hk. destruct (Htr k) as [Hm _]. simpl in Hm.
  apply get_Some in Hk as [m Hget]. rewrite Hget in Hm.
  destruct (touched k _); [|done]. rewrite Hget. by injection Hm as ->.
Qed.

(** ** The client summary and the hours per client *)

Lemma filter_map_bool {A B} (f : B -> bool) (g : A -> B) (l : list A) :
  List.filter f (map g l) = map g (List.filter (fun x => f (g x)) l).
Proof.
  induction l as [|x l IH]; simpl; [done|].
  destruct (f (g x)); simpl; by rewrite IH.
Qed.

Lemma Forall2_map_left {A B C} (P : B -> C -> Prop) (g : A -> B)
    (l : list A) (k : list C) :
  Forall2 P (map g l) k <-> Forall2 (fun x => P (g x)) l k.
Proof.
  revert k. induction l as [|x l IH]; intros k; simpl.
  - split; intros H; inversion H; constructor.
  - split; intros H; inversion H; subst; constructor; try done; by apply IH.
Qed.

Lemma phases_of_untouched (k : string) (att : list (string * Phase)) :
  touched k att = false -> phases_of k att = [].
Proof.
  unfold touched, phases_of. intros H. apply bool_decide_eq_false in H.
  induction att as [|[c p] att IH]; simpl; [done|].
  simpl in H. apply not_elem_of_cons in H as [Hne Hnin].
  rewrite bool_decide_eq_false_2 by congruence. by apply IH.
Qed.

Lemma summary_loop_cons (st : Tracking) (k : string) (m : Z)
    (rest : list (string * Z)) (acc cs : PyDict.t ClientSummary) :
  summary_loop st ((k, m) :: rest) acc = Ok cs ->
  if listed (k, m) then
    exists x,
      hours_of m = Ok x
      /\ summary_loop st rest
           (PyDict.set k
              {| hours := x;
                 summary_projects := default ∅ (client_projects st !! k);
                 summary_tickets := default ∅ (client_tickets st !! k) |} acc)
         = Ok cs
  else summary_loop st rest acc = Ok cs.
Proof.
  simpl. unfold listed. simpl. destruct (_ || _); [|done].
  intros H. by apply bind_Ok in H.
Qed.

(** The summary gets one entry per listed client, after the entries it
    has, in the order of the minutes. *)
Lemma summary_loop_Ok (st : Tracking) (items : list (string * Z)) :
  forall acc cs,
  NoDup (PyDict.keys acc ++ map fst items)%list ->
  summary_loop st items acc = Ok cs ->
  exists entries,
    cs = (acc ++ entries)%list
    /\ Forall2
         (fun kv e =>
            e.1 = kv.1
            /\ hours_of kv.2 = Ok (hours e.2)
            /\ summary_projects e.2 = default ∅ (client_projects st !! kv.1)
            /\ summary_tickets e.2 = default ∅ (client_tickets st !! kv.1))
         (List.filter listed items) entries.
Proof.
  induction items as [|[k m] rest IH]; intros acc cs Hnd H.
  - injection H as <-. exists []. split; [by rewrite app_nil_r|constructor].
  - apply summary_loop_cons in H. simpl.
    assert (k ∉ PyDict.keys acc) as Hk.
    { intros Hin. apply NoDup_app in Hnd as (_ & Hd & _).
      apply (Hd k Hin). by left. }
    assert (NoDup (PyDict.keys acc ++ map fst rest)%list) as Hnd'.
    { simpl in Hnd. apply NoDup_app in Hnd as (H1 & H3 & H4).
      apply NoDup_cons in H4 as [_ H4].
      apply NoDup_app. split; [done|]. split; [|done].
      intros y Hy Hr. apply (H3 y Hy). by right. }
    destruct (listed (k, m)).
    + destruct H as (x & Hx & H). rewrite set_new in H by done.
      apply IH in H as (entries & -> & Hall).
      * eexists. split; [by rewrite <-app_assoc|].
        constructor; [|done]. by simpl.
      * unfold PyDict.keys. rewrite map_app. simpl. rewrite <-app_assoc. exact Hnd.
    + by apply IH.
Qed.

(** X8: the client summary of the output has one entry for every client
    to which a phase is attributed, "personal" only when its minutes are
    positive, in the order of the clients' first phases.  The entry of a
    client holds, as hours, the minutes of the phases attributed to it
    divided by sixty and rounded, as projects their non-empty project
    names and as tickets their non-empty ticket references. *)
Theorem client_summary_entries (cfg : Config) (data out : DailyRecord)
    (att : list (string * Phase)) :
  att = attributed (detect_client_for_work cfg) (gitlabActivity data)
          (timelinePhases data) ->
  update_timesheet_with_multi_client cfg data = Ok out ->
  exists cs,
    clientSummary out = Some cs
    /\ Forall2 (summary_of att)
         (List.filter (fun k => listed (k, minutes_for k att)) (clients_seen att))
         cs.
Proof.
  intros -> H.
  apply update_Ok_frame in H
    as (_ & _ & _ & _ & st & h & cs & H1 & _ & H3 & Hcs & _).
  exists cs. split; [done|].
  pose proof (process_phases_minutes _ _ _ _ _ H1) as Hcm.
  pose proof (process_phases_tracking _ _ _ _ _ _ tracking_ok_empty H1) as Htr.
  pose proof H1 as Hok.
  apply process_phases_Ok in Hok as ([Hnd _ _] & _); [|apply tracking_ok_empty].
  destruct (summary_loop_Ok st (client_minutes st) [] cs Hnd H3)
    as (entries & -> & Hall).
  simpl. rewrite Hcm, filter_map_bool in Hall.
  apply Forall2_map_left in Hall.
  eapply Forall2_impl; [exact Hall|].
  intros k e (He & Hh & Hp & Ht). simpl in *.
  destruct (Htr k) as (_ & Hpk & Htk). simpl in Hpk, Htk.
  rewrite lookup_empty in Hpk, Htk. simpl in Hpk, Htk.
  unfold summary_of. split_and!; [done|done| |].
  - rewrite Hp, Hpk. destruct (touched k _) eqn:Hto; simpl.
    + by rewrite union_empty_l_L.
    + unfold projects_for. by rewrite phases_of_untouched.
  - rewrite Ht, Htk. destruct (touched k _) eqn:Hto; simpl.
    + by rewrite union_empty_l_L.
    + unfold tickets_for. by rewrite phases_of_untouched.
Qed.

Lemma client_summary_entries_witness :
  exists out,
    update_timesheet_with_multi_client Example.store
      (Example.day None Example.mixed_day) = Ok out
    /\ exists cs,
         clientSummary out = Some cs
         /\ Forall2
              (summary_of
                 (attributed (detect_client_for_work Example.store) None
                    Example.mixed_day))
              (List.filter
                 (fun k =>
                    listed
                      (k, minutes_for k
                            (attributed (detect_client_for_work Example.store)
                               None Example.mixed_day)))
                 (clients_seen
                    (attributed (detect_client_for_work Example.store) None
                       Example.mixed_day)))
              cs.
Proof.
  eexists. split.
  - vm_compute. reflexivity.
  - apply (client_summary_entries Example.store
             (Example.day None Example.mixed_day)).
    + reflexivity.
    + vm_compute. reflexivity.
Defined.

Lemma hours_loop_entries (items : list (string * Z)) :
  forall acc h,
  NoDup (PyDict.keys (client_hours acc) ++ map fst items)%list ->
  hours_loop acc items = Ok h ->
  exists entries,
    client_hours h = (client_hours acc ++ entries)%list
    /\ Forall2 (fun kv e => e.1 = kv.1 /\ hours_of kv.2 = Ok e.2)
         (List.filter (fun kv => billed kv.1) items) entries
    /\ total_billable h
       = fold_left PyFloat.add (map snd entries) (total_billable acc).
Proof.
  induction items as [|[k m] rest IH]; intros acc h Hnd H.
  - injection H as <-. exists []. split_and!; [by rewrite app_nil_r|constructor|done].
  - apply hours_loop_cons_Ok in H as (acc1 & H1 & H2).
    apply hours_step_Ok in H1 as (x & Hx & ->).
    assert (k ∉ PyDict.keys (client_hours acc)) as Hk.
    { intros Hin. apply NoDup_app in Hnd as (_ & Hd & _).
      apply (Hd k Hin). by left. }
    assert (NoDup (PyDict.keys (client_hours acc) ++ map fst rest)%list) as Hnd'.
    { simpl in Hnd. apply NoDup_app in Hnd as (H1 & H3 & H4).
      apply NoDup_cons in H4 as [_ H4].
      apply NoDup_app. split; [done|]. split; [|done].
      intros y Hy Hr. apply (H3 y Hy). by right. }
    simpl. unfold billed at 1. case_decide as Hp.
    + rewrite bool_decide_eq_true_2 by done. simpl.
      apply IH in H2 as (entries & Hch & Hall & Htot); [|exact Hnd'].
      by exists entries.
    + rewrite bool_decide_eq_false_2 by done. simpl.
      apply IH in H2 as (entries & Hch & Hall & Htot); simpl in *.
      * rewrite set_new in Hch by done. exists ((k, x) :: entries).
        split_and!; [by rewrite Hch, <-app_assoc|by constructor|done].
      * rewrite set_new by done. unfold PyDict.keys. rewrite map_app. simpl.
        rewrite <-app_assoc. exact Hnd.
Qed.

(** X9: clientHours lists the clients other than "personal" to which a
    phase is attributed, in the order of their first phases, each with
    its minutes divided by sixty and rounded, and billableHours is the
    sum of these values, added from left to right.  The hours of
    "personal" are not in clientHours, unless no other client has a phase:
    clientHours is then the single entry of "personal" with the side
    project hours. *)
Theorem client_hours_entries (cfg : Config) (data out : DailyRecord)
    (att : list (string * Phase)) :
  att = attributed (detect_client_for_work cfg) (gitlabActivity data)
          (timelinePhases data) ->
  update_timesheet_with_multi_client cfg data = Ok out ->
  exists entries,
    Forall2 (fun k e => e.1 = k /\ hours_of (minutes_for k att) = Ok e.2)
      (List.filter billed (clients_seen att)) entries
    /\ billableHours (timeSummary out) = float_sum (map snd entries)
    /\ clientHours (timeSummary out)
       = match entries with
         | [] => [("personal", sideProjectHours (timeSummary out))]
         | _ => entries
         end.
Proof.
  intros -> H.
  apply update_Ok_frame in H
    as (_ & _ & _ & _ & st & h & cs & H1 & H2 & _ & _ & Hch & Hb & Hs).
  pose proof (process_phases_minutes _ _ _ _ _ H1) as Hcm.
  pose proof H1 as Hok.
  apply process_phases_Ok in Hok as ([Hnd _ _] & _); [|apply tracking_ok_empty].
  destruct (hours_loop_entries (client_minutes st) no_hours h Hnd H2)
    as (entries & He & Hall & Htot).
  simpl in He. exists entries. split_and!.
  - rewrite Hcm, filter_map_bool in Hall. by apply Forall2_map_left in Hall.
  - rewrite Hb, Htot. reflexivity.
  - rewrite Hch, Hs, He. by destruct entries.
Qed.

Lemma client_hours_entries_witness :
  exists out,
    update_timesheet_with_multi_client Example.store
      (Example.day None Example.split_day) = Ok out
    /\ exists entries,
         Forall2
           (fun k e =>
              e.1 = k
              /\ hours_of
                   (minutes_for k
                      (attributed (detect_client_for_work Example.store) None
                         Example.split_day)) = Ok e.2)
           (List.filter billed
              (clients_seen
                 (attributed (detect_client_for_work Example.store) None
                    Example.split_day)))
           entries
         /\ billableHours (timeSummary out) = float_sum (map snd entries)
         /\ clientHours (timeSummary out)
            = match entries with
              | [] => [("personal", sideProjectHours (timeSummary out))]
              | _ => entries
              end.
Proof.
  eexists. split.
  - vm_compute. reflexivity.
  - apply (client_hours_entries Example.store
             (Example.day None Example.split_day)).
    + reflexivity.
    + vm_compute. reflexivity.
Defined.

(** ** When the update completes *)

Lemma process_phases_nonneg
    (classify : string -> option Phase -> option GitlabActivity -> result string)
    (gitlab : option GitlabActivity) (phases : list Phase) :
  Forall (fun phase => eligible phase = true -> 0 <= durationMinutes phase) phases ->
  forall st st' phases',
  tracking_ok st ->
  Forall (fun kv => 0 <= kv.2) (client_minutes st) ->
  process_phases classify gitlab st phases = Ok (st', phases') ->
  Forall (fun kv => 0 <= kv.2) (client_minutes st').
Proof.
  induction 1 as [|phase rest Hpos _ IH]; intros st st' phases' Hok Hst H.
  - by injection H as <- <-.
  - apply process_phases_cons_Ok in H as (st1 & phase' & rest' & H1 & H2 & ->).
    apply (process_phase_Ok _ _ _ _ _ _ Hok) in H1
      as [(Hel & -> & ->)|(Hel & c & Hc & -> & Hok1 & Hcm)].
    + by apply (IH st st' rest' Hok Hst H2).
    + apply (IH st1 st' rest' Hok1); [|done]. rewrite Hcm. unfold credited.
      apply (Forall_set (fun v => 0 <= v)); [done|].
      specialize (Hpos Hel).
      destruct (PyDict.get c (client_minutes st)) as [m|] eqn:Hget; simpl; [|lia].
      pose proof (get_Forall (fun v => 0 <= v) _ _ _ Hst Hget). simpl in *. lia.
Qed.

Lemma nonneg_below_total (d : PyDict.t Z) :
  Forall (fun kv => 0 <= kv.2) d ->
  0 <= total d /\ Forall (fun kv => 0 <= kv.2 <= total d) d.
Proof.
  unfold total. induction 1 as [|[k m] d Hm _ [Ht IH]]; simpl in *.
  - split; [lia|constructor].
  - split; [lia|]. constructor; [simpl; lia|].
    eapply Forall_impl; [exact IH|]. simpl. intros kv. lia.
Qed.

Lemma hours_loop_total (items : list (string * Z)) :
  Forall (fun kv => is_Ok (hours_of kv.2)) items ->
  forall acc, exists h, hours_loop acc items = Ok h.
Proof.
  induction 1 as [|[k m] rest [x Hx] _ IH]; intros acc; simpl.
  - by exists acc.
  - simpl in Hx. rewrite Hx. simpl. case_decide; simpl; apply IH.
Qed.

Lemma summary_loop_total (st : Tracking) (items : list (string * Z)) :
  Forall (fun kv => is_Ok (hours_of kv.2)) items ->
  forall acc, exists cs, summary_loop st items acc = Ok cs.
Proof.
  induction 1 as [|[k m] rest [x Hx] _ IH]; intros acc; simpl.
  - by exists acc.
  - simpl in Hx. rewrite Hx. simpl. destruct (_ || _); apply IH.
Qed.

Lemma update_total (cfg : Config) (data : DailyRecord) (st : Tracking)
    (phases : list Phase) :
  process_phases (detect_client_for_work cfg) (gitlabActivity data) no_tracking
    (timelinePhases data) = Ok (st, phases) ->
  Forall (fun kv => is_Ok (hours_of kv.2)) (client_minutes st) ->
  exists out, update_timesheet_with_multi_client cfg data = Ok out.
Proof.
  intros H1 Hall. unfold update_timesheet_with_multi_client. rewrite H1. simpl.
  destruct (hours_loop_total _ Hall no_hours) as [h ->]. simpl.
  destruct (summary_loop_total st _ Hall []) as [cs ->]. simpl. eauto.
Qed.

Lemma update_runs (cfg : Config) (data : DailyRecord) :
  priority_defined cfg (detectionPriority cfg) ->
  is_Some (defaultClient (settings cfg)) ->
  Forall (fun phase => eligible phase = true -> 0 <= durationMinutes phase)
    (timelinePhases data) ->
  classified_minutes (timelinePhases data) <= 1440 ->
  exists out, update_timesheet_with_multi_client cfg data = Ok out.
Proof.
  intros Hdef [d Hd] Hpos Hday.
  destruct (process_phases_total (detect_client_for_work cfg)
              (gitlabActivity data) (timelinePhases data) no_tracking
              tracking_ok_empty) as (st & phases & H1).
  { apply Forall_forall. intros phase _ _.
    destruct (detect_from_total cfg (default "" (projectName phase))
                (Some phase) (gitlabActivity data) (detectionPriority cfg) d
                Hdef Hd) as (c & Hc & _).
    by exists c. }
  apply (update_total cfg data st phases H1).
  pose proof (process_phases_nonneg _ _ _ Hpos no_tracking st phases
                tracking_ok_empty (Forall_nil_2 _) H1) as Hnn.
  apply nonneg_below_total in Hnn as [_ Hnn].
  apply process_phases_Ok in H1 as (_ & _ & Htot & _); [|apply tracking_ok_empty].
  unfold total in Htot at 2. simpl in Htot.
  eapply Forall_impl; [exact Hnn|]. intros [k m] Hm. simpl in *.
  destruct (hours_of_nearest_tenth m) as (t & Ht & _); [lia|].
  by exists (PyFloat.of_tenths t).
Qed.

(** X10: the update of a day completes, without KeyError and without
    OverflowError, when every id of the priority order is a defined
    client, a default client is configured, no classified phase has a
    negative duration and the classified phases last at most the 1440
    minutes of a day together. *)
Theorem update_completes (cfg : Config) (data : DailyRecord) :
  priority_defined cfg (detectionPriority cfg) ->
  is_Some (defaultClient (settings cfg)) ->
  Forall (fun phase => eligible phase = true -> 0 <= durationMinutes phase)
    (timelinePhases data) ->
  classified_minutes (timelinePhases data) <= 1440 ->
  exists out, update_timesheet_with_multi_client cfg data = Ok out.
Proof. apply update_runs. Qed.

Lemma update_completes_witness :
  exists out,
    update_timesheet_with_multi_client Example.store
      (Example.day (Some Example.commits) Example.mixed_day) = Ok out.
Proof.
  apply (update_completes Example.store
           (Example.day (Some Example.commits) Example.mixed_day)).
  - apply (bool_decide_unpack _). vm_compute. exact I.
  - by eexists.
  - repeat constructor; simpl; intros _; lia.
  - vm_compute. discriminate.
Defined.

(** ** Running the update again *)

Lemma get_billed_entries {V} (d : PyDict.t V) (c : string) :
  billed c = true -> PyDict.get c (billed_entries d) = PyDict.get c d.
Proof.
  intros Hc. unfold billed_entries.
  induction d as [|[k v] d IH]; simpl; [done|].
  destruct (billed k) eqn:Hk; simpl.
  - by rewrite IH.
  - rewrite decide_False by congruence. exact IH.
Qed.

Lemma billed_entries_set {V} (d : PyDict.t V) (c : string) (v : V) :
  billed_entries (PyDict.set c v d)
  = if billed c then PyDict.set c v (billed_entries d) else billed_entries d.
Proof.
  unfold billed_entries. induction d as [|[k w] d IH]; simpl.
  - by destruct (billed c).
  - case_decide as Hk; simpl.
    + subst k. destruct (billed c); simpl; [|done]. by rewrite decide_True.
    + rewrite IH. destruct (billed k) eqn:Hbk, (billed c) eqn:Hbc; simpl; try done.
      by rewrite decide_False.
Qed.

Lemma billed_entries_credited (d : PyDict.t Z) (c : string) (minutes : Z) :
  billed_entries (credited c minutes d)
  = if billed c then credited c minutes (billed_entries d) else billed_entries d.
Proof.
  unfold credited. rewrite billed_entries_set.
  destruct (billed c) eqn:Hc; [|done]. by rewrite get_billed_entries.
Qed.

(** The second loop sees the phases of the clients that are billed, and
    those only. *)
Lemma process_phases_again_minutes (cfg : Config)
    (gitlab : option GitlabActivity) (phases phases' : list Phase) :
  Forall2 (outcome (detect_client_for_work cfg) gitlab) phases phases' ->
  forall st1 st1' st2 st2' out1 out2,
  tracking_ok st1 -> tracking_ok st2 ->
  client_minutes st2 = billed_entries (client_minutes st1) ->
  process_phases (detect_client_for_work cfg) gitlab st1 phases = Ok (st1', out1) ->
  process_phases (detect_client_for_work cfg) gitlab st2 phases' = Ok (st2', out2) ->
  client_minutes st2' = billed_entries (client_minutes st1').
Proof.
  induction 1 as [|p p' rest rest' Hout _ IH];
    intros st1 st1' st2 st2' out1 out2 Hok1 Hok2 Hcm H1 H2.
  - injection H1 as <- _. by injection H2 as <- _.
  - apply process_phases_cons_Ok in H1 as (sa & pa & ra & Ha & H1 & _).
    apply process_phases_cons_Ok in H2 as (sb & pb & rb & Hb & H2 & _).
    apply (process_phase_Ok _ _ _ _ _ _ Hok1) in Ha
      as [(Hel & -> & _)|(Hel & c & Hc & _ & Hoka & Hcma)];
      unfold outcome in Hout; rewrite Hel in Hout.
    + subst p'. rewrite process_phase_ineligible in Hb by done.
      injection Hb as <- _. by apply (IH st1 st1' st2 st2' ra rb).
    + destruct Hout as (c' & Hc' & ->).
      assert (c' = c) as -> by congruence.
      destruct (decide (c = "personal")) as [->|Hne].
      * rewrite process_phase_ineligible in Hb
          by apply rewritten_personal_ineligible.
        injection Hb as <- _. apply (IH sa st1' st2 st2' ra rb); try done.
        by rewrite Hcma, billed_entries_credited, Hcm.
      * apply (process_phase_Ok _ _ _ _ _ _ Hok2) in Hb
          as [(Hel' & _)|(_ & c2 & Hc2 & _ & Hokb & Hcmb)].
        { by rewrite rewritten_client_eligible in Hel'. }
        rewrite projectName_rewritten in Hc2. unfold detect_client_for_work in Hc2.
        rewrite detect_from_rewritten in Hc2.
        assert (c2 = c) as -> by (unfold detect_client_for_work in Hc; congruence).
        apply (IH sa st1' sb st2' ra rb); try done.
        rewrite Hcmb, Hcma, billed_entries_credited, Hcm.
        assert (durationMinutes (rewritten c p) = durationMinutes p) as ->
          by (unfold rewritten; by case_decide).
        unfold billed. by rewrite bool_decide_eq_false_2.
Qed.

(** The hours of the billed clients do not depend on the entry of
    "personal". *)
Lemma hours_loop_billed (items : list (string * Z)) :
  forall acc acc' h,
  client_hours acc' = client_hours acc ->
  total_billable acc' = total_billable acc ->
  hours_loop acc items = Ok h ->
  exists h',
    hours_loop acc' (billed_entries items) = Ok h'
    /\ client_hours h' = client_hours h
    /\ total_billable h' = total_billable h
    /\ side_project_hours h' = side_project_hours acc'.
Proof.
  unfold billed_entries.
  induction items as [|[k m] rest IH]; intros acc acc' h Hch Htb H.
  - injection H as <-. by exists acc'.
  - apply hours_loop_cons_Ok in H as (acc1 & H1 & H2).
    apply hours_step_Ok in H1 as (x & Hx & ->).
    simpl. unfold billed at 1. case_decide as Hp.
    + rewrite bool_decide_eq_true_2 by done. simpl.
      exact (IH {| client_hours := client_hours acc;
                   total_billable := total_billable acc;
                   side_project_hours := x |} acc' h Hch Htb H2).
    + rewrite bool_decide_eq_false_2 by done. simpl. rewrite Hx. simpl.
      rewrite decide_False by done.
      apply (IH {| client_hours := PyDict.set k x (client_hours acc);
                   total_billable := PyFloat.add (total_billable acc) x;
                   side_project_hours := side_project_hours acc |}
                {| client_hours := PyDict.set k x (client_hours acc');
                   total_billable := PyFloat.add (total_billable acc') x;
                   side_project_hours := side_project_hours acc' |} h);
        simpl; [by rewrite Hch|by rewrite Htb|done].
Qed.

Lemma hours_loop_all_Ok (items : list (string * Z)) :
  forall acc h,
  hours_loop acc items = Ok h ->
  Forall (fun kv => is_Ok (hours_of kv.2)) items.
Proof.
  induction items as [|[k m] rest IH]; intros acc h H; [constructor|].
  apply hours_loop_cons_Ok in H as (acc1 & H1 & H2).
  apply hours_step_Ok in H1 as (x & Hx & _).
  constructor; [by exists x|by apply (IH acc1 h)].
Qed.

(** X11: the update is not idempotent on the totals.  Updating the output
    of an update completes and returns the same phases, the same billable
    hours and the same primary client, but no side project hours: the
    phases of "personal" were rewritten to side_project and are not
    classified and not counted a second time. *)
Theorem update_again (cfg : Config) (data out : DailyRecord) :
  update_timesheet_with_multi_client cfg data = Ok out ->
  exists out2,
    update_timesheet_with_multi_client cfg out = Ok out2
    /\ timelinePhases out2 = timelinePhases out
    /\ billableHours (timeSummary out2) = billableHours (timeSummary out)
    /\ day_clientId out2 = day_clientId out
    /\ sideProjectHours (timeSummary out2) = PyFloat.zero.
Proof.
  intros H. pose proof H as H0.
  apply update_Ok_frame in H
    as (_ & Hg & _ & _ & st & h & cs & H1 & H2 & _ & _ & _ & Hb & _).
  apply update_Ok in H0 as (st0 & ph0 & h0 & H1' & H2' & Hph & _ & _ & Hp).
  rewrite <-Hph in H1'. rewrite H1 in H1'. injection H1' as <-.
  rewrite H2 in H2'. injection H2' as <-.
  pose proof H1 as Hall.
  apply process_phases_Ok in Hall as (Hok & Hall & _); [|apply tracking_ok_empty].
  destruct (process_phases_again cfg (gitlabActivity data) _ _ Hall no_tracking
              tracking_ok_empty) as (st2 & Hagain).
  pose proof (process_phases_again_minutes cfg (gitlabActivity data) _ _ Hall
                no_tracking st no_tracking st2 _ _ tracking_ok_empty
                tracking_ok_empty eq_refl H1 Hagain) as Hcm2.
  destruct (hours_loop_billed _ no_hours no_hours h eq_refl eq_refl H2)
    as (h2 & Hh2 & Hch & Htb & Hside).
  rewrite <-Hcm2 in Hh2.
  destruct (summary_loop_total st2 (client_minutes st2)
              (hours_loop_all_Ok _ _ _ Hh2) []) as (cs2 & Hcs2).
  eexists. split.
  - unfold update_timesheet_with_multi_client.
    rewrite Hg, Hagain. simpl. rewrite Hh2. simpl. rewrite Hcs2. simpl.
    reflexivity.
  - simpl. split_and!; [done|by rewrite Htb, Hb|by rewrite Hch, Hp|done].
Qed.

Lemma update_again_witness :
  exists out,
    update_timesheet_with_multi_client Example.store
      (Example.day None Example.mixed_day) = Ok out
    /\ sideProjectHours (timeSummary out) = PyFloat.of_tenths 10
    /\ exists out2,
         update_timesheet_with_multi_client Example.store out = Ok out2
         /\ timelinePhases out2 = timelinePhases out
         /\ billableHours (timeSummary out2) = billableHours (timeSummary out)
         /\ day_clientId out2 = day_clientId out
         /\ sideProjectHours (timeSummary out2) = PyFloat.zero.
Proof.
  eexists. split; [|split].
  - vm_compute. reflexivity.
  - vm_compute. reflexivity.
  - apply (update_again Example.store (Example.day None Example.mixed_day)).
    vm_compute. reflexivity.
Defined.

(** * Properties of the configuration manager *)

(** ** Stripping and splitting *)

Lemma lstrip_lstrip (s : string) : PyText.lstrip (PyText.lstrip s) = PyText.lstrip s.
Proof.
  induction s as [|c r IH]; simpl; [done|].
  destruct (PyText.is_space c) eqn:Hc; [done|]. simpl. by rewrite Hc.
Qed.

Lemma rstrip_rstrip (s : string) : PyText.rstrip (PyText.rstrip s) = PyText.rstrip s.
Proof.
  induction s as [|c r IH]; simpl; [done|].
  destruct (PyText.rstrip r) as [|c' k] eqn:Hk.
  - destruct (PyText.is_space c) eqn:Hc; [done|]. simpl. by rewrite Hc.
  - change (PyText.rstrip (String c (String c' k)))
      with (match PyText.rstrip (String c' k) with
            | EmptyString =>
                if PyText.is_space c then EmptyString else String c EmptyString
            | kept => String c kept
            end).
    by rewrite IH.
Qed.

Lemma lstrip_rstrip (s : string) :
  PyText.lstrip (PyText.rstrip s) = PyText.rstrip (PyText.lstrip s).
Proof.
  induction s as [|c r IH]; [done|].
  change (PyText.rstrip (String c r))
    with (match PyText.rstrip r with
          | EmptyString =>
              if PyText.is_space c then EmptyString else String c EmptyString
          | kept => String c kept
          end).
  change (PyText.lstrip (String c r))
    with (if PyText.is_space c then PyText.lstrip r else String c r).
  destruct (PyText.is_space c) eqn:Hc.
  - rewrite <-IH. destruct (PyText.rstrip r) as [|c' k]; [done|].
    simpl. by rewrite Hc.
  - change (PyText.rstrip (String c r))
      with (match PyText.rstrip r with
            | EmptyString =>
                if PyText.is_space c then EmptyString else String c EmptyString
            | kept => String c kept
            end).
    rewrite Hc. destruct (PyText.rstrip r) as [|c' k]; simpl; by rewrite Hc.
Qed.

Lemma strip_strip (s : string) : PyText.strip (PyText.strip s) = PyText.strip s.
Proof.
  unfold PyText.strip.
  by rewrite lstrip_rstrip, lstrip_lstrip, rstrip_rstrip.
Qed.

Lemma truthy_nonempty (s : string) : PyStr.truthy s = true <-> s <> "".
Proof. destruct s; simpl; split; done. Qed.

Lemma typed_patterns_typed (line : string) : Forall typed (typed_patterns line).
Proof.
  apply Forall_forall. intros x Hx. unfold typed_patterns in Hx.
  apply elem_of_filter_bool in Hx as [Ht Hx].
  apply list_elem_of_In, in_map_iff in Hx as (piece & <- & _).
  split; [by apply truthy_nonempty|apply strip_strip].
Qed.

(** ** The editing loop *)

Lemma extended_refl (d : Detection) : extended d d.
Proof. repeat split; exists []; by rewrite app_nil_r. Qed.

Lemma extended_trans (d1 d2 d3 : Detection) :
  extended d1 d2 -> extended d2 d3 -> extended d1 d3.
Proof.
  intros ((n1 & H1 & F1) & (n2 & H2 & F2) & (n3 & H3 & F3) & (n4 & H4 & F4)
          & (n5 & H5 & F5))
         ((m1 & G1 & E1) & (m2 & G2 & E2) & (m3 & G3 & E3) & (m4 & G4 & E4)
          & (m5 & G5 & E5)).
  split_and!.
  - exists (n1 ++ m1)%list. rewrite G1, H1, <-app_assoc. split; [done|].
    by apply Forall_app.
  - exists (n2 ++ m2)%list. rewrite G2, H2, <-app_assoc. split; [done|].
    by apply Forall_app.
  - exists (n3 ++ m3)%list. rewrite G3, H3, <-app_assoc. split; [done|].
    by apply Forall_app.
  - exists (n4 ++ m4)%list. rewrite G4, H4, <-app_assoc. split; [done|].
    by apply Forall_app.
  - exists (n5 ++ m5)%list. rewrite G5, H5, <-app_assoc. split; [done|].
    by apply Forall_app.
Qed.

Lemma extended_step (d : Detection) (line : string) :
  extended d (extend_folders (typed_patterns line) d)
  /\ extended d (extend_projects (typed_patterns line) d)
  /\ extended d (extend_gitlabPrefixes (typed_patterns line) d)
  /\ extended d (extend_ticketPrefixes (typed_patterns line) d)
  /\ extended d (extend_tags (typed_patterns line) d).
Proof.
  pose proof (typed_patterns_typed line) as Ht.
  split_and!; unfold extended; simpl; split_and!;
    first [ by exists (typed_patterns line)
          | exists []; by rewrite app_nil_r ].
Qed.

(** The loop returns the rules it was given with typed patterns after
    them, and it has read at least one line. *)
Lemma edit_loop_Returned (inputs : list string) :
  forall d d' rest,
  edit_loop d inputs = Returned d' rest ->
  extended d d' /\ (length rest < length inputs)%nat.
Proof.
  induction inputs as [inputs IH] using (induction_ltof1 _ (@length string)).
  unfold ltof in IH. intros d d' rest H.
  destruct inputs as [|line inputs]; [done|]. simpl in H.
  destruct (extended_step d (hd "" inputs)) as (E1 & E2 & E3 & E4 & E5).
  repeat case_decide.
  - injection H as <- <-. split; [apply extended_refl|simpl; lia].
  - apply IH in H as [He Hl]; simpl; [|lia]. split; [done|lia].
  - destruct inputs as [|patterns inputs]; [done|].
    apply IH in H as [He Hl]; simpl; [|lia].
    split; [exact (extended_trans _ _ _ E1 He)|simpl in *; lia].
  - destruct inputs as [|patterns inputs]; [done|].
    apply IH in H as [He Hl]; simpl; [|lia].
    split; [exact (extended_trans _ _ _ E2 He)|simpl in *; lia].
  - destruct inputs as [|patterns inputs]; [done|].
    apply IH in H as [He Hl]; simpl; [|lia].
    split; [exact (extended_trans _ _ _ E3 He)|simpl in *; lia].
  - destruct inputs as [|patterns inputs]; [done|].
    apply IH in H as [He Hl]; simpl; [|lia].
    split; [exact (extended_trans _ _ _ E4 He)|simpl in *; lia].
  - destruct inputs as [|patterns inputs]; [done|].
    apply IH in H as [He Hl]; simpl; [|lia].
    split; [exact (extended_trans _ _ _ E5 He)|simpl in *; lia].
  - apply IH in H as [He Hl]; simpl; [|lia]. split; [done|lia].
Qed.

Lemma grown_extended (list_of_set : list string -> list string)
    (l l' new : list string) :
  lists_sets list_of_set ->
  l' = (l ++ new)%list -> Forall typed new ->
  grown l (list_of_set l').
Proof.
  intros Hls -> Hnew. destruct (Hls (l ++ new)%list) as [Hnd Hin].
  split_and!; [done| |].
  - intros x Hx. apply Hin, elem_of_app. by left.
  - intros x Hx. apply Hin, elem_of_app in Hx as [Hx|Hx]; [by left|right].
    by apply (proj1 (Forall_forall _ _) Hnew).
Qed.

Lemma edited_extended (list_of_set : list string -> list string)
    (c : Client) (d : Detection) :
  lists_sets list_of_set ->
  extended (detection c) d ->
  edited c (set_detection (remove_duplicates list_of_set d) c).
Proof.
  intros Hls ((n1 & H1 & F1) & (n2 & H2 & F2) & (n3 & H3 & F3) & (n4 & H4 & F4)
              & (n5 & H5 & F5)).
  unfold edited. simpl. split_and!; try done; by eapply grown_extended.
Qed.

(** What a call of [edit_client_rules] that returns has done: nothing,
    for an id that is not a client, or an edit of one client. *)
Lemma edit_client_rules_Returned (list_of_set : list string -> list string)
    (client_id : option string) (cfg cfg' : Config) (inputs rest : list string) :
  edit_client_rules list_of_set client_id cfg inputs = Returned cfg' rest ->
  (length rest <= length inputs)%nat
  /\ (client_id = None -> (length rest < length inputs)%nat)
  /\ (cfg' = cfg
      \/ exists k client d,
           clients cfg !! k = Some client
           /\ extended (detection client) d
           /\ cfg' = set_client k
                       (set_detection (remove_duplicates list_of_set d) client)
                       cfg).
Proof.
  unfold edit_client_rules. intros H.
  assert (forall k ins,
            (length ins <= length inputs)%nat ->
            match clients cfg !! k with
            | Some client =>
                match edit_loop (detection client) ins with
                | Returned d rest =>
                    Returned
                      (set_client k
                         (set_detection (remove_duplicates list_of_set d) client)
                         cfg) rest
                | EOFError => EOFError
                | Raised e => Raised e
                end
            | None => Returned cfg ins
            end = Returned cfg' rest ->
            (length rest <= length ins)%nat
            /\ (cfg' = cfg
                \/ exists k client d,
                     clients cfg !! k = Some client
                     /\ extended (detection client) d
                     /\ cfg' = set_client k
                                 (set_detection
                                    (remove_duplicates list_of_set d) client)
                                 cfg)) as Hbody.
  { intros k ins _ Hk. destruct (clients cfg !! k) as [client|] eqn:Hc.
    - destruct (edit_loop (detection client) ins) as [d r| |e] eqn:Hl; try done.
      injection Hk as <- <-. apply edit_loop_Returned in Hl as [He Hlen].
      split; [lia|]. right. by exists k, client, d.
    - injection Hk as <- <-. split; [done|by left]. }
  destruct client_id as [k|].
  - destruct (PyStr.truthy k).
    + apply Hbody in H as [Hl Hc]; [|done]. split_and!; [done|done|done].
    + destruct inputs as [|line ins]; [done|].
      apply Hbody in H as [Hl Hc]; [|simpl; lia].
      split_and!; [simpl; lia|done|done].
  - destruct inputs as [|line ins]; [done|].
    apply Hbody in H as [Hl Hc]; [|simpl; lia].
    split_and!; [simpl; lia|intros _; simpl; lia|done].
Qed.

(** ** The configurations the manager keeps *)

Lemma managed_default_config (today : string) :
  managed (create_default_config today).
Proof.
  split.
  - unfold priority_defined, create_default_config. cbn [detectionPriority clients].
    constructor; [|constructor]. rewrite lookup_singleton_eq. eauto.
  - apply NoDup_singleton.
  - done.
  - done.
  - intros k c Hk. unfold create_default_config in Hk. cbn [clients] in Hk.
    apply lookup_singleton_Some in Hk as [<- <-]. done.
Qed.

Lemma managed_personal (cfg : Config) :
  managed cfg ->
  "personal" ∈ detectionPriority cfg /\ is_Some (clients cfg !! "personal").
Proof.
  intros [Hdef _ Hlast _ _].
  assert ("personal" ∈ detectionPriority cfg) as Hin.
  { apply last_Some in Hlast as [l ->]. apply elem_of_app. right. by left. }
  split; [done|]. by apply (proj1 (Forall_forall _ _) Hdef).
Qed.

Lemma managed_set_detection (cfg : Config) (k : string) (client : Client)
    (d : Detection) :
  managed cfg ->
  clients cfg !! k = Some client ->
  managed (set_client k (set_detection d client) cfg).
Proof.
  intros [Hdef Hnd Hlast Hd Hflag] Hk. split; simpl; try done.
  - eapply Forall_impl; [exact Hdef|]. intros k' Hk'. simpl.
    rewrite lookup_insert. case_decide; [eauto|done].
  - intros k' c. rewrite lookup_insert. case_decide.
    + intros [= <-]. subst k'. simpl. by apply Hflag.
    + apply Hflag.
Qed.

Lemma managed_edit_client_rules (list_of_set : list string -> list string)
    (client_id : option string) (cfg cfg' : Config) (inputs rest : list string) :
  managed cfg ->
  edit_client_rules list_of_set client_id cfg inputs = Returned cfg' rest ->
  managed cfg'.
Proof.
  intros Hm H.
  apply edit_client_rules_Returned in H as (_ & _ & [->|(k & c & d & Hk & _ & ->)]);
    [done|]. by apply managed_set_detection.
Qed.

Lemma managed_save_config (today : string) (cfg : Config) :
  managed cfg -> managed (save_config today cfg).
Proof. by intros [? ? ? ? ?]. Qed.

Lemma index_snoc (l : list string) (x : string) :
  x ∉ l -> PyText.index x (l ++ [x]) = length l.
Proof.
  induction l as [|y l IH]; simpl; intros Hx.
  - by rewrite decide_True.
  - apply not_elem_of_cons in Hx as [Hne Hx].
    rewrite decide_False by done. by rewrite IH.
Qed.

(** A new id goes just before a last "personal". *)
Lemma with_priority_of_last (client_id : string) (l : list string) :
  client_id ∉ (l ++ ["personal"])%list ->
  "personal" ∉ l ->
  with_priority_of client_id (l ++ ["personal"])
  = (l ++ [client_id; "personal"])%list.
Proof.
  intros Hid Hp. unfold with_priority_of.
  rewrite bool_decide_eq_false_2 by done.
  rewrite bool_decide_eq_true_2 by (apply elem_of_app; right; by left).
  rewrite index_snoc by done. unfold PyText.insert.
  by rewrite take_app_length, drop_app_length.
Qed.

Lemma managed_new_client (cfg : Config) (client_id short long colour : string) :
  managed cfg ->
  clients cfg !! client_id = None ->
  managed
    (set_priority (with_priority_of client_id (detectionPriority cfg))
       (set_client client_id (new_client short long colour) cfg)).
Proof.
  intros Hm Hfresh. pose proof (managed_personal cfg Hm) as [_ [pc Hpc]].
  destruct Hm as [Hdef Hnd Hlast Hd Hflag].
  apply last_Some in Hlast as [l Hl].
  assert (client_id ∉ detectionPriority cfg) as Hid.
  { intros Hin. apply (proj1 (Forall_forall _ _) Hdef) in Hin as [c Hc]. congruence. }
  assert (client_id <> "personal") as Hne by congruence.
  rewrite Hl in Hid, Hnd.
  assert ("personal" ∉ l) as Hp.
  { apply NoDup_app in Hnd as (_ & Hd' & _). intros Hin.
    apply (Hd' _ Hin). by left. }
  split; simpl; rewrite ?Hl, ?with_priority_of_last by done.
  - unfold priority_defined in *. simpl. rewrite Hl in Hdef.
    apply Forall_app in Hdef as [Hl0 Hp0]. apply Forall_app. split.
    + eapply Forall_impl; [exact Hl0|]. intros k [c Hc]. simpl.
      rewrite lookup_insert. case_decide; eauto.
    + constructor; [rewrite lookup_insert_eq; eauto|].
      eapply Forall_impl; [exact Hp0|]. intros k [c Hc]. simpl.
      rewrite lookup_insert. case_decide; eauto.
  - apply NoDup_app in Hnd as (Hndl & Hdis & _).
    apply NoDup_app. split_and!; [done| |].
    + intros x Hx Hx'. apply elem_of_cons in Hx' as [->|Hx'].
      * apply Hid, elem_of_app. by left.
      * by apply (Hdis x Hx).
    + constructor; [|apply NoDup_singleton].
      intros Hin. apply list_elem_of_singleton in Hin. done.
  - change [client_id; "personal"] with ([client_id] ++ ["personal"])%list.
    by rewrite app_assoc, last_snoc.
  - done.
  - intros k c. rewrite lookup_insert. case_decide.
    + intros [= <-]. subst k. simpl. split; [done|]. done.
    + apply Hflag.
Qed.

(** What a call of [add_client] that returns has done. *)
Lemma add_client_Returned (list_of_set : list string -> list string)
    (cfg cfg' : Config) (inputs rest : list string) :
  add_client list_of_set cfg inputs = Returned cfg' rest ->
  (length rest < length inputs)%nat
  /\ (cfg' = cfg
      \/ exists client_id short long colour,
           client_id <> "" /\ clients cfg !! client_id = None
           /\ (cfg' = set_priority
                        (with_priority_of client_id (detectionPriority cfg))
                        (set_client client_id (new_client short long colour) cfg)
               \/ exists rest0,
                    edit_client_rules list_of_set (Some client_id)
                      (set_priority
                         (with_priority_of client_id (detectionPriority cfg))
                         (set_client client_id (new_client short long colour) cfg))
                      rest0 = Returned cfg' rest)).
Proof.
  unfold add_client. destruct inputs as [|line inputs]; [done|].
  destruct (negb (PyStr.truthy (PyStr.lower (PyText.strip line)))) eqn:Ht; simpl.
  { intros [= <- <-]. split; [lia|by left]. }
  case_bool_decide as Hc.
  { intros [= <- <-]. split; [lia|by left]. }
  destruct inputs as [|short [|long [|colour [|answer_line inputs]]]]; try done.
  apply negb_false_iff, truthy_nonempty in Ht.
  apply eq_None_not_Some in Hc.
  case_decide as Hy.
  - intros H. pose proof H as H'.
    apply edit_client_rules_Returned in H as (Hl & _).
    split; [simpl; lia|]. right. eexists _, _, _, _.
    split_and!; [done|done|]. right. eauto.
  - intros [= <- <-]. split; [simpl; lia|]. right. eexists _, _, _, _.
    split_and!; [done|done|]. by left.
Qed.

Lemma managed_add_client (list_of_set : list string -> list string)
    (cfg cfg' : Config) (inputs rest : list string) :
  managed cfg ->
  add_client list_of_set cfg inputs = Returned cfg' rest ->
  managed cfg'.
Proof.
  intros Hm H.
  apply add_client_Returned in H
    as (_ & [->|(k & s & l & c & _ & Hk & [->|(rest0 & He)])]); [done| |].
  - by apply managed_new_client.
  - eapply managed_edit_client_rules; [|exact He]. by apply managed_new_client.
Qed.

Lemma edit_loop_not_Raised (inputs : list string) :
  forall d e, edit_loop d inputs <> Raised e.
Proof.
  induction inputs as [inputs IH] using (induction_ltof1 _ (@length string)).
  unfold ltof in IH. intros d e.
  destruct inputs as [|line inputs]; [done|]. simpl.
  repeat case_decide; try done;
    try (destruct inputs as [|patterns inputs]; [done|]);
    apply IH; simpl; lia.
Qed.

Lemma edit_client_rules_not_Raised (list_of_set : list string -> list string)
    (client_id : option string) (cfg : Config) (inputs : list string) (e : exn) :
  edit_client_rules list_of_set client_id cfg inputs <> Raised e.
Proof.
  unfold edit_client_rules.
  assert (forall k ins,
            match clients cfg !! k with
            | Some client =>
                match edit_loop (detection client) ins with
                | Returned d rest =>
                    Returned
                      (set_client k
                         (set_detection (remove_duplicates list_of_set d) client)
                         cfg) rest
                | EOFError => EOFError
                | Raised e => Raised e
                end
            | None => Returned cfg ins
            end <> Raised e) as Hbody.
  { intros k ins. destruct (clients cfg !! k) as [client|]; [|done].
    destruct (edit_loop (detection client) ins) eqn:Hl; try done.
    by apply edit_loop_not_Raised in Hl. }
  destruct client_id as [k|].
  - destruct (PyStr.truthy k); [apply Hbody|].
    destruct inputs; [done|apply Hbody].
  - destruct inputs; [done|apply Hbody].
Qed.

Lemma add_client_not_Raised (list_of_set : list string -> list string)
    (cfg : Config) (inputs : list string) (e : exn) :
  add_client list_of_set cfg inputs <> Raised e.
Proof.
  unfold add_client. destruct inputs as [|line inputs]; [done|].
  destruct (_ || _); [done|].
  destruct inputs as [|short [|long [|colour [|answer_line inputs]]]]; try done.
  case_decide; [|done]. apply edit_client_rules_not_Raised.
Qed.

Lemma export_instructions_managed (cfg : Config) :
  managed cfg -> export_instructions cfg = Ok tt.
Proof.
  intros [Hdef _ _ Hd _]. unfold export_instructions. rewrite Hd.
  destruct (List.find _ _) as [k|] eqn:Hf; [|done].
  apply find_some in Hf as [Hin Hk].
  apply list_elem_of_In, (proj1 (Forall_forall _ _) Hdef) in Hin.
  by rewrite bool_decide_eq_true_2 in Hk.
Qed.

(** A session from a configuration the manager keeps ends with such a
    configuration, and raises at most [EOFError]. *)
Lemma run_interactive_managed (list_of_set : list string -> list string)
    (fuel : nat) (today : string) (cfg : Config) (inputs : list string) :
  managed cfg ->
  (length inputs < fuel)%nat ->
  exists a,
    run_interactive list_of_set fuel today cfg inputs = Some a
    /\ match a with
       | Returned (cfg', saved) _ =>
           managed cfg' /\ forall s, saved = Some s -> managed s
       | EOFError => True
       | Raised _ => False
       end.
Proof.
  revert cfg inputs. induction fuel as [|fuel IH]; intros cfg inputs Hm Hl; [lia|].
  destruct inputs as [|line inputs]; simpl; [by exists EOFError|].
  simpl in Hl. repeat case_decide.
  - destruct (add_client list_of_set cfg inputs) as [cfg1 rest1| |e] eqn:Ha.
    + pose proof (managed_add_client _ _ _ _ _ Hm Ha).
      apply add_client_Returned in Ha as [Hlen _]. apply IH; [done|lia].
    + by exists EOFError.
    + by apply add_client_not_Raised in Ha.
  - destruct (edit_client_rules list_of_set None cfg inputs)
      as [cfg1 rest1| |e] eqn:He.
    + pose proof (managed_edit_client_rules _ _ _ _ _ _ Hm He).
      apply edit_client_rules_Returned in He as (Hlen & _). apply IH; [done|lia].
    + by exists EOFError.
    + by apply edit_client_rules_not_Raised in He.
  - apply IH; [done|lia].
  - rewrite export_instructions_managed by done. apply IH; [done|lia].
  - eexists. split; [done|]. split; [by apply managed_save_config|].
    intros s [= <-]. by apply managed_save_config.
  - destruct inputs as [|sure inputs]; [by exists EOFError|].
    case_decide.
    + eexists. split; [done|]. split; [done|]. done.
    + apply IH; [done|simpl in Hl; lia].
  - apply IH; [done|lia].
Qed.

(** X12: a session of the interactive manager that starts from a
    configuration as the manager keeps it, such as the default one, gets
    an answer for every menu round, never raises a KeyError, and when it
    ends leaves such a configuration in memory and, if it saved, in the
    file: every id of the priority order is a defined client, none is
    repeated, "personal" is the last one, the default client and the only
    rule flagged as default. *)
Theorem session_keeps_managed (list_of_set : list string -> list string)
    (fuel : nat) (today : string) (cfg : Config) (inputs : list string) :
  managed cfg ->
  (length inputs < fuel)%nat ->
  exists a,
    run_interactive list_of_set fuel today cfg inputs = Some a
    /\ match a with
       | Returned (cfg', saved) _ =>
           managed cfg' /\ forall s, saved = Some s -> managed s
       | EOFError => True
       | Raised _ => False
       end.
Proof. apply run_interactive_managed. Qed.


Lemma session_keeps_managed_witness :
  exists a,
    run_interactive last_occurrences 20 "2025-07-01"
      (create_default_config "2025-06-01")
      ["1"; " ACME "; "Acme"; "ACME Corporation"; ""; "y";
       "2"; "Acme App, Acme Web,"; "7"; "4"; "5"] = Some a
    /\ match a with
       | Returned (cfg', saved) _ =>
           managed cfg' /\ forall s, saved = Some s -> managed s
       | EOFError => True
       | Raised _ => False
       end.
Proof.
  apply (session_keeps_managed last_occurrences 20 "2025-07-01"
           (create_default_config "2025-06-01")).
  - apply managed_default_config.
  - simpl. lia.
Defined.

(** ** What an edit does to the rules *)

Lemma set_client_lookup (k k' : string) (c : Client) (cfg : Config) :
  clients (set_client k c cfg) !! k'
  = if decide (k = k') then Some c else clients cfg !! k'.
Proof. apply lookup_insert. Qed.

(** X13: a call of edit_client_rules that returns leaves the priority
    order and the settings alone and changes at most one client, of which
    it keeps the names, the colour and the default flag.  In each of the
    five pattern lists of that client it keeps every pattern, leaves no
    duplicate, and adds nothing but patterns typed at the prompt, which
    are not empty and have no white space at either end. *)
Theorem edit_client_rules_effect (list_of_set : list string -> list string)
    (client_id : option string) (cfg cfg' : Config) (inputs rest : list string) :
  lists_sets list_of_set ->
  edit_client_rules list_of_set client_id cfg inputs = Returned cfg' rest ->
  detectionPriority cfg' = detectionPriority cfg
  /\ settings cfg' = settings cfg
  /\ (cfg' = cfg
      \/ exists k c c',
           clients cfg !! k = Some c /\ clients cfg' !! k = Some c'
           /\ edited c c'
           /\ forall k', k' <> k -> clients cfg' !! k' = clients cfg !! k').
Proof.
  intros Hls H.
  apply edit_client_rules_Returned in H as (_ & _ & [->|(k & c & d & Hk & He & ->)]).
  - split_and!; [done|done|by left].
  - split_and!; [done|done|]. right.
    exists k, c, (set_detection (remove_duplicates list_of_set d) c).
    split_and!; [done| | |].
    + rewrite set_client_lookup. by rewrite decide_True.
    + by apply edited_extended.
    + intros k' Hne. rewrite set_client_lookup. by rewrite decide_False.
Qed.

Lemma lists_sets_last_occurrences : lists_sets last_occurrences.
Proof.
  intros l. unfold last_occurrences. split; [apply NoDup_remove_dups|].
  intros x. apply elem_of_remove_dups.
Qed.

Lemma edit_client_rules_effect_witness :
  exists cfg',
    edit_client_rules last_occurrences None Example.store
      ["ACME "; "2"; " Acme Web , Acme App,,"; "5"; "billable"; "7"; "5"]
    = Returned cfg' ["5"]
    /\ detectionPriority cfg' = detectionPriority Example.store
    /\ settings cfg' = settings Example.store
    /\ (cfg' = Example.store
        \/ exists k c c',
             clients Example.store !! k = Some c /\ clients cfg' !! k = Some c'
             /\ edited c c'
             /\ forall k', k' <> k -> clients cfg' !! k' = clients Example.store !! k').
Proof.
  eexists. split.
  - vm_compute. reflexivity.
  - apply (edit_client_rules_effect last_occurrences None Example.store _
             ["ACME "; "2"; " Acme Web , Acme App,,"; "5"; "billable"; "7"; "5"]
             ["5"]).
    + apply lists_sets_last_occurrences.
    + vm_compute. reflexivity.
Defined.

(** ** What the classification makes of an edit *)

(** Two runs of the loop agree when the stores agree on the default client
    and on the ids of the priority list that are looked up. *)
Lemma detect_from_agree_on (cfg cfg' : Config) (priority : list string)
    (project_name : string) (phase_data : option Phase)
    (gitlab_data : option GitlabActivity) :
  defaultClient (settings cfg) = defaultClient (settings cfg') ->
  (forall k, k ∈ priority -> k <> "personal" ->
     clients cfg !! k = clients cfg' !! k) ->
  detect_from cfg priority project_name phase_data gitlab_data
  = detect_from cfg' priority project_name phase_data gitlab_data.
Proof.
  intros Hd Hk. induction priority as [|k rest IH]; simpl.
  - by rewrite Hd.
  - case_decide as Hp.
    + apply IH. intros k' Hin. apply Hk. by right.
    + rewrite <-(Hk k) by (done || by left).
      destruct (clients cfg !! k) as [c|]; [|done].
      destruct (client_hit _ _ _ _); [done|].
      apply IH. intros k' Hin. apply Hk. by right.
Qed.

(** X14: the rules of "personal" are never consulted.  Two
    configurations with the same priority order and default client that
    define the same clients, except possibly "personal", classify every
    input alike: the patterns of "personal", its presence even, make no
    difference. *)
Theorem detect_ignores_personal (cfg cfg' : Config) (project_name : string)
    (phase_data : option Phase) (gitlab_data : option GitlabActivity) :
  detectionPriority cfg' = detectionPriority cfg ->
  defaultClient (settings cfg') = defaultClient (settings cfg) ->
  (forall k, k <> "personal" -> clients cfg' !! k = clients cfg !! k) ->
  detect_client_for_work cfg' project_name phase_data gitlab_data
  = detect_client_for_work cfg project_name phase_data gitlab_data.
Proof.
  intros Hp Hd Hk. unfold detect_client_for_work. rewrite Hp.
  apply detect_from_agree_on; [done|]. intros k _ Hne. by apply Hk.
Qed.

Lemma detect_ignores_personal_witness :
  detect_client_for_work
    (set_client "personal"
       (Example.rule "Me" "Me" true ["acme-corp"] ["Acme App"] ["ACME-"] ["acme"])
       Example.store)
    "Acme App Redesign" (Some Example.tooling) None
  = detect_client_for_work Example.store "Acme App Redesign"
      (Some Example.tooling) None.
Proof.
  apply detect_ignores_personal.
  - reflexivity.
  - reflexivity.
  - intros k Hne. rewrite set_client_lookup. by rewrite decide_False.
Defined.







(** ** What add_client does to the configuration *)

Lemma index_split (x : string) (l : list string) :
  x ∈ l ->
  exists l2, l = (take (PyText.index x l) l ++ x :: l2)%list
             /\ drop (PyText.index x l) l = x :: l2
             /\ x ∉ take (PyText.index x l) l.
Proof.
  induction l as [|y l IH]; [by intros ?%elem_of_nil|].
  intros Hin. simpl. case_decide as Hy.
  - subst y. exists l. simpl. split_and!; [done|done|apply not_elem_of_nil].
  - apply elem_of_cons in Hin as [->|Hin]; [done|].
    destruct (IH Hin) as (l2 & H1 & H2 & H3). exists l2. simpl.
    split_and!; [by rewrite <-H1|done|].
    apply not_elem_of_cons. split; [congruence|done].
Qed.

Lemma with_priority_of_placed (client_id : string) (l : list string) :
  client_id ∉ l -> placed client_id l (with_priority_of client_id l).
Proof.
  intros Hid. unfold with_priority_of.
  rewrite bool_decide_eq_false_2 by done. case_bool_decide as Hp.
  - destruct (index_split "personal" l Hp) as (l2 & H1 & H2 & H3).
    exists (take (PyText.index "personal" l) l), (drop (PyText.index "personal" l) l).
    split_and!; [by rewrite take_drop|done|done|]. right. by exists l2.
  - exists l, []. split_and!; [by rewrite app_nil_r|done|done|by left].
Qed.

(** A call of [edit_client_rules] for a given client edits that client. *)
Lemma edit_client_rules_Some (list_of_set : list string -> list string)
    (k : string) (client : Client) (cfg cfg' : Config)
    (inputs rest : list string) :
  k <> "" ->
  clients cfg !! k = Some client ->
  edit_client_rules list_of_set (Some k) cfg inputs = Returned cfg' rest ->
  exists d, extended (detection client) d
            /\ cfg' = set_client k
                        (set_detection (remove_duplicates list_of_set d) client)
                        cfg.
Proof.
  intros Hk Hc. unfold edit_client_rules.
  rewrite (proj2 (truthy_nonempty k) Hk), Hc.
  destruct (edit_loop (detection client) inputs) as [d r| |e] eqn:Hl; try done.
  intros [= <- <-]. apply edit_loop_Returned in Hl as [He _]. by exists d.
Qed.

Lemma add_client_shape (list_of_set : list string -> list string)
    (cfg cfg' : Config) (inputs rest : list string) :
  lists_sets list_of_set ->
  add_client list_of_set cfg inputs = Returned cfg' rest ->
  settings cfg' = settings cfg
  /\ (cfg' = cfg
      \/ exists client_id c,
           client_id <> ""
           /\ clients cfg !! client_id = None
           /\ clients cfg' !! client_id = Some c
           /\ edited (new_client (name c) (displayName c) (color c)) c
           /\ (forall k, k <> client_id -> clients cfg' !! k = clients cfg !! k)
           /\ (client_id ∈ detectionPriority cfg
               /\ detectionPriority cfg' = detectionPriority cfg
               \/ placed client_id (detectionPriority cfg)
                    (detectionPriority cfg'))).
Proof.
  intros Hls H.
  assert (forall k,
            k ∈ detectionPriority cfg
            /\ with_priority_of k (detectionPriority cfg) = detectionPriority cfg
            \/ placed k (detectionPriority cfg)
                 (with_priority_of k (detectionPriority cfg))) as Hprio.
  { intros k. destruct (decide (k ∈ detectionPriority cfg)) as [Hin|Hin].
    - left. split; [done|]. unfold with_priority_of.
      by rewrite bool_decide_eq_true_2.
    - right. by apply with_priority_of_placed. }
  apply add_client_Returned in H
    as (_ & [->|(k & s & l & c & Hne & Hk & [->|(rest0 & He)])]).
  - split; [done|by left].
  - split; [done|]. right. exists k, (new_client s l c).
    split_and!; [done|done| | | |apply Hprio].
    + simpl. apply lookup_insert_eq.
    + simpl. unfold edited, grown. simpl.
      split_and!; try done; try apply NoDup_nil_2;
        by intros x ?%elem_of_nil.
    + intros k' Hk'. simpl. by apply lookup_insert_ne.
  - apply edit_client_rules_Some with (client := new_client s l c) in He
      as (d & Hext & ->); [|done|simpl; apply lookup_insert_eq].
    split; [done|]. right.
    exists k, (set_detection (remove_duplicates list_of_set d) (new_client s l c)).
    split_and!; [done|done| | | |apply Hprio].
    + simpl. apply lookup_insert_eq.
    + apply (edited_extended list_of_set (new_client s l c) d Hls Hext).
    + intros k' Hk'. simpl. rewrite !lookup_insert_ne by done. done.
Qed.

(** X16: add_client overwrites nothing.  A call that returns leaves the
    settings alone and either changes nothing, or defines one client
    under an id that is not empty and was not a client: every other client
    is as before, the new one is not flagged as default and has no
    pattern but those typed at the prompts, each once, and its id is put
    into the priority order before the first "personal", at the end when
    there is none, unless the order had the id already. *)
Theorem add_client_effect (list_of_set : list string -> list string)
    (cfg cfg' : Config) (inputs rest : list string) :
  lists_sets list_of_set ->
  add_client list_of_set cfg inputs = Returned cfg' rest ->
  settings cfg' = settings cfg
  /\ (cfg' = cfg
      \/ exists client_id c,
           client_id <> ""
           /\ clients cfg !! client_id = None
           /\ clients cfg' !! client_id = Some c
           /\ edited (new_client (name c) (displayName c) (color c)) c
           /\ (forall k, k <> client_id -> clients cfg' !! k = clients cfg !! k)
           /\ (client_id ∈ detectionPriority cfg
               /\ detectionPriority cfg' = detectionPriority cfg
               \/ placed client_id (detectionPriority cfg)
                    (detectionPriority cfg'))).
Proof. apply add_client_shape. Qed.

Lemma add_client_effect_witness :
  exists cfg',
    add_client last_occurrences Example.store
      [" Gamma "; "Gamma"; "Gamma Ltd"; ""; "Y"; "1"; "gamma-ltd, gamma-ltd"; "7"; "5"]
    = Returned cfg' ["5"]
    /\ settings cfg' = settings Example.store
    /\ (cfg' = Example.store
        \/ exists client_id c,
             client_id <> ""
             /\ clients Example.store !! client_id = None
             /\ clients cfg' !! client_id = Some c
             /\ edited (new_client (name c) (displayName c) (color c)) c
             /\ (forall k, k <> client_id ->
                   clients cfg' !! k = clients Example.store !! k)
             /\ (client_id ∈ detectionPriority Example.store
                 /\ detectionPriority cfg' = detectionPriority Example.store
                 \/ placed client_id (detectionPriority Example.store)
                      (detectionPriority cfg'))).
Proof.
  eexists. split.
  - vm_compute. reflexivity.
  - apply (add_client_effect last_occurrences Example.store _
             [" Gamma "; "Gamma"; "Gamma Ltd"; ""; "Y"; "1";
              "gamma-ltd, gamma-ltd"; "7"; "5"] ["5"]).
    + apply lists_sets_last_occurrences.
    + vm_compute. reflexivity.
Defined.

(** ** What the classification makes of a new client *)

Lemma detect_from_inserted (cfg cfg' : Config) (client_id : string) (c : Client)
    (l1 l2 : list string) (project_name : string) (phase_data : option Phase)
    (gitlab_data : option GitlabActivity) :
  defaultClient (settings cfg') = defaultClient (settings cfg) ->
  clients cfg' !! client_id = Some c ->
  (forall k, k ∈ (l1 ++ l2)%list -> clients cfg' !! k = clients cfg !! k) ->
  detect_from cfg' (l1 ++ client_id :: l2) project_name phase_data gitlab_data
  = detect_from cfg (l1 ++ l2) project_name phase_data gitlab_data
  \/ client_hit (detection c) project_name phase_data gitlab_data = true
     /\ detect_from cfg' (l1 ++ client_id :: l2) project_name phase_data
          gitlab_data = Ok client_id.
Proof.
  intros Hd Hc. induction l1 as [|a l1 IH]; intros Hk.
  - assert (detect_from cfg' l2 project_name phase_data gitlab_data
            = detect_from cfg l2 project_name phase_data gitlab_data) as Hl2.
    { apply detect_from_agree_on; [done|]. intros k Hin _. by apply Hk. }
    simpl. case_decide; [by left|]. rewrite Hc.
    destruct (client_hit (detection c) _ _ _); [by right|by left].
  - simpl. case_decide.
    + apply IH. intros k Hin. apply Hk. by right.
    + rewrite Hk by by left.
      destruct (clients cfg !! a) as [ca|]; [|by left].
      destruct (client_hit (detection ca) _ _ _); [by left|].
      apply IH. intros k Hin. apply Hk. by right.
Qed.

Lemma add_client_detect (list_of_set : list string -> list string)
    (cfg cfg' : Config) (inputs rest : list string) (project_name : string)
    (phase_data : option Phase) (gitlab_data : option GitlabActivity) :
  lists_sets list_of_set ->
  priority_defined cfg (detectionPriority cfg) ->
  add_client list_of_set cfg inputs = Returned cfg' rest ->
  detect_client_for_work cfg' project_name phase_data gitlab_data
  = detect_client_for_work cfg project_name phase_data gitlab_data
  \/ exists client_id c,
       clients cfg !! client_id = None
       /\ clients cfg' !! client_id = Some c
       /\ client_hit (detection c) project_name phase_data gitlab_data = true
       /\ detect_client_for_work cfg' project_name phase_data gitlab_data
          = Ok client_id.
Proof.
  intros Hls Hdef H.
  apply (add_client_shape _ _ _ _ _ Hls) in H
    as (Hs & [->|(k & c & _ & Hk & Hk' & _ & Hother & Hp)]); [by left|].
  assert (k ∉ detectionPriority cfg) as Hnot.
  { intros Hin. apply (proj1 (Forall_forall _ _) Hdef) in Hin as [c0 Hc0].
    congruence. }
  destruct Hp as [[Hin _]|(l1 & l2 & Hl & Hl' & _)]; [done|].
  unfold detect_client_for_work. rewrite Hl, Hl'.
  destruct (detect_from_inserted cfg cfg' k c l1 l2 project_name phase_data
              gitlab_data) as [Hsame|[Hhit Hwon]].
  - by rewrite Hs.
  - done.
  - intros k' Hin. apply Hother. intros ->. apply Hnot. by rewrite Hl.
  - by left.
  - right. by exists k, c.
Qed.

(** X17: a client that is added can only win phases for itself.  When
    every id of the priority order is a defined client, a call of
    add_client that returns leaves the classification of every input as it
    was, unless a pattern typed for the new client hits the input, which
    then goes to the new client. *)
Theorem new_client_wins_for_itself (list_of_set : list string -> list string)
    (cfg cfg' : Config) (inputs rest : list string) (project_name : string)
    (phase_data : option Phase) (gitlab_data : option GitlabActivity) :
  lists_sets list_of_set ->
  priority_defined cfg (detectionPriority cfg) ->
  add_client list_of_set cfg inputs = Returned cfg' rest ->
  detect_client_for_work cfg' project_name phase_data gitlab_data
  = detect_client_for_work cfg project_name phase_data gitlab_data
  \/ exists client_id c,
       clients cfg !! client_id = None
       /\ clients cfg' !! client_id = Some c
       /\ client_hit (detection c) project_name phase_data gitlab_data = true
       /\ detect_client_for_work cfg' project_name phase_data gitlab_data
          = Ok client_id.
Proof. apply add_client_detect. Qed.

Lemma priority_defined_store : priority_defined Example.store
                                 (detectionPriority Example.store).
Proof. apply (bool_decide_unpack _). vm_compute. exact I. Qed.

Lemma new_client_wins_for_itself_witness :
  exists cfg',
    add_client last_occurrences Example.store
      ["gamma"; "Gamma"; "Gamma Ltd"; ""; "y"; "2"; "acme"; "7"]
    = Returned cfg' []
    /\ (detect_client_for_work cfg' "Acme App Redesign" None None
        = detect_client_for_work Example.store "Acme App Redesign" None None
        \/ exists client_id c,
             clients Example.store !! client_id = None
             /\ clients cfg' !! client_id = Some c
             /\ client_hit (detection c) "Acme App Redesign" None None = true
             /\ detect_client_for_work cfg' "Acme App Redesign" None None
                = Ok client_id).
Proof.
  eexists. split.
  - vm_compute. reflexivity.
  - apply (new_client_wins_for_itself last_occurrences Example.store _
             ["gamma"; "Gamma"; "Gamma Ltd"; ""; "y"; "2"; "acme"; "7"] []).
    + apply lists_sets_last_occurrences.
    + apply priority_defined_store.
    + vm_compute. reflexivity.
Defined.

(** ** From the manager to the update *)

(** Whatever a session returns, the configurations it leaves are as the
    manager keeps them. *)
Lemma run_interactive_Returned (list_of_set : list string -> list string)
    (fuel : nat) (today : string) (cfg cfg' : Config) (saved : option Config)
    (inputs rest : list string) :
  managed cfg ->
  run_interactive list_of_set fuel today cfg inputs
  = Some (Returned (cfg', saved) rest) ->
  managed cfg' /\ forall s, saved = Some s -> managed s.
Proof.
  revert cfg inputs. induction fuel as [|fuel IH]; intros cfg inputs Hm; [done|].
  destruct inputs as [|line inputs]; simpl; [done|].
  repeat case_decide.
  - destruct (add_client list_of_set cfg inputs) as [cfg1 rest1| |e] eqn:Ha;
      try done.
    apply IH. by eapply managed_add_client.
  - destruct (edit_client_rules list_of_set None cfg inputs)
      as [cfg1 rest1| |e] eqn:He; try done.
    apply IH. by eapply managed_edit_client_rules.
  - by apply IH.
  - rewrite export_instructions_managed by done. by apply IH.
  - intros [= <- <- <-]. split; [by apply managed_save_config|].
    intros s [= <-]. by apply managed_save_config.
  - destruct inputs as [|sure inputs]; [done|].
    case_decide; [|by apply IH].
    intros [= <- <- <-]. split; [done|]. done.
  - by apply IH.
Qed.

(** X18: the configuration that a session of the manager saves serves the
    update.  When the session starts without a configuration file, from
    the default configuration, the update of any day with the saved
    configuration completes, without KeyError and without OverflowError,
    provided no classified phase of the day has a negative duration and
    the classified phases last at most the 1440 minutes of a day. *)
Theorem saved_configuration_serves (list_of_set : list string -> list string)
    (fuel : nat) (today : string) (inputs rest : list string)
    (cfg saved : Config) (data : DailyRecord) :
  run_interactive list_of_set fuel today (load_config today None) inputs
  = Some (Returned (cfg, Some saved) rest) ->
  countable_day data ->
  exists out, update_timesheet_with_multi_client saved data = Ok out.
Proof.
  intros Hrun [Hpos Hday].
  apply run_interactive_Returned in Hrun as [_ Hs];
    [|apply managed_default_config].
  destruct (Hs saved eq_refl) as [Hdef _ _ Hd _].
  apply update_runs; [done|by rewrite Hd|done|done].
Qed.

Lemma saved_configuration_serves_witness :
  exists cfg saved,
    run_interactive last_occurrences 20 "2025-06-30"
      (load_config "2025-06-30" None)
      ["1"; "acme"; "ACME"; "ACME Corporation"; ""; "y";
       "2"; "Acme App"; "4"; "ACME-"; "7"; "5"]
    = Some (Returned (cfg, Some saved) [])
    /\ exists out,
         update_timesheet_with_multi_client saved
           (Example.day (Some Example.commits) Example.mixed_day) = Ok out.
Proof.
  eexists _, _. split.
  - vm_compute. reflexivity.
  - eapply (saved_configuration_serves last_occurrences 20 "2025-06-30"
             ["1"; "acme"; "ACME"; "ACME Corporation"; ""; "y";
              "2"; "Acme App"; "4"; "ACME-"; "7"; "5"] [] _ _
             (Example.day (Some Example.commits) Example.mixed_day)).
    + vm_compute. reflexivity.
    + split.
      * repeat constructor; simpl; intros _; lia.
      * vm_compute. discriminate.
Defined.

(** * Properties of the report *)

Lemma first_seen_from_cons (seen l : list string) (k : string) :
  first_seen_from seen (k :: l)
  = first_seen_from (if bool_decide (k ∈ seen) then seen else (seen ++ [k])%list) l.
Proof. done. Qed.

Lemma elem_of_first_seen_from (seen l : list string) (k : string) :
  k ∈ first_seen_from seen l <-> k ∈ seen \/ k ∈ l.
Proof.
  revert seen. induction l as [|x l IH]; intros seen.
  - unfold first_seen_from. simpl. rewrite elem_of_nil. tauto.
  - rewrite first_seen_from_cons, IH, elem_of_cons. case_bool_decide as Hx.
    + split; [tauto|]. intros [?|[->|?]]; tauto.
    + rewrite elem_of_app, list_elem_of_singleton. tauto.
Qed.

Lemma grouped_from_cons (d : PyDict.t (list Phase)) (k : string) (p : Phase)
    (att : list (string * Phase)) :
  grouped_from d ((k, p) :: att)
  = grouped_from (PyDict.set k (default [] (PyDict.get k d) ++ [p])%list d) att.
Proof. done. Qed.

Lemma grouped_keys (att : list (string * Phase)) :
  forall d, PyDict.keys (grouped_from d att)
            = first_seen_from (PyDict.keys d) (map fst att).
Proof.
  induction att as [|[k p] att IH]; intros d; [done|].
  rewrite grouped_from_cons, IH.
  change (map fst ((k, p) :: att)) with (k :: map fst att).
  rewrite first_seen_from_cons. f_equal. case_bool_decide.
  - by apply keys_set_old.
  - by apply keys_set_new.
Qed.

Lemma grouped_NoDup (att : list (string * Phase)) :
  forall d, NoDup (PyDict.keys d) -> NoDup (PyDict.keys (grouped_from d att)).
Proof.
  induction att as [|[k p] att IH]; intros d Hnd; [done|].
  apply IH. by apply NoDup_keys_set.
Qed.

Lemma phases_of_cons (k k' : string) (p : Phase) (att : list (string * Phase)) :
  phases_of k ((k', p) :: att)
  = if decide (k' = k) then p :: phases_of k att else phases_of k att.
Proof.
  unfold phases_of. simpl. case_bool_decide; case_decide; done.
Qed.

Lemma grouped_get (att : list (string * Phase)) (k : string) :
  forall d, default [] (PyDict.get k (grouped_from d att))
            = (default [] (PyDict.get k d) ++ phases_of k att)%list.
Proof.
  induction att as [|[k' p] att IH]; intros d.
  - simpl. unfold phases_of. simpl. by rewrite app_nil_r.
  - rewrite grouped_from_cons, IH, phases_of_cons. case_decide as Hk.
    + subst k'. rewrite get_set_eq. simpl. by rewrite <-app_assoc.
    + by rewrite get_set_ne.
Qed.

(** Grouping gives one entry per client, in the order of the clients'
    first phases, with the client's phases in their order. *)
Lemma grouped (att : list (string * Phase)) :
  grouped_from [] att = map (fun k => (k, phases_of k att)) (clients_seen att).
Proof.
  unfold clients_seen, first_seen.
  pose proof (grouped_keys att []) as Hkeys.
  change (PyDict.keys []) with (@nil string) in Hkeys. rewrite <-Hkeys.
  apply dict_by_keys; [apply grouped_NoDup, NoDup_nil_2|].
  intros k Hk. apply get_Some in Hk as [l Hl].
  pose proof (grouped_get att k []) as Hg. rewrite Hl in Hg. simpl in Hg.
  by rewrite Hl, Hg.
Qed.

Lemma shown_rewritten (c : string) (phase : Phase) :
  shown (rewritten c phase) = true
  /\ clientId (rewritten c phase) = Some c
  /\ durationMinutes (rewritten c phase) = durationMinutes phase.
Proof.
  unfold rewritten, shown. case_decide; simpl; split_and!; try done;
    apply bool_decide_eq_true; set_solver.
Qed.

Lemma shown_ineligible (phase : Phase) :
  eligible phase = false -> category phase <> "side_project" ->
  shown phase = false.
Proof.
  unfold eligible, shown. rewrite !bool_decide_eq_false.
  rewrite !elem_of_cons, !elem_of_nil. tauto.
Qed.

(** The loop of the report over the phases that the update leaves groups
    the phases that the update attributed. *)
Lemma group_outcome
    (classify : string -> option Phase -> option GitlabActivity -> result string)
    (gitlab : option GitlabActivity) (phases phases' : list Phase) :
  Forall2 (outcome classify gitlab) phases phases' ->
  Forall (fun phase => category phase <> "side_project") phases ->
  forall d, fold_left group_phase phases' d
            = grouped_from d (rewritten_all (attributed classify gitlab phases)).
Proof.
  induction 1 as [|phase phase' rest rest' Hout _ IH]; intros Hside d; [done|].
  apply Forall_cons in Hside as [Hp Hside].
  change (fold_left group_phase (phase' :: rest') d)
    with (fold_left group_phase rest' (group_phase d phase')).
  unfold outcome in Hout. destruct (eligible phase) eqn:Hel.
  - destruct Hout as (c & Hc & ->).
    rewrite (attributed_cons_eligible _ _ _ _ c) by done.
    change (rewritten_all ((c, phase) :: attributed classify gitlab rest))
      with ((c, rewritten c phase)
              :: rewritten_all (attributed classify gitlab rest)).
    rewrite grouped_from_cons, IH by done.
    destruct (shown_rewritten c phase) as (Hs & Hid & _).
    unfold group_phase. by rewrite Hs, Hid.
  - subst phase'. rewrite attributed_cons_ineligible by done.
    unfold group_phase. rewrite shown_ineligible by done. by apply IH.
Qed.

Lemma phases_of_rewritten_all (k : string) (att : list (string * Phase)) :
  phases_of k (rewritten_all att) = map (rewritten k) (phases_of k att).
Proof.
  induction att as [|[k' p] att IH]; [done|].
  unfold rewritten_all in *. simpl. rewrite !phases_of_cons. simpl.
  case_decide; [subst; simpl|]; by rewrite IH.
Qed.

Lemma clients_seen_rewritten_all (att : list (string * Phase)) :
  clients_seen (rewritten_all att) = clients_seen att.
Proof.
  unfold clients_seen, rewritten_all. f_equal. rewrite map_map.
  by apply map_ext.
Qed.

Lemma phases_by_client_update (cfg : Config) (data out : DailyRecord) :
  update_timesheet_with_multi_client cfg data = Ok out ->
  no_side_project data ->
  phases_by_client (timelinePhases out)
  = map (fun k =>
           (k, map (rewritten k)
                 (phases_of k
                    (attributed (detect_client_for_work cfg) (gitlabActivity data)
                       (timelinePhases data)))))
      (clients_seen
         (attributed (detect_client_for_work cfg) (gitlabActivity data)
            (timelinePhases data))).
Proof.
  intros H Hside.
  apply update_Ok_frame in H as (_ & _ & _ & _ & st & h & cs & H1 & _).
  apply process_phases_Ok in H1 as (_ & Hall & _); [|apply tracking_ok_empty].
  unfold phases_by_client.
  rewrite (group_outcome _ _ _ _ Hall Hside), grouped, clients_seen_rewritten_all.
  apply map_ext. intros k. by rewrite phases_of_rewritten_all.
Qed.

Lemma total_minutes_sum (phases : list Phase) :
  total_minutes phases = foldr Z.add 0 (map durationMinutes phases).
Proof.
  unfold total_minutes.
  assert (forall l a, fold_left Z.add l a = a + foldr Z.add 0 l) as Hf.
  { induction l as [|x l IH]; intros a; simpl; [lia|]. rewrite IH. lia. }
  rewrite Hf. lia.
Qed.

Lemma total_minutes_rewritten (k : string) (att : list (string * Phase)) :
  total_minutes (map (rewritten k) (phases_of k att)) = minutes_for k att.
Proof.
  rewrite total_minutes_sum. unfold minutes_for. rewrite map_map. f_equal.
  apply map_ext. intros p. by destruct (shown_rewritten k p) as (_ & _ & ->).
Qed.

(** X19: the timeline of the report groups the phases as the update
    attributed them.  For a day of which no phase came in as side_project,
    phases_by_client has one group per client to which the update
    attributed a phase, in the order of the clients' first phases; the
    group holds the client's phases as the update rewrote them, in the
    order of the day, and the total_minutes of its heading are the
    minutes from which the update computed the client's hours. *)
Theorem timeline_groups_attributed (cfg : Config) (data out : DailyRecord) :
  update_timesheet_with_multi_client cfg data = Ok out ->
  no_side_project data ->
  let att := attributed (detect_client_for_work cfg) (gitlabActivity data)
               (timelinePhases data) in
  phases_by_client (timelinePhases out)
  = map (fun k => (k, map (rewritten k) (phases_of k att))) (clients_seen att)
  /\ Forall (fun group => total_minutes group.2 = minutes_for group.1 att)
       (phases_by_client (timelinePhases out)).
Proof.
  intros H Hside att. pose proof (phases_by_client_update _ _ _ H Hside) as Hg.
  fold att in Hg. split; [exact Hg|]. rewrite Hg.
  apply Forall_forall. intros [k l] Hin.
  apply list_elem_of_In, in_map_iff in Hin as (k' & [= <- <-] & _). simpl.
  apply total_minutes_rewritten.
Qed.

Lemma timeline_groups_attributed_witness :
  exists out,
    update_timesheet_with_multi_client Example.store
      (Example.day (Some Example.commits) Example.mixed_day) = Ok out
    /\ let att := attributed (detect_client_for_work Example.store)
                    (gitlabActivity (Example.day (Some Example.commits)
                                       Example.mixed_day))
                    (timelinePhases (Example.day (Some Example.commits)
                                       Example.mixed_day)) in
       phases_by_client (timelinePhases out)
       = map (fun k => (k, map (rewritten k) (phases_of k att))) (clients_seen att)
       /\ Forall (fun group => total_minutes group.2 = minutes_for group.1 att)
            (phases_by_client (timelinePhases out)).
Proof.
  eexists. split.
  - vm_compute. reflexivity.
  - apply (timeline_groups_attributed Example.store
             (Example.day (Some Example.commits) Example.mixed_day)).
    + vm_compute. reflexivity.
    + repeat constructor; simpl; discriminate.
Defined.

Lemma attributed_defined (cfg : Config) (gitlab : option GitlabActivity)
    (phases : list Phase) (k : string) :
  default_defined cfg ->
  k ∈ clients_seen (attributed (detect_client_for_work cfg) gitlab phases) ->
  is_Some (clients cfg !! k).
Proof.
  intros Hd Hk. unfold clients_seen, first_seen in Hk.
  apply elem_of_first_seen_from in Hk as [Hk|Hk]; [by apply elem_of_nil in Hk|].
  apply list_elem_of_In, in_map_iff in Hk as ([k' p] & Heq & Hin). simpl in Heq.
  subst k'. apply list_elem_of_In in Hin. unfold attributed in Hin.
  apply list_elem_of_omap in Hin as (phase & _ & Hp).
  destruct (eligible phase); [|done].
  destruct (detect_client_for_work cfg _ _ _) as [c|e] eqn:Hc; [|done].
  injection Hp as -> ->. unfold detect_client_for_work in Hc.
  apply detect_from_Ok in Hc as [(_ & _ & c & Hc & _)|Hc]; [by exists c|].
  by apply Hd.
Qed.

Lemma timeline_loop_Ok (cfg : Config) (f : string -> list Phase)
    (ks : list string) :
  Forall (fun k => is_Some (clients cfg !! k)) ks ->
  exists t,
    timeline_loop cfg (map (fun k => (k, f k)) ks) = Ok t
    /\ Forall2
         (fun k e =>
            (exists c, clients cfg !! k = Some c /\ entry_name e = displayName c)
            /\ entry_hours e = total_minutes (f k) / 60
            /\ entry_minutes e = total_minutes (f k) mod 60
            /\ entry_phases e = take 3 (f k))
         ks t.
Proof.
  induction 1 as [|k ks [c Hc] _ (t & Ht & Hall)]; simpl.
  - exists []. split; [done|constructor].
  - rewrite Hc, Ht. simpl. eexists. split; [done|].
    constructor; [|done]. simpl. split_and!; [by exists c|done|done|done].
Qed.

(** X20: the timeline of the report finds every client.  When the default
    client of the configuration, if any, is a defined client, the timeline
    section written for the outcome of an update of a day of which no
    phase came in as side_project raises no KeyError.  It has one entry per
    client of the day, in the order of the clients' first phases, with the
    client's display name, with hours and minutes that add up to the
    minutes of the client's phases, the minutes between 0 and 59, and with
    the first three phases of the client. *)
Theorem timeline_finds_every_client (cfg : Config) (data out : DailyRecord) :
  default_defined cfg ->
  update_timesheet_with_multi_client cfg data = Ok out ->
  no_side_project data ->
  let att := attributed (detect_client_for_work cfg) (gitlabActivity data)
               (timelinePhases data) in
  exists t,
    timeline cfg out = Ok t
    /\ Forall2
         (fun k e =>
            (exists c, clients cfg !! k = Some c /\ entry_name e = displayName c)
            /\ 60 * entry_hours e + entry_minutes e = minutes_for k att
            /\ 0 <= entry_minutes e < 60
            /\ entry_phases e = take 3 (map (rewritten k) (phases_of k att)))
         (clients_seen att) t.
Proof.
  intros Hd H Hside att. unfold timeline.
  rewrite (phases_by_client_update _ _ _ H Hside). fold att.
  destruct (timeline_loop_Ok cfg (fun k => map (rewritten k) (phases_of k att))
              (clients_seen att)) as (t & Ht & Hall).
  { apply Forall_forall. intros k Hk. by eapply attributed_defined. }
  exists t. split; [exact Ht|].
  eapply Forall2_impl; [exact Hall|]. intros k e (Hc & Hh & Hm & Hp).
  rewrite total_minutes_rewritten in Hh, Hm.
  split; [done|]. split; [|split; [|done]].
  - rewrite Hh, Hm. pose proof (Z.div_mod (minutes_for k att) 60). lia.
  - rewrite Hm. apply Z.mod_pos_bound. lia.
Qed.

Lemma timeline_finds_every_client_witness :
  exists out,
    update_timesheet_with_multi_client Example.store
      (Example.day (Some Example.commits) Example.mixed_day) = Ok out
    /\ let att := attributed (detect_client_for_work Example.store)
                    (gitlabActivity (Example.day (Some Example.commits)
                                       Example.mixed_day))
                    (timelinePhases (Example.day (Some Example.commits)
                                       Example.mixed_day)) in
       exists t,
         timeline Example.store out = Ok t
         /\ Forall2
              (fun k e =>
                 (exists c, clients Example.store !! k = Some c
                            /\ entry_name e = displayName c)
                 /\ 60 * entry_hours e + entry_minutes e = minutes_for k att
                 /\ 0 <= entry_minutes e < 60
                 /\ entry_phases e = take 3 (map (rewritten k) (phases_of k att)))
              (clients_seen att) t.
Proof.
  eexists. split.
  - vm_compute. reflexivity.
  - apply (timeline_finds_every_client Example.store
             (Example.day (Some Example.commits) Example.mixed_day)).
    + intros d [= <-]. apply (bool_decide_unpack _). vm_compute. exact I.
    + vm_compute. reflexivity.
    + repeat constructor; simpl; discriminate.
Defined.

Lemma breakdown_loop_Ok (cfg : Config) (cs : list (string * ClientSummary)) :
  Forall (fun kv => is_Some (clients cfg !! kv.1)) cs ->
  exists b,
    breakdown_loop cfg cs = Ok b
    /\ Forall2
         (fun kv e =>
            (exists c, clients cfg !! kv.1 = Some c
                       /\ breakdown_name e = displayName c)
            /\ breakdown_hours e = hours kv.2
            /\ breakdown_billable e = billed kv.1)
         cs b.
Proof.
  induction 1 as [|[k s] cs [c Hc] _ (b & Hb & Hall)]; simpl.
  - exists []. split; [done|constructor].
  - simpl in Hc. rewrite Hc, Hb. simpl. eexists. split; [done|].
    constructor; [|done]. simpl. split_and!; [by exists c|done|done].
Qed.

(** The clients of the client summary are clients of the day. *)
Lemma client_summary_seen (cfg : Config) (data out : DailyRecord) :
  update_timesheet_with_multi_client cfg data = Ok out ->
  exists cs,
    clientSummary out = Some cs
    /\ Forall
         (fun kv =>
            kv.1 ∈ clients_seen
                     (attributed (detect_client_for_work cfg)
                        (gitlabActivity data) (timelinePhases data)))
         cs.
Proof.
  intros H.
  apply update_Ok_frame in H
    as (_ & _ & _ & _ & st & h & cs & H1 & _ & H3 & Hcs & _).
  exists cs. split; [done|].
  pose proof (process_phases_minutes _ _ _ _ _ H1) as Hcm.
  apply process_phases_Ok in H1 as ([Hnd _ _] & _); [|apply tracking_ok_empty].
  destruct (summary_loop_Ok st (client_minutes st) [] cs Hnd H3)
    as (entries & -> & Hall).
  simpl. apply Forall_forall. intros e He.
  apply list_elem_of_lookup in He as [i Hi].
  destruct (Forall2_lookup_r _ _ _ _ _ Hall Hi) as (kv & Hkv & Hk & _).
  rewrite Hk. apply list_elem_of_lookup_2, list_elem_of_In in Hkv.
  apply filter_In in Hkv as [Hkv _]. rewrite Hcm in Hkv.
  apply in_map_iff in Hkv as (k & <- & Hin). simpl.
  by apply list_elem_of_In.
Qed.

(** X21: the client breakdown of the report finds every client.  When the
    default client of the configuration, if any, is a defined client, the
    breakdown written for the outcome of an update raises no KeyError: it
    has one entry per entry of the client summary, in the same order,
    with the display name of the client, the hours of the summary, and
    the mark of a billable client for every id but "personal". *)
Theorem breakdown_finds_every_client (cfg : Config) (data out : DailyRecord) :
  default_defined cfg ->
  update_timesheet_with_multi_client cfg data = Ok out ->
  exists cs b,
    clientSummary out = Some cs
    /\ client_breakdown cfg out = Ok b
    /\ Forall2
         (fun kv e =>
            (exists c, clients cfg !! kv.1 = Some c
                       /\ breakdown_name e = displayName c)
            /\ breakdown_hours e = hours kv.2
            /\ breakdown_billable e = billed kv.1)
         cs b.
Proof.
  intros Hd H. destruct (client_summary_seen _ _ _ H) as (cs & Hcs & Hseen).
  destruct (breakdown_loop_Ok cfg cs) as (b & Hb & Hall).
  { eapply Forall_impl; [exact Hseen|]. intros kv Hkv. simpl in Hkv.
    exact (attributed_defined cfg _ _ _ Hd Hkv). }
  exists cs, b. unfold client_breakdown. rewrite Hcs. by split_and!.
Qed.

Lemma breakdown_finds_every_client_witness :
  exists out,
    update_timesheet_with_multi_client Example.store
      (Example.day (Some Example.commits) Example.mixed_day) = Ok out
    /\ exists cs b,
         clientSummary out = Some cs
         /\ client_breakdown Example.store out = Ok b
         /\ Forall2
              (fun kv e =>
                 (exists c, clients Example.store !! kv.1 = Some c
                            /\ breakdown_name e = displayName c)
                 /\ breakdown_hours e = hours kv.2
                 /\ breakdown_billable e = billed kv.1)
              cs b.
Proof.
  eexists. split.
  - vm_compute. reflexivity.
  - apply (breakdown_finds_every_client Example.store
             (Example.day (Some Example.commits) Example.mixed_day)).
    + intros d [= <-]. apply (bool_decide_unpack _). vm_compute. exact I.
    + vm_compute. reflexivity.
Defined.
